(** * SolarAutopilot: price provider, warning monitor, notification fan-out
      and charging decision, embedded from the JavaScript services.

    Conventions of the embedding.
    - JavaScript numbers that carry measurements, prices and thresholds are
      exact rationals ([Q]); instants ([Date], ISO timestamps, [Date.now()])
      are milliseconds since the epoch ([Z]); counts passed to
      [Array.prototype.slice(0, n)] are naturals, for which [slice(0, n)] is
      [firstn n].
    - JavaScript objects indexed by a computed key ([systemState[parameter]],
      the files of the data directory) are finite maps ([gmap]).
    - Code that throws and catches runs in a state-and-exception monad in
      which the state written before a [throw] survives it, as mutation of
      [this.cache] does in the source. *)

From Stdlib Require Import ZArith QArith Lqa List Sorted Permutation.
From stdpp Require Import base option list gmap strings pretty.

Open Scope Z_scope.

(** ** JavaScript helpers *)

Module JS.

(** [a < b] and [a <= b] on numbers. *)
Definition Qlt_bool (x y : Q) : bool :=
  (Qnum x * QDen y <? Qnum y * QDen x)%Z.

Definition Qleb (x y : Q) : bool := Qle_bool x y.

(** [Array.prototype.sort(cmp)]: stable; [b] moves before [a] exactly when
    [cmp(a, b) > 0].  Insertion from the right keeps equal keys in their
    original order. *)
Section Sort.
Context {A : Type} (cmp : A -> A -> Q).

Fixpoint insert (x : A) (l : list A) : list A :=
  match l with
  | [] => [x]
  | y :: l' => if Qlt_bool 0 (cmp x y) then y :: insert x l' else x :: l
  end.

Fixpoint sort (l : list A) : list A :=
  match l with
  | [] => []
  | x :: l' => insert x (sort l')
  end.
End Sort.

(** Ascending by [key]; among equal keys, in the order [R]. *)
Definition lexOrder {A : Type} (key : A -> Q) (R : A -> A -> Prop) (a b : A) : Prop :=
  (key a < key b)%Q \/ ((key a == key b)%Q /\ R a b).

(** [arr.includes(s)] on an array of strings. *)
Definition includes (s : string) (arr : list string) : bool :=
  existsb (String.eqb s) arr.

(** Outcome of a call that may throw. *)
Inductive outcome (A : Type) : Type :=
| Ok (a : A)
| Throw (msg : string).
Arguments Ok {A} a.
Arguments Throw {A} msg.

(** Computations over a mutable object of type [S] that may throw. *)
Definition M (S A : Type) : Type := S -> outcome A * S.

Definition ret {S A} (a : A) : M S A := fun s => (Ok a, s).
Definition throw {S A} (msg : string) : M S A := fun s => (Throw msg, s).
Definition bind {S A B} (m : M S A) (k : A -> M S B) : M S B :=
  fun s => match m s with
           | (Ok a, s') => k a s'
           | (Throw e, s') => (Throw e, s')
           end.
Definition try_catch {S A} (m : M S A) (handler : string -> M S A) : M S A :=
  fun s => match m s with
           | (Ok a, s') => (Ok a, s')
           | (Throw e, s') => handler e s'
           end.
Definition get {S} : M S S := fun s => (Ok s, s).
Definition modify {S} (f : S -> S) : M S unit := fun s => (Ok tt, f s).

End JS.

Notation "'let!' x ':=' m 'in' k" := (JS.bind m (fun x => k))
  (at level 10, x name, m at level 100, k at level 200).
Notation "'run!' m 'in' k" := (JS.bind m (fun _ => k))
  (at level 10, m at level 100, k at level 200).

(** Wall clock read by [new Date()]: the instant and the local hour of day
    ([getHours()], which depends on the host's time zone).  One call of a
    service function reads the same clock throughout. *)
Record Clock := { now_ms : Z; local_hour : Z }.

(** The data directory: file name to file content. *)
Abbreviation FileSystem := (gmap string string).

(** ** services/warningService.js *)

Module Warning.

Record WarningType := {
  wt_id : string;
  wt_name : string;
  wt_description : string;
  wt_parameter : string;
  wt_condition : string;
  wt_threshold : Q;
  wt_enabled : bool;
  wt_priority : string;
  wt_cooldownMinutes : Q;
  wt_timeCondition : option string
}.

Record Triggered := {
  tr_parameter : string;
  tr_value : Q;
  tr_threshold : Q;
  tr_condition : string
}.

Record WarningInstance := {
  wi_id : string;
  wi_warningTypeId : string;
  wi_timestamp : Z;
  wi_systemState : gmap string Q;
  wi_title : string;
  wi_description : string;
  wi_priority : string;
  wi_triggered : Triggered
}.

Record Config := {
  enabled : bool;
  warningTypes : list WarningType;
  warningHistory : list WarningInstance;
  maxHistoryItems : nat
}.

Definition defaultConfig : Config :=
  {| enabled := true; warningTypes := []; warningHistory := [];
     maxHistoryItems := 100 |}.

Definition WARNINGS_CONFIG_FILE : string := "data/warnings_config.json".

(** The file level: [JSON.parse] and [JSON.stringify] are the runtime's. *)
Section Files.
Variable parse : string -> option Config.
Variable stringify : Config -> string.

Definition ensureConfigFile (fs : FileSystem) : FileSystem :=
  match fs !! WARNINGS_CONFIG_FILE with
  | Some _ => fs
  | None => <[WARNINGS_CONFIG_FILE := stringify defaultConfig]> fs
  end.

(** [getConfig]: the parsed file, or a copy of the defaults when reading
    or parsing fails.  Returns the file system it leaves behind.  (The
    copy is shallow; the defaults are taken as never mutated through
    it, as in a process where no mutator has worked on the copy yet.
    [WarningStore] has the defaults in memory and the sharing.) *)
Definition getConfig (fs : FileSystem) : Config * FileSystem :=
  let fs1 := ensureConfigFile fs in
  match fs1 !! WARNINGS_CONFIG_FILE with
  | Some content =>
      match parse content with
      | Some config => (config, fs1)
      | None => (defaultConfig, fs1)
      end
  | None => (defaultConfig, fs1)
  end.

Definition saveConfig (config : Config) (fs : FileSystem) : FileSystem :=
  <[WARNINGS_CONFIG_FILE := stringify config]> (ensureConfigFile fs).
End Files.

(** From here on the persisted document is held parsed: every [getConfig()]
    of the source re-reads what the previous [saveConfig()] wrote. *)

Definition getWarningTypeById (config : Config) (id : string) : option WarningType :=
  List.find (fun warning => String.eqb (wt_id warning) id) (warningTypes config).

(** [isDaytime], commented "8 AM to 6 PM" in the source. *)
Definition isDaytime (clock : Clock) : bool :=
  let hour := local_hour clock in
  (8 <=? hour) && (hour <=? 18).

Definition isWarningOnCooldown (config : Config) (clock : Clock) (warningTypeId : string) : bool :=
  match getWarningTypeById config warningTypeId with
  | None => true
  | Some warningType =>
      let occurrences :=
        List.filter (fun w => String.eqb (wi_warningTypeId w) warningTypeId)
                    (warningHistory config) in
      match JS.sort (fun a b => inject_Z (wi_timestamp b - wi_timestamp a)) occurrences with
      | [] => false
      | recentWarning :: _ =>
          let warningTime := wi_timestamp recentWarning in
          let currentTime := now_ms clock in
          let elapsedMinutes := (inject_Z (currentTime - warningTime) / inject_Z (1000 * 60))%Q in
          JS.Qlt_bool elapsedMinutes (wt_cooldownMinutes warningType)
      end
  end.

Definition evaluateCondition (condition : string) (currentValue thresholdValue : Q) : bool :=
  if String.eqb condition "lt" then JS.Qlt_bool currentValue thresholdValue
  else if String.eqb condition "gt" then JS.Qlt_bool thresholdValue currentValue
  else if String.eqb condition "eq" then Qeq_bool currentValue thresholdValue
  else if String.eqb condition "lte" then JS.Qleb currentValue thresholdValue
  else if String.eqb condition "gte" then JS.Qleb thresholdValue currentValue
  else false.

(** [addWarningToHistory]: [unshift], then [slice(0, maxHistoryItems)] when
    the history has grown past the cap. *)
Definition addWarningToHistory (config : Config) (warningInstance : WarningInstance) : Config :=
  let history := warningInstance :: warningHistory config in
  let history' :=
    if (maxHistoryItems config <? length history)%nat
    then firstn (maxHistoryItems config) history
    else history in
  {| enabled := enabled config; warningTypes := warningTypes config;
     warningHistory := history'; maxHistoryItems := maxHistoryItems config |}.

(** The [warningInstance] object built by [checkWarnings]. *)
Definition mkInstance (clock : Clock) (systemState : gmap string Q)
    (warningType : WarningType) (currentValue : Q) : WarningInstance :=
  {| wi_id := "instance-" +:+ pretty (now_ms clock);
     wi_warningTypeId := wt_id warningType;
     wi_timestamp := now_ms clock;
     wi_systemState := systemState;
     wi_title := wt_name warningType;
     wi_description := wt_description warningType;
     wi_priority := wt_priority warningType;
     wi_triggered := {| tr_parameter := wt_parameter warningType;
                        tr_value := currentValue;
                        tr_threshold := wt_threshold warningType;
                        tr_condition := wt_condition warningType |} |}.

(** [warningType.timeCondition === 'daytime'] *)
Definition isDaytimeCondition (tc : option string) : bool :=
  match tc with
  | Some s => String.eqb s "daytime"
  | None => false
  end.

(** Body of the [forEach] of [checkWarnings]: the triggered list so far and
    the persisted document, before and after one rule. *)
Definition checkWarning (clock : Clock) (systemState : gmap string Q)
    (acc : list WarningInstance * Config) (warningType : WarningType)
  : list WarningInstance * Config :=
  let '(triggeredWarnings, config) := acc in
  if isWarningOnCooldown config clock (wt_id warningType) then acc
  else if isDaytimeCondition (wt_timeCondition warningType) && negb (isDaytime clock) then acc
  else match systemState !! wt_parameter warningType with
       | None => acc
       | Some currentValue =>
           if evaluateCondition (wt_condition warningType) currentValue (wt_threshold warningType)
           then let warningInstance := mkInstance clock systemState warningType currentValue in
                (triggeredWarnings ++ [warningInstance],
                 addWarningToHistory config warningInstance)
           else acc
       end.

Definition checkWarnings (config : Config) (clock : Clock) (systemState : gmap string Q)
  : list WarningInstance * Config :=
  if negb (enabled config) then ([], config)
  else
    let enabledWarnings := List.filter wt_enabled (warningTypes config) in
    fold_left (checkWarning clock systemState) enabledWarnings ([], config).

End Warning.

(** ** services/tibberService.js *)

Module Tibber.

(** [this.config], every property present and of its documented type. *)
Record Config := {
  enabled : bool;
  apiKey : string;
  homeId : string;
  country : string;
  timezone : string;
  currency : string;
  targetSoC : Q;
  minimumSoC : Q;
  maxPriceThreshold : option Q;        (* [null] is [None] *)
  usePriceLevels : bool;
  allowedPriceLevels : list string
}.

Definition defaultConfig : Config :=
  {| enabled := false; apiKey := ""; homeId := ""; country := "DE";
     timezone := "Europe/Berlin"; currency := "EUR";
     targetSoC := 80%Q; minimumSoC := 20%Q; maxPriceThreshold := None;
     usePriceLevels := true;
     allowedPriceLevels := ["VERY_CHEAP"; "CHEAP"; "NORMAL"] |}.

Definition configFile : string := "data/tibber_config.json".

Section Files.
Variable parse : string -> option Config.
Variable stringify : Config -> string.

Definition saveConfigSync (config : Config) (fs : FileSystem) : FileSystem :=
  <[configFile := stringify config]> fs.

(** [loadConfig], with [fs.writeFileSync] succeeding. *)
Definition loadConfig (clock : Clock) (fs : FileSystem) : Config * FileSystem :=
  match fs !! configFile with
  | Some fileContent =>
      match parse fileContent with
      | Some parsed => (parsed, fs)
      | None =>
          let backupFile := configFile +:+ ".corrupted." +:+ pretty (now_ms clock) in
          let fs1 := <[backupFile := fileContent]> fs in
          (defaultConfig, saveConfigSync defaultConfig fs1)
      end
  | None => (defaultConfig, saveConfigSync defaultConfig fs)
  end.
End Files.

(** A partial config as posted to [updateConfig]: [None] is an absent
    property. *)
Record ConfigUpdate := {
  u_enabled : option bool;
  u_apiKey : option string;
  u_homeId : option string;
  u_country : option string;
  u_timezone : option string;
  u_currency : option string;
  u_targetSoC : option Q;
  u_minimumSoC : option Q;
  u_maxPriceThreshold : option (option Q);
  u_usePriceLevels : option bool;
  u_allowedPriceLevels : option (list string)
}.

Record Country := {
  code : string;
  name : string;
  c_timezone : string;
  c_currency : string
}.

Definition getSupportedCountries : list Country :=
  [ {| code := "NO"; name := "Norway"; c_timezone := "Europe/Oslo"; c_currency := "NOK" |};
    {| code := "SE"; name := "Sweden"; c_timezone := "Europe/Stockholm"; c_currency := "EUR" |};
    {| code := "DK"; name := "Denmark"; c_timezone := "Europe/Copenhagen"; c_currency := "DKK" |};
    {| code := "FI"; name := "Finland"; c_timezone := "Europe/Helsinki"; c_currency := "EUR" |};
    {| code := "DE"; name := "Germany"; c_timezone := "Europe/Berlin"; c_currency := "EUR" |};
    {| code := "AT"; name := "Austria"; c_timezone := "Europe/Vienna"; c_currency := "EUR" |};
    {| code := "CH"; name := "Switzerland"; c_timezone := "Europe/Zurich"; c_currency := "CHF" |};
    {| code := "NL"; name := "Netherlands"; c_timezone := "Europe/Amsterdam"; c_currency := "EUR" |};
    {| code := "BE"; name := "Belgium"; c_timezone := "Europe/Brussels"; c_currency := "EUR" |};
    {| code := "FR"; name := "France"; c_timezone := "Europe/Paris"; c_currency := "EUR" |};
    {| code := "LU"; name := "Luxembourg"; c_timezone := "Europe/Luxembourg"; c_currency := "EUR" |};
    {| code := "GB"; name := "United Kingdom"; c_timezone := "Europe/London"; c_currency := "GBP" |};
    {| code := "IE"; name := "Ireland"; c_timezone := "Europe/Dublin"; c_currency := "EUR" |};
    {| code := "ES"; name := "Spain"; c_timezone := "Europe/Madrid"; c_currency := "EUR" |};
    {| code := "IT"; name := "Italy"; c_timezone := "Europe/Rome"; c_currency := "EUR" |};
    {| code := "PT"; name := "Portugal"; c_timezone := "Europe/Lisbon"; c_currency := "EUR" |};
    {| code := "GR"; name := "Greece"; c_timezone := "Europe/Athens"; c_currency := "EUR" |};
    {| code := "PL"; name := "Poland"; c_timezone := "Europe/Warsaw"; c_currency := "PLN" |};
    {| code := "CZ"; name := "Czech Republic"; c_timezone := "Europe/Prague"; c_currency := "CZK" |};
    {| code := "HU"; name := "Hungary"; c_timezone := "Europe/Budapest"; c_currency := "HUF" |};
    {| code := "RO"; name := "Romania"; c_timezone := "Europe/Bucharest"; c_currency := "RON" |};
    {| code := "EE"; name := "Estonia"; c_timezone := "Europe/Tallinn"; c_currency := "EUR" |};
    {| code := "LV"; name := "Latvia"; c_timezone := "Europe/Riga"; c_currency := "EUR" |};
    {| code := "LT"; name := "Lithuania"; c_timezone := "Europe/Vilnius"; c_currency := "EUR" |} ].

(** [String.prototype.toUpperCase] on strings of ASCII characters (the
    country codes are ASCII).  On other strings the function of the
    language does more; [Countries] takes it as a parameter. *)
Definition upperAscii (c : Ascii.ascii) : Ascii.ascii :=
  let n := Ascii.N_of_ascii c in
  if ((97 <=? n) && (n <=? 122))%N then Ascii.ascii_of_N (n - 32) else c.

Fixpoint toUpperCase (s : string) : string :=
  match s with
  | EmptyString => EmptyString
  | String c s' => String (upperAscii c) (toUpperCase s')
  end.

Definition findCountry (p : Country -> bool) : option Country :=
  List.find p getSupportedCountries.

(** [getCountrySettings]: the country of that code, as given or in upper
    case, Germany when there is none. *)
Definition getCountrySettings (countryCode : string) : option Country :=
  if String.eqb countryCode "" then findCountry (fun c => String.eqb (code c) "DE")
  else
    let upperCode := toUpperCase countryCode in
    match findCountry (fun c => String.eqb (code c) countryCode || String.eqb (code c) upperCode) with
    | Some country => Some country
    | None => findCountry (fun c => String.eqb (code c) "DE")
    end.

(** Truthiness of an optional string property. *)
Definition truthy (v : option string) : bool :=
  match v with
  | Some s => negb (String.eqb s "")
  | None => false
  end.

(** [delete newConfig.apiKey] *)
Definition deleteApiKey (u : ConfigUpdate) : ConfigUpdate :=
  {| u_enabled := u_enabled u; u_apiKey := None; u_homeId := u_homeId u;
     u_country := u_country u; u_timezone := u_timezone u;
     u_currency := u_currency u; u_targetSoC := u_targetSoC u;
     u_minimumSoC := u_minimumSoC u;
     u_maxPriceThreshold := u_maxPriceThreshold u;
     u_usePriceLevels := u_usePriceLevels u;
     u_allowedPriceLevels := u_allowedPriceLevels u |}.

(** [newConfig.currency = c] *)
Definition setCurrency (u : ConfigUpdate) (c : string) : ConfigUpdate :=
  {| u_enabled := u_enabled u; u_apiKey := u_apiKey u; u_homeId := u_homeId u;
     u_country := u_country u; u_timezone := u_timezone u;
     u_currency := Some c; u_targetSoC := u_targetSoC u;
     u_minimumSoC := u_minimumSoC u;
     u_maxPriceThreshold := u_maxPriceThreshold u;
     u_usePriceLevels := u_usePriceLevels u;
     u_allowedPriceLevels := u_allowedPriceLevels u |}.

(** [{ ...config, ...newConfig }] *)
Definition spread (config : Config) (newConfig : ConfigUpdate) : Config :=
  {| enabled := default (enabled config) (u_enabled newConfig);
     apiKey := default (apiKey config) (u_apiKey newConfig);
     homeId := default (homeId config) (u_homeId newConfig);
     country := default (country config) (u_country newConfig);
     timezone := default (timezone config) (u_timezone newConfig);
     currency := default (currency config) (u_currency newConfig);
     targetSoC := default (targetSoC config) (u_targetSoC newConfig);
     minimumSoC := default (minimumSoC config) (u_minimumSoC newConfig);
     maxPriceThreshold := default (maxPriceThreshold config) (u_maxPriceThreshold newConfig);
     usePriceLevels := default (usePriceLevels config) (u_usePriceLevels newConfig);
     allowedPriceLevels := default (allowedPriceLevels config) (u_allowedPriceLevels newConfig) |}.

(** The API key branch of [updateConfig]: the masks and the empty string are
    deleted from the update, any other key is kept as received. *)
Definition handleApiKey (newConfig : ConfigUpdate) : ConfigUpdate :=
  match u_apiKey newConfig with
  | Some key =>
      if String.eqb key "***" || String.eqb key "******" then deleteApiKey newConfig
      else if String.eqb key "" then deleteApiKey newConfig
      else newConfig
  | None => newConfig
  end.

(** [if (newConfig.country && !newConfig.currency)]: the currency of the
    country's settings is written into the update. *)
Definition autoFillCurrency (newConfig : ConfigUpdate) : ConfigUpdate :=
  if truthy (u_country newConfig) && negb (truthy (u_currency newConfig)) then
    match getCountrySettings (default "" (u_country newConfig)) with
    | Some countryData => setCurrency newConfig (c_currency countryData)
    | None => newConfig
    end
  else newConfig.

(** [updateConfig(newConfig)]: the new value of [this.config]. *)
Definition updateConfig (config : Config) (newConfig : ConfigUpdate) : Config :=
  spread config (autoFillCurrency (handleApiKey newConfig)).

(** Price points as cached: amounts in cents. *)
Record PricePoint := {
  total : Q;
  energy : Q;
  tax : Q;
  startsAt : Z;
  level : string;
  pp_currency : string
}.

Record PriceInfo := {
  current : PricePoint;
  today : list PricePoint;
  tomorrow : list PricePoint
}.

(** [this.cache]; its [consumption] property is never written and is left
    out. *)
Record Cache := {
  currentPrice : option PricePoint;
  priceInfo : option PriceInfo;
  forecast : list PricePoint;
  timestamp : option Z
}.

(** The service object: [this.config], [this.cache], [this.lastUpdate]. *)
Record Service := {
  config : Config;
  cache : Cache;
  lastUpdate : option Z
}.

(** What the price API answers, in major currency units.  A property that
    is [null] or missing is [None]. *)
Record RawPrice := {
  r_total : Q;
  r_energy : Q;
  r_tax : Q;
  r_startsAt : Z;
  r_level : string
}.

Record RawPriceInfo := {
  rp_current : option RawPrice;
  rp_today : option (list RawPrice);
  rp_tomorrow : option (list RawPrice)
}.

(** A home; [home_priceInfo] is [currentSubscription.priceInfo], [None]
    when the subscription or its price info is [null]. *)
Record Home := {
  home_id : string;
  home_priceInfo : option RawPriceInfo
}.

Record Viewer := {
  viewer_home : option Home;
  viewer_homes : option (list Home)
}.

(** Outcome of [axios.post] on the price API. *)
Inductive Response :=
| TransportFailure (message : string)   (* no connection, timeout, HTTP error status *)
| GraphQLErrors (message : string)      (* [response.data.errors], e.g. rejected credentials *)
| Data (viewer : option Viewer).

Definition makeGraphQLRequest (api : Response) : JS.M Service (option Viewer) :=
  JS.try_catch
    (match api with
     | TransportFailure message => JS.throw message
     | GraphQLErrors message => JS.throw message
     | Data data => JS.ret data
     end)
    (fun error => JS.throw error).

(** Euro to cents: the amounts times 100, the currency [cent], the rest of
    the entry as it was.  The numbers of the source are doubles and its
    products are rounded; the amounts are exact here, and what is stated of
    cached prices does not depend on the rounding. *)
Definition convert (price : RawPrice) : PricePoint :=
  {| total := (r_total price * 100)%Q;
     energy := (r_energy price * 100)%Q;
     tax := (r_tax price * 100)%Q;
     startsAt := r_startsAt price;
     level := r_level price;
     pp_currency := "cent" |}.

Definition TypeError : string := "TypeError: Cannot read properties of null".

(** [saveCache]: the write to the time-series store catches its own
    failures; the cache timestamp is then set. *)
Definition saveCache (clock : Clock) : JS.M Service unit :=
  JS.modify (fun s =>
    {| config := config s;
       cache := {| currentPrice := currentPrice (cache s);
                   priceInfo := priceInfo (cache s);
                   forecast := forecast (cache s);
                   timestamp := Some (now_ms clock) |};
       lastUpdate := lastUpdate s |}).

(** The conversion and cache update shared, line for line, by
    [getCurrentPriceInfo] and [getPriceInfoFromFirstHome]. *)
Definition ingestPriceInfo (clock : Clock) (priceInfo : option RawPriceInfo)
  : JS.M Service PriceInfo :=
  match priceInfo with
  | None => JS.throw TypeError
  | Some raw =>
      match rp_current raw with
      | None => JS.throw TypeError
      | Some rawCurrent =>
          let convertedCurrent := convert rawCurrent in
          match rp_today raw with
          | None => JS.throw TypeError
          | Some rawToday =>
              let convertedToday := List.map convert rawToday in
              let convertedTomorrow := List.map convert (default [] (rp_tomorrow raw)) in
              let info := {| current := convertedCurrent; today := convertedToday;
                             tomorrow := convertedTomorrow |} in
              run! JS.modify (fun s =>
                     {| config := config s;
                        cache := {| currentPrice := Some convertedCurrent;
                                    priceInfo := Some info;
                                    forecast := convertedToday ++ convertedTomorrow;
                                    timestamp := timestamp (cache s) |};
                        lastUpdate := Some (now_ms clock) |}) in
              run! saveCache clock in
              JS.ret info
          end
      end
  end.

Definition getPriceInfoFromFirstHome (api : Response) (clock : Clock)
  : JS.M Service PriceInfo :=
  JS.try_catch
    (let! data := makeGraphQLRequest api in
     match data with
     | None => JS.throw TypeError
     | Some viewer =>
         match viewer_homes viewer with
         | None | Some [] => JS.throw "No homes found in your Tibber account"
         | Some (firstHome :: _) => ingestPriceInfo clock (home_priceInfo firstHome)
         end
     end)
    (fun error => JS.throw error).

Definition getCurrentPriceInfo (api : Response) (clock : Clock) (homeIdArg : option string)
  : JS.M Service PriceInfo :=
  let! s := JS.get in
  let targetHomeId := if truthy homeIdArg then default "" homeIdArg else homeId (config s) in
  if String.eqb targetHomeId "" then getPriceInfoFromFirstHome api clock
  else
    JS.try_catch
      (let! data := makeGraphQLRequest api in
       match data with
       | None => JS.throw TypeError
       | Some viewer =>
           match viewer_home viewer with
           | None => JS.throw TypeError
           | Some home => ingestPriceInfo clock (home_priceInfo home)
           end
       end)
      (fun error => JS.throw error).

Definition refreshData (api : Response) (clock : Clock) : JS.M Service bool :=
  JS.try_catch
    (let! s := JS.get in
     if negb (enabled (config s)) then JS.ret false
     else if String.eqb (apiKey (config s)) "" || String.eqb (apiKey (config s)) "***"
     then JS.ret false
     else
       run! getCurrentPriceInfo api clock None in
       JS.ret true)
    (fun error => JS.ret false).

Definition isFuture (clock : Clock) (price : PricePoint) : bool :=
  now_ms clock <? startsAt price.

(** [calculateAveragePrice(hours)].  The sum and the quotient are exact here
    and rounded in the source; the average is used only as the one number
    that [isPriceGood] compares prices against. *)
Definition calculateAveragePrice (s : Service) (clock : Clock) (hours : nat) : option Q :=
  match forecast (cache s) with
  | [] => None
  | _ =>
      let futureHours := firstn hours (List.filter (isFuture clock) (forecast (cache s))) in
      if (length futureHours =? 0)%nat then None
      else
        let avg := (fold_left (fun acc p => acc + total p) futureHours 0
                    / inject_Z (Z.of_nat (length futureHours)))%Q in
        Some avg
  end.

Record CheapHour := {
  ch_time : Z;
  ch_price : Q;
  ch_level : string
}.

Definition cheapHour (price : PricePoint) : CheapHour :=
  {| ch_time := startsAt price; ch_price := total price; ch_level := level price |}.

Definition getCheapestHours (s : Service) (clock : Clock) (count hoursAhead : nat)
  : list CheapHour :=
  match forecast (cache s) with
  | [] => []
  | _ =>
      let futureHours := firstn hoursAhead (List.filter (isFuture clock) (forecast (cache s))) in
      List.map cheapHour
               (firstn count (JS.sort (fun a b => (total a - total b)%Q) futureHours))
  end.

(** The invariant of the price cache: strictly ascending by [startsAt]. *)
Definition ascending (l : list PricePoint) : Prop :=
  StronglySorted (fun a b => startsAt a < startsAt b) l.

(** An hourly forecast without gaps after the instant [prev]: every entry
    starts at most one hour after the one before it, the first at most one
    hour after [prev]. *)
Fixpoint hourlyFrom (prev : Z) (l : list PricePoint) : Prop :=
  match l with
  | [] => True
  | p :: l' => startsAt p <= prev + 3600000 /\ hourlyFrom (startsAt p) l'
  end.

Definition isPriceGood (s : Service) (clock : Clock) (currentPriceArg : option PricePoint) : bool :=
  match (match currentPriceArg with Some p => Some p | None => currentPrice (cache s) end) with
  | None => false
  | Some price =>
      if usePriceLevels (config s) then JS.includes (level price) (allowedPriceLevels (config s))
      else
        match calculateAveragePrice s clock 24 with
        | Some avgPrice => JS.Qlt_bool (total price) avgPrice
        | None =>
            match maxPriceThreshold (config s) with
            | Some threshold => JS.Qleb (total price) threshold
            | None => false
            end
        end
  end.

End Tibber.

(** ** services/telegramService.js *)

Module Telegram.

Record NotificationRule := {
  nr_id : string;
  nr_type : string;                    (* "warning" or "rule" *)
  nr_warningType : option string;
  nr_ruleId : option string;
  nr_enabled : bool
}.

(** The notifier's document; the feature flags that no function modelled
    here reads are left out. *)
Record Config := {
  enabled : bool;
  botToken : string;
  chatIds : list string;
  notificationRules : list NotificationRule
}.

Definition defaultConfig : Config :=
  {| enabled := false; botToken := ""; chatIds := []; notificationRules := [] |}.

Definition TELEGRAM_CONFIG_FILE : string := "data/telegram_config.json".

(** The file level.  [parse] is [JSON.parse] followed by the merge onto the
    defaults ([{ ...defaultConfig, ...config }]). *)
Section Files.
Variable parse : string -> option Config.
Variable stringify : Config -> string.

Definition ensureConfigFile (fs : FileSystem) : FileSystem :=
  match fs !! TELEGRAM_CONFIG_FILE with
  | Some _ => fs
  | None => <[TELEGRAM_CONFIG_FILE := stringify defaultConfig]> fs
  end.

Definition getConfig (fs : FileSystem) : Config * FileSystem :=
  let fs1 := ensureConfigFile fs in
  match fs1 !! TELEGRAM_CONFIG_FILE with
  | Some content =>
      match parse content with
      | Some config => (config, fs1)
      | None => (defaultConfig, fs1)
      end
  | None => (defaultConfig, fs1)
  end.

Definition saveConfig (config : Config) (fs : FileSystem) : FileSystem :=
  <[TELEGRAM_CONFIG_FILE := stringify config]> (ensureConfigFile fs).
End Files.

(** Number of recorded sends that returned. *)
Definition successes (log : list (string * bool)) : nat :=
  length (List.filter snd log).

Section Broadcast.
(** The transport: [axios.post(url, {chat_id, text, parse_mode}, {timeout})]
    as an operation on the outside world [World] that may throw. *)
Context {World : Type}.
Variable post : string -> string -> string -> JS.M World unit.

Definition sendUrl (config : Config) : string :=
  "https://api.telegram.org/bot" +:+ botToken config +:+ "/sendMessage".

(** The [for ... of] loop with its [try]/[catch], carrying [successCount]. *)
Fixpoint sendLoop (config : Config) (message : string) (rest : list string)
    (successCount : nat) : JS.M World nat :=
  match rest with
  | [] => JS.ret successCount
  | chatId :: rest' =>
      let! successCount' :=
        JS.try_catch
          (run! post (sendUrl config) chatId message in
           JS.ret (S successCount))
          (fun error => JS.ret successCount) in
      sendLoop config message rest' successCount'
  end.

Definition configured (config : Config) : bool :=
  negb (negb (enabled config) || String.eqb (botToken config) ""
        || (length (chatIds config) =? 0)%nat).

(** The sends as the outside world sees them: every chat id is posted to
    in turn, in the world left by the sends before it, and is recorded
    with whether its send returned ([true]) or threw ([false]). *)
Fixpoint deliveries (config : Config) (message : string) (rest : list string)
    (w : World) : list (string * bool) * World :=
  match rest with
  | [] => ([], w)
  | chatId :: rest' =>
      let '(sent, w1) :=
        match post (sendUrl config) chatId message w with
        | (JS.Ok _, w1) => (true, w1)
        | (JS.Throw _, w1) => (false, w1)
        end in
      let '(log, w2) := deliveries config message rest' w1 in
      ((chatId, sent) :: log, w2)
  end.

Definition broadcastMessage (config : Config) (message : string) : JS.M World bool :=
  if negb (enabled config) || String.eqb (botToken config) ""
     || (length (chatIds config) =? 0)%nat
  then JS.ret false
  else
    let! successCount := sendLoop config message (chatIds config) 0%nat in
    JS.ret (0 <? successCount)%nat.
End Broadcast.

End Telegram.

(** ** DecisionEngine *)

Module Engine.

(** Modelled from the spec: the data model of the decision engine (section
    3, ChargingDecision and SystemStateSnapshot) and its mode strings
    (section 4.3); the engine is not among the sources, which hold its
    command documentation only. *)
Inductive Decision := START_CHARGING | STOP_CHARGING.

(** Modelled from the spec: the modes named by the priority rules of section
    4.3; the engine is not among the sources. *)
Inductive Mode :=
| Solar_first
| Solar_only
| Utility_first
| Solar_Battery_Utility
| Solar_and_utility_simultaneously
| Solar_Utility_Battery.

(** Modelled from the spec: the literal mode strings of section 4.3; the
    engine is not among the sources. *)
Definition modeName (m : Mode) : string :=
  match m with
  | Solar_first => "Solar first"
  | Solar_only => "Solar only"
  | Utility_first => "Utility first"
  | Solar_Battery_Utility => "Solar/Battery/Utility"
  | Solar_and_utility_simultaneously => "Solar and utility simultaneously"
  | Solar_Utility_Battery => "Solar/Utility/Battery"
  end.

(** Modelled from the spec: SystemStateSnapshot of section 3, as the engine
    reads it; the engine is not among the sources. *)
Record SystemStateSnapshot := {
  battery_soc : Q;
  pv_power : Q;
  load : Q;
  grid_power : Q;
  grid_voltage : Q;
  timestamp : Z
}.

(** Modelled from the spec: ChargingDecision of section 3 and the decision
    log record of section 6; the engine is not among the sources. *)
Record ChargingDecision := {
  decision : Decision;
  mode : Mode;
  reason : string;
  conditions : SystemStateSnapshot;
  price_level : option string;
  decidedAt : Z
}.

(** Modelled from the spec: whether a mode draws on the grid, for the
    legacy vocabulary; the command publisher is not among the sources.  The
    modes without grid use are the solar-priority ones and the
    avoid-the-grid mode of rule 3. *)
Definition usesGrid (m : Mode) : bool :=
  match m with
  | Solar_first | Solar_only | Solar_Battery_Utility => false
  | Utility_first | Solar_and_utility_simultaneously | Solar_Utility_Battery => true
  end.

(** Modelled from the spec: the legacy command vocabulary, a boolean
    [grid_charge] that is [Enabled] unless the mode implies no grid use; the
    command publisher is not among the sources. *)
Definition legacyGridCharge (m : Mode) : string :=
  if usesGrid m then "Enabled" else "Disabled".

Section Decide.
(** At or below this production the array counts as producing nothing
    ([pv_power ≈ 0]). *)
Variable pvTolerance : Q.

(** Modelled from the spec: rule 1 of section 4.3, [battery_soc >= targetSoC]
  or [grid_voltage] outside [200, 250]; the engine is not among the
  sources (its documentation shows the same two tests). *)
Definition safetyOverride (targetSoC : Q) (snapshot : SystemStateSnapshot) : bool :=
  JS.Qleb targetSoC (battery_soc snapshot)
  || JS.Qlt_bool (grid_voltage snapshot) 200
  || JS.Qlt_bool 250 (grid_voltage snapshot).

(** Modelled from the spec: rule 2 of section 4.3, [pv_power > load * 2] and
  [battery_soc < 90]; the engine is not among the sources. *)
Definition strongSolar (snapshot : SystemStateSnapshot) : bool :=
  JS.Qlt_bool (load snapshot * 2)%Q (pv_power snapshot)
  && JS.Qlt_bool (battery_soc snapshot) 90.

(** Modelled from the spec: rule 3 of section 4.3, [pv_power] about 0; the
  engine is not among the sources. *)
Definition noSolar (snapshot : SystemStateSnapshot) : bool :=
  JS.Qleb (pv_power snapshot) pvTolerance.

(** Modelled from the spec: the DecisionEngine's fixed priority evaluation
    (section 4.3), as a function of the snapshot, the current price and
    the configuration; the engine itself is not among the sources, which
    hold its command documentation only.  Price acceptability is the
    provider's [isPriceGood]. *)
Definition decide (provider : Tibber.Service) (clock : Clock)
    (snapshot : SystemStateSnapshot) (currentPrice : option Tibber.PricePoint)
  : ChargingDecision :=
  let priceGood := Tibber.isPriceGood provider clock currentPrice in
  let mk d m r :=
    {| decision := d; mode := m; reason := r; conditions := snapshot;
       price_level := Tibber.level <$> currentPrice;
       decidedAt := now_ms clock |} in
  if safetyOverride (Tibber.targetSoC (Tibber.config provider)) snapshot
  then mk STOP_CHARGING Solar_first "Safety override"
  else if strongSolar snapshot
  then mk START_CHARGING Solar_only "Strong solar surplus"
  else if noSolar snapshot
  then (if priceGood
        then mk START_CHARGING Utility_first "No PV, price acceptable"
        else mk STOP_CHARGING Solar_Battery_Utility "No PV, avoid expensive grid")
  else if priceGood
  then mk START_CHARGING Solar_and_utility_simultaneously "PV + cheap grid"
  else if JS.Qlt_bool (battery_soc snapshot) 50
  then mk START_CHARGING Solar_Utility_Battery "PV moderate, battery low"
  else mk STOP_CHARGING Solar_first "Default".
End Decide.

End Engine.

(** ** Arrays: [findIndex], [indexOf], [slice] *)

Module JSArray.

(** [arr.findIndex(p)]; [-1] is [None]. *)
Fixpoint findIndex {A : Type} (p : A -> bool) (l : list A) : option nat :=
  match l with
  | [] => None
  | x :: l' => if p x then Some 0%nat else S <$> findIndex p l'
  end.

(** [arr.indexOf(s)] on an array of strings. *)
Definition indexOf (s : string) (l : list string) : option nat :=
  findIndex (String.eqb s) l.

(** A relative index of [slice]: a negative one counts from the end, and
    both are clamped to the array. *)
Definition sliceIndex (len i : Z) : Z :=
  if i <? 0 then Z.max (len + i) 0 else Z.min i len.

(** [arr.slice(start, end)] for integers of either sign. *)
Definition slice {A : Type} (start stop : Z) (l : list A) : list A :=
  let len := Z.of_nat (length l) in
  let k := sliceIndex len start in
  let final := sliceIndex len stop in
  firstn (Z.to_nat (final - k)) (skipn (Z.to_nat k) l).

End JSArray.

(** ** services/warningService.js: rule administration and history queries *)

Module WarningAdmin.

Definition setTypes (config : Warning.Config) (types : list Warning.WarningType)
  : Warning.Config :=
  {| Warning.enabled := Warning.enabled config; Warning.warningTypes := types;
     Warning.warningHistory := Warning.warningHistory config;
     Warning.maxHistoryItems := Warning.maxHistoryItems config |}.

Definition setHistory (config : Warning.Config) (history : list Warning.WarningInstance)
  : Warning.Config :=
  {| Warning.enabled := Warning.enabled config;
     Warning.warningTypes := Warning.warningTypes config;
     Warning.warningHistory := history;
     Warning.maxHistoryItems := Warning.maxHistoryItems config |}.

(** [{ ...warning, id }] *)
Definition setId (warning : Warning.WarningType) (id : string) : Warning.WarningType :=
  {| Warning.wt_id := id; Warning.wt_name := Warning.wt_name warning;
     Warning.wt_description := Warning.wt_description warning;
     Warning.wt_parameter := Warning.wt_parameter warning;
     Warning.wt_condition := Warning.wt_condition warning;
     Warning.wt_threshold := Warning.wt_threshold warning;
     Warning.wt_enabled := Warning.wt_enabled warning;
     Warning.wt_priority := Warning.wt_priority warning;
     Warning.wt_cooldownMinutes := Warning.wt_cooldownMinutes warning;
     Warning.wt_timeCondition := Warning.wt_timeCondition warning |}.

Definition getWarningTypes (config : Warning.Config) : list Warning.WarningType :=
  Warning.warningTypes config.

(** [addWarningType]: an empty id is replaced by one made of the time; the
    rule goes to the end of the list.  ([enabled || false] is the identity
    on a boolean.)  Returns the stored rule and the document. *)
Definition addWarningType (config : Warning.Config) (clock : Clock)
    (warningType : Warning.WarningType) : Warning.WarningType * Warning.Config :=
  let stored :=
    if String.eqb (Warning.wt_id warningType) ""
    then setId warningType ("warning-" +:+ pretty (now_ms clock))
    else warningType in
  (stored, setTypes config (Warning.warningTypes config ++ [stored])).

(** [updateWarningType]: the first rule of that id is replaced by the new
    one, which takes the id. *)
Definition updateWarningType (config : Warning.Config) (id : string)
    (updatedWarning : Warning.WarningType) : bool * Warning.Config :=
  match JSArray.findIndex (fun warning => String.eqb (Warning.wt_id warning) id)
          (Warning.warningTypes config) with
  | Some index =>
      (true, setTypes config (<[index := setId updatedWarning id]> (Warning.warningTypes config)))
  | None => (false, config)
  end.

(** [deleteWarningType] *)
Definition deleteWarningType (config : Warning.Config) (id : string)
  : bool * Warning.Config :=
  (true, setTypes config
           (List.filter (fun warning => negb (String.eqb (Warning.wt_id warning) id))
                        (Warning.warningTypes config))).

(** [clearWarningHistory] *)
Definition clearWarningHistory (config : Warning.Config) : bool * Warning.Config :=
  (true, setHistory config []).

(** [setWarningSystemEnabled] *)
Definition setWarningSystemEnabled (config : Warning.Config) (enabled : bool)
  : bool * Warning.Config :=
  (true, {| Warning.enabled := enabled;
            Warning.warningTypes := Warning.warningTypes config;
            Warning.warningHistory := Warning.warningHistory config;
            Warning.maxHistoryItems := Warning.maxHistoryItems config |}).

(** [getEnabledWarningsCount] *)
Definition getEnabledWarningsCount (config : Warning.Config) : nat :=
  length (List.filter Warning.wt_enabled (Warning.warningTypes config)).

(** The options of [getWarningHistory]; [None] is an absent property.  The
    dates are instants, [limit] and [skip] integers (the route passes them
    through [parseInt]). *)
Record HistoryOptions := {
  o_warningTypeId : option string;
  o_priority : option string;
  o_startDate : option Z;
  o_endDate : option Z;
  o_limit : option Z;
  o_skip : option Z
}.

(** The value of [a || b || c || d] over the four filters. *)
Inductive FilterValue :=
| FilterString (s : string)
| FilterDate (ms : Z)
| FilterNone.

Record HistoryPage := {
  warnings : list Warning.WarningInstance;
  total : nat;
  filtered : FilterValue
}.

(** Truthiness of an optional string and of an optional integer. *)
Definition givenString (v : option string) : bool :=
  match v with
  | Some s => negb (String.eqb s "")
  | None => false
  end.

Definition givenNumber (v : option Z) : bool :=
  match v with
  | Some n => negb (n =? 0)
  | None => false
  end.

(** The four filters of [getWarningHistory], applied in the order of the
    source.  Each is guarded by the truthiness of its option
    ([if (options.startDate)]): an empty string and the number 0 are no
    filter.  The dates are given as numbers, the milliseconds that
    [new Date(n)] stands for. *)
Definition applyFilters (options : HistoryOptions) (history : list Warning.WarningInstance)
  : list Warning.WarningInstance :=
  let h1 :=
    if givenString (o_warningTypeId options)
    then List.filter (fun warning =>
           String.eqb (Warning.wi_warningTypeId warning) (default "" (o_warningTypeId options)))
           history
    else history in
  let h2 :=
    if givenString (o_priority options)
    then List.filter (fun warning =>
           String.eqb (Warning.wi_priority warning) (default "" (o_priority options))) h1
    else h1 in
  let h3 :=
    if givenNumber (o_startDate options)
    then List.filter (fun warning =>
           default 0 (o_startDate options) <=? Warning.wi_timestamp warning) h2
    else h2 in
  if givenNumber (o_endDate options)
  then List.filter (fun warning =>
         Warning.wi_timestamp warning <=? default 0 (o_endDate options)) h3
  else h3.

(** [options.warningTypeId || options.priority || options.startDate ||
    options.endDate]: the first truthy one, the last one when none is. *)
Definition filterValue (options : HistoryOptions) : FilterValue :=
  if givenString (o_warningTypeId options)
  then FilterString (default "" (o_warningTypeId options))
  else if givenString (o_priority options)
  then FilterString (default "" (o_priority options))
  else if givenNumber (o_startDate options)
  then FilterDate (default 0 (o_startDate options))
  else match o_endDate options with
       | Some endDate => FilterDate endDate
       | None => FilterNone
       end.

(** [getWarningHistory(options)] *)
Definition getWarningHistory (config : Warning.Config) (options : HistoryOptions)
  : HistoryPage :=
  let history := applyFilters options (Warning.warningHistory config) in
  let total := length history in
  let page :=
    if givenNumber (o_limit options)
    then
      let skip := if givenNumber (o_skip options) then default 0 (o_skip options) else 0 in
      JSArray.slice skip (skip + default 0 (o_limit options)) history
    else history in
  {| warnings := page; total := total; filtered := filterValue options |}.

(** The same query with another [limit] and [skip]. *)
Definition withPage (options : HistoryOptions) (limit skip : option Z) : HistoryOptions :=
  {| o_warningTypeId := o_warningTypeId options; o_priority := o_priority options;
     o_startDate := o_startDate options; o_endDate := o_endDate options;
     o_limit := limit; o_skip := skip |}.

(** The body of a [POST /warnings/types] or [PUT /warnings/types/:id]
    request; [None] is an absent property. *)
Record WarningBody := {
  b_name : option string;
  b_description : option string;
  b_parameter : option string;
  b_condition : option string;
  b_threshold : option Q;
  b_enabled : option bool;
  b_priority : option string;
  b_cooldownMinutes : option Q;
  b_timeCondition : option string
}.

(** [a || fallback] on an optional string. *)
Definition orString (v : option string) (fallback : string) : string :=
  if givenString v then default "" v else fallback.

(** [cooldownMinutes || 30]: a missing or zero cooldown becomes 30. *)
Definition orCooldown (v : option Q) : Q :=
  match v with
  | Some c => if Qeq_bool c 0 then 30%Q else c
  | None => 30%Q
  end.

(** [!name || !parameter || !condition || threshold === undefined] *)
Definition missingFields (body : WarningBody) : bool :=
  negb (givenString (b_name body)) || negb (givenString (b_parameter body))
  || negb (givenString (b_condition body))
  || match b_threshold body with Some _ => false | None => true end.

(** The rule object both routes build from a body that passed the check. *)
Definition ruleOfBody (id : string) (body : WarningBody) : Warning.WarningType :=
  {| Warning.wt_id := id;
     Warning.wt_name := default "" (b_name body);
     Warning.wt_description := orString (b_description body) "";
     Warning.wt_parameter := default "" (b_parameter body);
     Warning.wt_condition := default "" (b_condition body);
     Warning.wt_threshold := default 0%Q (b_threshold body);
     Warning.wt_enabled := default false (b_enabled body);
     Warning.wt_priority := orString (b_priority body) "medium";
     Warning.wt_cooldownMinutes := orCooldown (b_cooldownMinutes body);
     Warning.wt_timeCondition := b_timeCondition body |}.

(** The reply of a route: HTTP status and the [success] property. *)
Record Reply := { status : nat; success : bool }.

(** [POST /warnings/types] *)
Definition postWarningType (config : Warning.Config) (clock : Clock) (body : WarningBody)
  : Reply * Warning.Config :=
  if missingFields body then ({| status := 400; success := false |}, config)
  else
    let warningType := ruleOfBody ("warning-" +:+ pretty (now_ms clock)) body in
    let '(_, config') := addWarningType config clock warningType in
    ({| status := 200; success := true |}, config').

(** [PUT /warnings/types/:id] *)
Definition putWarningType (config : Warning.Config) (id : string) (body : WarningBody)
  : Reply * Warning.Config :=
  if missingFields body then ({| status := 400; success := false |}, config)
  else
    match Warning.getWarningTypeById config id with
    | None => ({| status := 404; success := false |}, config)
    | Some _ =>
        let '(ok, config') := updateWarningType config id (ruleOfBody "" body) in
        ({| status := 200; success := ok |}, config')
    end.

End WarningAdmin.

(** ** services/telegramService.js: chats, notification rules, and the
       routes of routes/notificationRoutes.js that administer them *)

Module TelegramAdmin.

Definition setChatIds (config : Telegram.Config) (ids : list string) : Telegram.Config :=
  {| Telegram.enabled := Telegram.enabled config;
     Telegram.botToken := Telegram.botToken config;
     Telegram.chatIds := ids;
     Telegram.notificationRules := Telegram.notificationRules config |}.

Definition setRules (config : Telegram.Config) (rules : list Telegram.NotificationRule)
  : Telegram.Config :=
  {| Telegram.enabled := Telegram.enabled config;
     Telegram.botToken := Telegram.botToken config;
     Telegram.chatIds := Telegram.chatIds config;
     Telegram.notificationRules := rules |}.

(** A partial document as passed to [updateConfig]. *)
Record ConfigUpdate := {
  cu_enabled : option bool;
  cu_botToken : option string;
  cu_chatIds : option (list string);
  cu_notificationRules : option (list Telegram.NotificationRule)
}.

(** [updateConfig(updates)]: [{ ...currentConfig, ...updates }], saved. *)
Definition updateConfig (config : Telegram.Config) (updates : ConfigUpdate)
  : bool * Telegram.Config :=
  (true,
   {| Telegram.enabled := default (Telegram.enabled config) (cu_enabled updates);
      Telegram.botToken := default (Telegram.botToken config) (cu_botToken updates);
      Telegram.chatIds := default (Telegram.chatIds config) (cu_chatIds updates);
      Telegram.notificationRules :=
        default (Telegram.notificationRules config) (cu_notificationRules updates) |}).

(** [addChatId(chatId)]; the chat id is given as [chatId.toString()]
    renders it. *)
Definition addChatId (config : Telegram.Config) (chatId : string) : bool * Telegram.Config :=
  if negb (JS.includes chatId (Telegram.chatIds config))
  then (true, setChatIds config (Telegram.chatIds config ++ [chatId]))
  else (true, config).

(** [removeChatId(chatId)]: [indexOf], then [splice(index, 1)]. *)
Definition removeChatId (config : Telegram.Config) (chatId : string)
  : bool * Telegram.Config :=
  match JSArray.indexOf chatId (Telegram.chatIds config) with
  | Some index => (true, setChatIds config (delete index (Telegram.chatIds config)))
  | None => (false, config)
  end.

(** [addNotificationRule(rule)] *)
Definition addNotificationRule (config : Telegram.Config) (rule : Telegram.NotificationRule)
  : bool * Telegram.Config :=
  (true, setRules config (Telegram.notificationRules config ++ [rule])).

(** The properties of a rule as an update carries them: [None] is an absent
    property, [Some None] a property present with the value [undefined]. *)
Record RuleUpdate := {
  ru_id : option string;
  ru_type : option string;
  ru_warningType : option (option string);
  ru_ruleId : option (option string);
  ru_enabled : option bool
}.

(** [{ ...rule, ...updates }] *)
Definition mergeRule (rule : Telegram.NotificationRule) (updates : RuleUpdate)
  : Telegram.NotificationRule :=
  {| Telegram.nr_id := default (Telegram.nr_id rule) (ru_id updates);
     Telegram.nr_type := default (Telegram.nr_type rule) (ru_type updates);
     Telegram.nr_warningType := default (Telegram.nr_warningType rule) (ru_warningType updates);
     Telegram.nr_ruleId := default (Telegram.nr_ruleId rule) (ru_ruleId updates);
     Telegram.nr_enabled := default (Telegram.nr_enabled rule) (ru_enabled updates) |}.

(** [updateNotificationRule(ruleId, updates)] *)
Definition updateNotificationRule (config : Telegram.Config) (ruleId : string)
    (updates : RuleUpdate) : bool * Telegram.Config :=
  match JSArray.findIndex (fun rule => String.eqb (Telegram.nr_id rule) ruleId)
          (Telegram.notificationRules config) with
  | Some index =>
      match Telegram.notificationRules config !! index with
      | Some rule =>
          (true, setRules config
                   (<[index := mergeRule rule updates]> (Telegram.notificationRules config)))
      | None => (false, config)
      end
  | None => (false, config)
  end.

(** [deleteNotificationRule(ruleId)] *)
Definition deleteNotificationRule (config : Telegram.Config) (ruleId : string)
  : bool * Telegram.Config :=
  (true, setRules config
           (List.filter (fun rule => negb (String.eqb (Telegram.nr_id rule) ruleId))
                        (Telegram.notificationRules config))).

Definition linkedTo (link : option string) (id : string) : bool :=
  match link with
  | Some s => String.eqb s id
  | None => false
  end.

(** [shouldNotifyForWarning(warningTypeId)] *)
Definition shouldNotifyForWarning (config : Telegram.Config) (warningTypeId : string) : bool :=
  if negb (Telegram.enabled config) then false
  else existsb (fun rule => Telegram.nr_enabled rule
                            && String.eqb (Telegram.nr_type rule) "warning"
                            && linkedTo (Telegram.nr_warningType rule) warningTypeId)
               (Telegram.notificationRules config).

(** [shouldNotifyForRule(ruleId)] *)
Definition shouldNotifyForRule (config : Telegram.Config) (ruleId : string) : bool :=
  if negb (Telegram.enabled config) then false
  else existsb (fun rule => Telegram.nr_enabled rule
                            && String.eqb (Telegram.nr_type rule) "rule"
                            && linkedTo (Telegram.nr_ruleId rule) ruleId)
               (Telegram.notificationRules config).

(** [/^-?\d+$/.test(s)]: an optional minus sign, then one decimal digit or
    more, and nothing else. *)
Definition isDigit (c : Ascii.ascii) : bool :=
  let n := Ascii.N_of_ascii c in ((48 <=? n) && (n <=? 57))%N.

Fixpoint allDigits (s : string) : bool :=
  match s with
  | EmptyString => true
  | String c s' => isDigit c && allDigits s'
  end.

Definition isChatId (s : string) : bool :=
  let digits :=
    match s with
    | String c s' => if Ascii.eqb c (Ascii.ascii_of_N 45) then s' else s   (* "-" *)
    | EmptyString => s
    end in
  negb (String.eqb digits "") && allDigits digits.

(** [POST /telegram/chat-ids] with the chat id as a string. *)
Definition postChatId (config : Telegram.Config) (chatId : string)
  : WarningAdmin.Reply * Telegram.Config :=
  if String.eqb chatId ""
  then ({| WarningAdmin.status := 400; WarningAdmin.success := false |}, config)
  else if negb (isChatId chatId)
  then ({| WarningAdmin.status := 400; WarningAdmin.success := false |}, config)
  else
    let '(ok, config') := addChatId config chatId in
    ({| WarningAdmin.status := 200; WarningAdmin.success := ok |}, config').

(** [DELETE /telegram/chat-ids/:chatId] *)
Definition deleteChatId (config : Telegram.Config) (chatId : string)
  : WarningAdmin.Reply * Telegram.Config :=
  let '(ok, config') := removeChatId config chatId in
  ({| WarningAdmin.status := 200; WarningAdmin.success := ok |}, config').

(** [s.slice(-4)]: the last four characters (the whole string when it is
    shorter).  Bot tokens are ASCII, one character a byte. *)
Definition lastFour (s : string) : string :=
  String.substring (String.length s - 4) 4 s.

(** The token as [GET /telegram/config] shows it and as the settings form
    posts it back unchanged. *)
Definition maskedToken (config : Telegram.Config) : string :=
  "••••••••••" +:+ lastFour (Telegram.botToken config).

(** [POST /telegram/config]; [testBotToken] asks the messaging API and
    never throws, [tokenAccepted] is its verdict. *)
Definition postTelegramConfig (tokenAccepted : string -> bool) (config : Telegram.Config)
    (enabled : option bool) (botToken : option string)
  : WarningAdmin.Reply * Telegram.Config :=
  let enabled' := default (Telegram.enabled config) enabled in
  if WarningAdmin.givenString botToken
     && negb (String.eqb (default "" botToken) (maskedToken config))
  then
    if negb (tokenAccepted (default "" botToken))
    then ({| WarningAdmin.status := 400; WarningAdmin.success := false |}, config)
    else
      let '(ok, config') :=
        updateConfig config
          {| cu_enabled := Some enabled'; cu_botToken := botToken;
             cu_chatIds := None; cu_notificationRules := None |} in
      ({| WarningAdmin.status := 200; WarningAdmin.success := ok |}, config')
  else
    let '(ok, config') :=
      updateConfig config
        {| cu_enabled := Some enabled'; cu_botToken := None;
           cu_chatIds := None; cu_notificationRules := None |} in
    ({| WarningAdmin.status := 200; WarningAdmin.success := ok |}, config').

(** The body of [POST /rules] and [PUT /rules/:id]. *)
Record RuleBody := {
  rb_type : option string;
  rb_ruleId : option string;
  rb_warningType : option string;
  rb_enabled : option bool
}.

(** [!type || (type === 'rule' && !ruleId) || (type === 'warning' && !warningType)] *)
Definition ruleBodyInvalid (body : RuleBody) : bool :=
  negb (WarningAdmin.givenString (rb_type body))
  || (String.eqb (default "" (rb_type body)) "rule"
      && negb (WarningAdmin.givenString (rb_ruleId body)))
  || (String.eqb (default "" (rb_type body)) "warning"
      && negb (WarningAdmin.givenString (rb_warningType body))).

(** The rule object built by [POST /rules]. *)
Definition ruleOfBody (id : string) (body : RuleBody) : Telegram.NotificationRule :=
  let type := default "" (rb_type body) in
  {| Telegram.nr_id := id;
     Telegram.nr_type := type;
     Telegram.nr_warningType :=
       if String.eqb type "warning" then rb_warningType body else None;
     Telegram.nr_ruleId := if String.eqb type "rule" then rb_ruleId body else None;
     Telegram.nr_enabled := default true (rb_enabled body) |}.

(** [POST /rules] *)
Definition postRule (config : Telegram.Config) (clock : Clock) (body : RuleBody)
  : WarningAdmin.Reply * Telegram.Config :=
  if ruleBodyInvalid body
  then ({| WarningAdmin.status := 400; WarningAdmin.success := false |}, config)
  else
    let rule := ruleOfBody ("notification-" +:+ pretty (now_ms clock)) body in
    let '(ok, config') := addNotificationRule config rule in
    ({| WarningAdmin.status := 200; WarningAdmin.success := ok |}, config').

(** The loop of [POST /rules/batch] over rules given as updates: the count
    of rules updated and the per-rule verdicts. *)
Fixpoint batchLoop (config : Telegram.Config) (rules : list RuleUpdate)
    (successCount : nat) (results : list (string * bool))
  : nat * list (string * bool) * Telegram.Config :=
  match rules with
  | [] => (successCount, results, config)
  | rule :: rest =>
      if negb (WarningAdmin.givenString (ru_id rule))
         || negb (WarningAdmin.givenString (ru_type rule))
      then batchLoop config rest successCount
             (results ++ [(WarningAdmin.orString (ru_id rule) "unknown", false)])
      else
        let id := default "" (ru_id rule) in
        let '(ok, config') := updateNotificationRule config id rule in
        batchLoop config' rest (if ok then S successCount else successCount)
          (results ++ [(id, ok)])
  end.

(** [POST /rules/batch] *)
Definition postRulesBatch (config : Telegram.Config) (rules : list RuleUpdate)
  : WarningAdmin.Reply * list (string * bool) * Telegram.Config :=
  let '(successCount, results, config') := batchLoop config rules 0%nat [] in
  ({| WarningAdmin.status := 200; WarningAdmin.success := (0 <? successCount)%nat |},
   results, config').

End TelegramAdmin.

(** ** services/tibberService.js: status, and what a refresh reads *)

Module TibberStatus.

Record PriceSummary := {
  ps_total : Q;
  ps_level : string;
  ps_currency : string
}.

Record Status := {
  st_enabled : bool;
  st_configured : bool;
  st_lastUpdate : option Z;
  st_hasCachedData : bool;
  st_currentPrice : option PriceSummary;
  st_priceIsGood : bool;
  st_forecastHours : nat;
  st_cacheAge : option Z
}.

(** [getStatus()] *)
Definition getStatus (s : Tibber.Service) (clock : Clock) : Status :=
  let key := Tibber.apiKey (Tibber.config s) in
  {| st_enabled := Tibber.enabled (Tibber.config s);
     st_configured := negb (String.eqb key "") && negb (String.eqb key "***");
     st_lastUpdate := Tibber.lastUpdate s;
     st_hasCachedData :=
       match Tibber.currentPrice (Tibber.cache s) with
       | Some _ => (0 <? length (Tibber.forecast (Tibber.cache s)))%nat
       | None => false
       end;
     st_currentPrice :=
       match Tibber.currentPrice (Tibber.cache s) with
       | Some p => Some {| ps_total := Tibber.total p; ps_level := Tibber.level p;
                           ps_currency := Tibber.pp_currency p |}
       | None => None
       end;
     st_priceIsGood :=
       match Tibber.currentPrice (Tibber.cache s) with
       | Some _ => Tibber.isPriceGood s clock None
       | None => false
       end;
     st_forecastHours := length (Tibber.forecast (Tibber.cache s));
     st_cacheAge :=
       match Tibber.timestamp (Tibber.cache s) with
       | Some t => if t =? 0 then None else Some ((now_ms clock - t) / 1000)
       | None => None
       end |}.

(** An update that carries no property. *)
Definition noUpdate : Tibber.ConfigUpdate :=
  {| Tibber.u_enabled := None; Tibber.u_apiKey := None; Tibber.u_homeId := None;
     Tibber.u_country := None; Tibber.u_timezone := None; Tibber.u_currency := None;
     Tibber.u_targetSoC := None; Tibber.u_minimumSoC := None;
     Tibber.u_maxPriceThreshold := None; Tibber.u_usePriceLevels := None;
     Tibber.u_allowedPriceLevels := None |}.

(** The price info a refresh reads from an answer of the API: that of the
    configured home, or of the first home when no home is configured. *)
Definition selectedPriceInfo (s : Tibber.Service) (api : Tibber.Response)
  : option Tibber.RawPriceInfo :=
  match api with
  | Tibber.Data (Some viewer) =>
      if String.eqb (Tibber.homeId (Tibber.config s)) ""
      then match Tibber.viewer_homes viewer with
           | Some (firstHome :: _) => Tibber.home_priceInfo firstHome
           | _ => None
           end
      else match Tibber.viewer_home viewer with
           | Some home => Tibber.home_priceInfo home
           | None => None
           end
  | _ => None
  end.

End TibberStatus.

(** ** services/tibberService.js: the country of any code *)

Module Countries.

(** [getCountrySettings] with [String.prototype.toUpperCase] as a
    parameter.  The function of the language maps more than the letters a
    to z: a dotless i, a long s or a ligature also becomes ASCII capitals,
    so a code need not be ASCII for its upper-case form to be a country
    code.  With [Tibber.toUpperCase] for the parameter this is
    [Tibber.getCountrySettings]. *)
Section Lookup.
Variable toUpperCase : string -> string.

Definition getCountrySettings (countryCode : string) : option Tibber.Country :=
  if String.eqb countryCode ""
  then Tibber.findCountry (fun c => String.eqb (Tibber.code c) "DE")
  else
    let upperCode := toUpperCase countryCode in
    match Tibber.findCountry
            (fun c => String.eqb (Tibber.code c) countryCode
                      || String.eqb (Tibber.code c) upperCode) with
    | Some country => Some country
    | None => Tibber.findCountry (fun c => String.eqb (Tibber.code c) "DE")
    end.
End Lookup.

End Countries.

(** ** services/warningService.js: the document on disk and the defaults
       in memory *)

Module WarningStore.

(** The two arrays of the module's [defaultConfig] object.  [getConfig]
    answers an unparsable document with [{ ...defaultConfig }]: a new
    object whose [warningTypes] and [warningHistory] are these very
    arrays, so what a mutator pushes into them stays in the defaults for
    the life of the process.  [enabled] and [maxHistoryItems] of the
    defaults are never assigned. *)
Record Defaults := {
  d_warningTypes : list Warning.WarningType;
  d_warningHistory : list Warning.WarningInstance
}.

(** The defaults of a process that has just started. *)
Definition pristine : Defaults := {| d_warningTypes := []; d_warningHistory := [] |}.

(** [defaultConfig] as it reads when its arrays hold [d]. *)
Definition defaultConfig (d : Defaults) : Warning.Config :=
  {| Warning.enabled := true; Warning.warningTypes := d_warningTypes d;
     Warning.warningHistory := d_warningHistory d; Warning.maxHistoryItems := 100 |}.

(** The module's memory and the data directory. *)
Record Store := { defaults : Defaults; files : FileSystem }.

(** The object a function holds after [getConfig()]: its value, and for
    each array whether the property refers to the array of the defaults. *)
Record Held := {
  value : Warning.Config;
  sharesTypes : bool;
  sharesHistory : bool
}.

(** [config.warningTypes.push(x)] and [config.warningTypes[index] = x]
    change the array in place, whoever else refers to it. *)
Definition writeTypes (types : list Warning.WarningType) (r : Defaults * Held)
  : Defaults * Held :=
  let '(d, config) := r in
  (if sharesTypes config
   then {| d_warningTypes := types; d_warningHistory := d_warningHistory d |}
   else d,
   {| value := WarningAdmin.setTypes (value config) types;
      sharesTypes := sharesTypes config; sharesHistory := sharesHistory config |}).

(** [config.warningTypes = types] makes the property refer to a new array. *)
Definition assignTypes (types : list Warning.WarningType) (r : Defaults * Held)
  : Defaults * Held :=
  let '(d, config) := r in
  (d, {| value := WarningAdmin.setTypes (value config) types;
         sharesTypes := false; sharesHistory := sharesHistory config |}).

(** [config.warningHistory.unshift(x)], in place. *)
Definition writeHistory (history : list Warning.WarningInstance) (r : Defaults * Held)
  : Defaults * Held :=
  let '(d, config) := r in
  (if sharesHistory config
   then {| d_warningTypes := d_warningTypes d; d_warningHistory := history |}
   else d,
   {| value := WarningAdmin.setHistory (value config) history;
      sharesTypes := sharesTypes config; sharesHistory := sharesHistory config |}).

(** [config.warningHistory = history] *)
Definition assignHistory (history : list Warning.WarningInstance) (r : Defaults * Held)
  : Defaults * Held :=
  let '(d, config) := r in
  (d, {| value := WarningAdmin.setHistory (value config) history;
         sharesTypes := sharesTypes config; sharesHistory := false |}).

(** [config.enabled = enabled], on the object itself. *)
Definition assignEnabled (enabled : bool) (r : Defaults * Held) : Defaults * Held :=
  let '(d, config) := r in
  (d, {| value := snd (WarningAdmin.setWarningSystemEnabled (value config) enabled);
         sharesTypes := sharesTypes config; sharesHistory := sharesHistory config |}).

Section Files.
Variable parse : string -> option Warning.Config.
Variable stringify : Warning.Config -> string.

Definition ensureConfigFile (st : Store) : Store :=
  match files st !! Warning.WARNINGS_CONFIG_FILE with
  | Some _ => st
  | None =>
      {| defaults := defaults st;
         files := <[Warning.WARNINGS_CONFIG_FILE := stringify (defaultConfig (defaults st))]>
                    (files st) |}
  end.

Definition fallback (st : Store) : Held :=
  {| value := defaultConfig (defaults st); sharesTypes := true; sharesHistory := true |}.

Definition getConfig (st : Store) : Held * Store :=
  let st1 := ensureConfigFile st in
  match files st1 !! Warning.WARNINGS_CONFIG_FILE with
  | Some content =>
      match parse content with
      | Some config =>
          ({| value := config; sharesTypes := false; sharesHistory := false |}, st1)
      | None => (fallback st1, st1)
      end
  | None => (fallback st1, st1)
  end.

Definition saveConfig (config : Warning.Config) (st : Store) : bool * Store :=
  let st1 := ensureConfigFile st in
  (true, {| defaults := defaults st1;
            files := <[Warning.WARNINGS_CONFIG_FILE := stringify config]> (files st1) |}).

(** The end of every mutator: [saveConfig(config)] with the memory as the
    function left it. *)
Definition saveHeld (r : Defaults * Held) (st : Store) : bool * Store :=
  saveConfig (value (snd r)) {| defaults := fst r; files := files st |}.

Definition addWarningType (clock : Clock) (warningType : Warning.WarningType) (st : Store)
  : Warning.WarningType * Store :=
  let '(config, st1) := getConfig st in
  let stored :=
    if String.eqb (Warning.wt_id warningType) ""
    then WarningAdmin.setId warningType ("warning-" +:+ pretty (now_ms clock))
    else warningType in
  let r := writeTypes (Warning.warningTypes (value config) ++ [stored])
             (defaults st1, config) in
  (stored, snd (saveHeld r st1)).

Definition updateWarningType (id : string) (updatedWarning : Warning.WarningType)
    (st : Store) : bool * Store :=
  let '(config, st1) := getConfig st in
  match JSArray.findIndex (fun warning => String.eqb (Warning.wt_id warning) id)
          (Warning.warningTypes (value config)) with
  | Some index =>
      let r := writeTypes (<[index := WarningAdmin.setId updatedWarning id]>
                             (Warning.warningTypes (value config)))
                 (defaults st1, config) in
      saveHeld r st1
  | None => (false, st1)
  end.

Definition deleteWarningType (id : string) (st : Store) : bool * Store :=
  let '(config, st1) := getConfig st in
  let r := assignTypes
             (List.filter (fun warning => negb (String.eqb (Warning.wt_id warning) id))
                          (Warning.warningTypes (value config)))
             (defaults st1, config) in
  saveHeld r st1.

Definition addWarningToHistory (warningInstance : Warning.WarningInstance) (st : Store)
  : Store :=
  let '(config, st1) := getConfig st in
  let r := writeHistory (warningInstance :: Warning.warningHistory (value config))
             (defaults st1, config) in
  let history := Warning.warningHistory (value (snd r)) in
  let cap := Warning.maxHistoryItems (value (snd r)) in
  let r' := if (cap <? length history)%nat then assignHistory (firstn cap history) r else r in
  snd (saveHeld r' st1).

Definition clearWarningHistory (st : Store) : bool * Store :=
  let '(config, st1) := getConfig st in
  saveHeld (assignHistory [] (defaults st1, config)) st1.

Definition setWarningSystemEnabled (enabled : bool) (st : Store) : bool * Store :=
  let '(config, st1) := getConfig st in
  saveHeld (assignEnabled enabled (defaults st1, config)) st1.

(** The six mutators of the service under one name. *)
Inductive Mutation :=
| AddType (warningType : Warning.WarningType)
| UpdateType (id : string) (updatedWarning : Warning.WarningType)
| DeleteType (id : string)
| AddToHistory (warningInstance : Warning.WarningInstance)
| ClearHistory
| SetEnabled (enabled : bool).

Definition run (clock : Clock) (m : Mutation) (st : Store) : Store :=
  match m with
  | AddType warningType => snd (addWarningType clock warningType st)
  | UpdateType id updatedWarning => snd (updateWarningType id updatedWarning st)
  | DeleteType id => snd (deleteWarningType id st)
  | AddToHistory warningInstance => addWarningToHistory warningInstance st
  | ClearHistory => snd (clearWarningHistory st)
  | SetEnabled enabled => snd (setWarningSystemEnabled enabled st)
  end.
End Files.

(** The same mutators on a document, as [Warning] and [WarningAdmin] have
    them, and whether they save ([updateWarningType] returns without saving
    when no rule has the id). *)
Definition onDocument (clock : Clock) (m : Mutation) (config : Warning.Config)
  : Warning.Config :=
  match m with
  | AddType warningType => snd (WarningAdmin.addWarningType config clock warningType)
  | UpdateType id updatedWarning =>
      snd (WarningAdmin.updateWarningType config id updatedWarning)
  | DeleteType id => snd (WarningAdmin.deleteWarningType config id)
  | AddToHistory warningInstance => Warning.addWarningToHistory config warningInstance
  | ClearHistory => snd (WarningAdmin.clearWarningHistory config)
  | SetEnabled enabled => snd (WarningAdmin.setWarningSystemEnabled config enabled)
  end.

Definition saves (m : Mutation) (config : Warning.Config) : bool :=
  match m with
  | UpdateType id updatedWarning =>
      fst (WarningAdmin.updateWarningType config id updatedWarning)
  | _ => true
  end.

End WarningStore.

(** ** Scenarios used to exercise the services *)

Module Scenario.

(** Battery below 15 %, one hour of cooldown (scenario 5 of the testable
    properties). *)
Definition lowSoc : Warning.WarningType :=
  {| Warning.wt_id := "low-soc"; Warning.wt_name := "Low battery";
     Warning.wt_description := "Battery below 15%";
     Warning.wt_parameter := "battery_soc"; Warning.wt_condition := "lt";
     Warning.wt_threshold := 15%Q; Warning.wt_enabled := true;
     Warning.wt_priority := "high"; Warning.wt_cooldownMinutes := 60%Q;
     Warning.wt_timeCondition := None |}.

Definition highLoad : Warning.WarningType :=
  {| Warning.wt_id := "high-load"; Warning.wt_name := "High load";
     Warning.wt_description := "Load above 5 kW";
     Warning.wt_parameter := "load"; Warning.wt_condition := "gt";
     Warning.wt_threshold := 5000%Q; Warning.wt_enabled := true;
     Warning.wt_priority := "medium"; Warning.wt_cooldownMinutes := 60%Q;
     Warning.wt_timeCondition := None |}.

(** A rule restricted to daytime. *)
Definition lowPvByDay : Warning.WarningType :=
  {| Warning.wt_id := "low-pv"; Warning.wt_name := "Low production";
     Warning.wt_description := "PV below 100 W during the day";
     Warning.wt_parameter := "pv_power"; Warning.wt_condition := "lt";
     Warning.wt_threshold := 100%Q; Warning.wt_enabled := true;
     Warning.wt_priority := "low"; Warning.wt_cooldownMinutes := 30%Q;
     Warning.wt_timeCondition := Some "daytime" |}.

Definition monitor (rules : list Warning.WarningType) (cap : nat) : Warning.Config :=
  {| Warning.enabled := true; Warning.warningTypes := rules;
     Warning.warningHistory := []; Warning.maxHistoryItems := cap |}.

Definition telemetry : gmap string Q :=
  {[ "battery_soc" := 10%Q; "pv_power" := 0%Q; "load" := 6000%Q;
     "grid_power" := 6000%Q; "grid_voltage" := 230%Q ]}.

(** 2026-01-15 12:00:00 UTC and later instants of that day. *)
Definition T0 : Z := 1768478400000.
Definition minutes (n : Z) : Z := n * 60000.
Definition hours (n : Z) : Z := n * 3600000.
Definition at_ (offset : Z) (hour : Z) : Clock :=
  {| now_ms := T0 + offset; local_hour := hour |}.

(** A provider whose cached forecast has a gap: one entry an hour from
    [T0], the next thirty hours from [T0]. *)
Definition point (offset : Z) (cents : Q) (lvl : string) : Tibber.PricePoint :=
  {| Tibber.total := cents; Tibber.energy := cents; Tibber.tax := 0%Q;
     Tibber.startsAt := T0 + offset; Tibber.level := lvl;
     Tibber.pp_currency := "cent" |}.

Definition provider (cfg : Tibber.Config) (fc : list Tibber.PricePoint) : Tibber.Service :=
  {| Tibber.config := cfg;
     Tibber.cache := {| Tibber.currentPrice := None; Tibber.priceInfo := None;
                        Tibber.forecast := fc; Tibber.timestamp := None |};
     Tibber.lastUpdate := None |}.

Definition gappedForecast : list Tibber.PricePoint :=
  [ point (hours 1) 30%Q "NORMAL"; point (hours 30) 20%Q "CHEAP" ].

Definition hourlyForecast : list Tibber.PricePoint :=
  [ point (hours 0) 31%Q "NORMAL"; point (hours 1) 30%Q "NORMAL";
    point (hours 2) 20%Q "CHEAP"; point (hours 3) 20%Q "CHEAP";
    point (hours 4) 45%Q "EXPENSIVE" ].

(** A data directory whose three documents are all cut off in the middle
    of a write, and a parser that accepts only the empty object. *)
Definition truncated : string := "{ enabled: tr".

Definition corruptedData : FileSystem :=
  {[ Tibber.configFile := truncated;
     Warning.WARNINGS_CONFIG_FILE := truncated;
     Telegram.TELEGRAM_CONFIG_FILE := truncated ]}.

Definition parseEmptyObject {A : Type} (defaults : A) (content : string) : option A :=
  if String.eqb content "{}" then Some defaults else None.

Definition stringifyAsEmptyObject {A : Type} (_ : A) : string := "{}".

(** An update as the settings form posts it: masked key, a country, and an
    empty currency field. *)
Definition formUpdate : Tibber.ConfigUpdate :=
  {| Tibber.u_enabled := Some true; Tibber.u_apiKey := Some "***";
     Tibber.u_homeId := None; Tibber.u_country := Some "NO";
     Tibber.u_timezone := Some "Europe/Oslo"; Tibber.u_currency := Some "";
     Tibber.u_targetSoC := Some 90%Q; Tibber.u_minimumSoC := None;
     Tibber.u_maxPriceThreshold := None; Tibber.u_usePriceLevels := None;
     Tibber.u_allowedPriceLevels := None |}.

Definition keyedConfig : Tibber.Config :=
  {| Tibber.enabled := true; Tibber.apiKey := "tibber-token-5K4MVS";
     Tibber.homeId := ""; Tibber.country := "DE";
     Tibber.timezone := "Europe/Berlin"; Tibber.currency := "EUR";
     Tibber.targetSoC := 80%Q; Tibber.minimumSoC := 20%Q;
     Tibber.maxPriceThreshold := None; Tibber.usePriceLevels := true;
     Tibber.allowedPriceLevels := ["VERY_CHEAP"; "CHEAP"; "NORMAL"] |}.

(** Telemetry of the decision scenarios. *)
Definition snapshot (soc pv ld volts : Q) : Engine.SystemStateSnapshot :=
  {| Engine.battery_soc := soc; Engine.pv_power := pv; Engine.load := ld;
     Engine.grid_power := ld; Engine.grid_voltage := volts;
     Engine.timestamp := T0 |}.

(** An answer of the price API for the first home: three hours today, none
    published for tomorrow yet. *)
Definition raw (offset : Z) (eur : Q) (lvl : string) : Tibber.RawPrice :=
  {| Tibber.r_total := eur; Tibber.r_energy := eur; Tibber.r_tax := 0%Q;
     Tibber.r_startsAt := T0 + offset; Tibber.r_level := lvl |}.

Definition answer : Tibber.Response :=
  Tibber.Data (Some
    {| Tibber.viewer_home := None;
       Tibber.viewer_homes := Some
         [ {| Tibber.home_id := "home-1";
              Tibber.home_priceInfo := Some
                {| Tibber.rp_current := Some (raw 0 (31 # 100) "NORMAL");
                   Tibber.rp_today := Some [ raw 0 (31 # 100) "NORMAL";
                                             raw (hours 1) (30 # 100) "NORMAL";
                                             raw (hours 2) (20 # 100) "CHEAP" ];
                   Tibber.rp_tomorrow := None |} |} ] |}).

(** A notifier with three chats, and a transport that refuses the second:
    the world is the list of chats that received the message. *)
Definition notifier : Telegram.Config :=
  {| Telegram.enabled := true; Telegram.botToken := "bot-token";
     Telegram.chatIds := ["1001"; "blocked"; "1003"];
     Telegram.notificationRules := [] |}.

Definition transport (url chatId message : string) : JS.M (list string) unit :=
  if String.eqb chatId "blocked"
  then JS.throw "Forbidden: bot was blocked by the user"
  else JS.modify (fun delivered => delivered ++ [chatId]).

End Scenario.

(** ** Further scenarios: a stored history, a provider that judges prices by
       amount, and parsers that read back what was written *)

Module Cases.

(** An event of a rule, recorded [offset] milliseconds after [T0]. *)
Definition event (offset : Z) (rule : Warning.WarningType) : Warning.WarningInstance :=
  Warning.mkInstance (Scenario.at_ offset 12) Scenario.telemetry rule 10%Q.

(** A monitor with three events on record, newest first. *)
Definition recorded : Warning.Config :=
  {| Warning.enabled := true;
     Warning.warningTypes := [Scenario.highLoad; Scenario.lowSoc];
     Warning.warningHistory :=
       [ event (Scenario.hours 3) Scenario.lowSoc;
         event (Scenario.hours 2) Scenario.highLoad;
         event (Scenario.hours 1) Scenario.lowSoc ];
     Warning.maxHistoryItems := 100 |}.

(** A history query without filters. *)
Definition everything : WarningAdmin.HistoryOptions :=
  {| WarningAdmin.o_warningTypeId := None; WarningAdmin.o_priority := None;
     WarningAdmin.o_startDate := None; WarningAdmin.o_endDate := None;
     WarningAdmin.o_limit := None; WarningAdmin.o_skip := None |}.

(** A rendering of the warning document that shows the ids of its rules. *)
Definition ruleIds (config : Warning.Config) : string :=
  String.concat "," (List.map Warning.wt_id (Warning.warningTypes config)).

(** A rule on the load with a cooldown of one minute. *)
Definition loadTicker : Warning.WarningType :=
  {| Warning.wt_id := "load-ticker"; Warning.wt_name := "Load";
     Warning.wt_description := "Load above 5 kW";
     Warning.wt_parameter := "load"; Warning.wt_condition := "gt";
     Warning.wt_threshold := 5000%Q; Warning.wt_enabled := true;
     Warning.wt_priority := "low"; Warning.wt_cooldownMinutes := 1%Q;
     Warning.wt_timeCondition := None |}.

(** Evaluations one minute apart, from [T0] on, each on the document the
    one before left; the result is that of the last. *)
Fixpoint everyMinute (n : nat) (config : Warning.Config)
  : list Warning.WarningInstance * Warning.Config :=
  match n with
  | O => Warning.checkWarnings config (Scenario.at_ 0 12) Scenario.telemetry
  | S n' =>
      Warning.checkWarnings (snd (everyMinute n' config))
        (Scenario.at_ (Scenario.minutes (Z.of_nat n)) 12) Scenario.telemetry
  end.

(** A forecast whose two entries, of equal price, are not in order of their
    start. *)
Definition unorderedForecast : list Tibber.PricePoint :=
  [ Scenario.point (Scenario.hours 3) 20%Q "CHEAP";
    Scenario.point (Scenario.hours 2) 20%Q "CHEAP" ].

(** A provider that judges prices by amount, with a limit of 25 cents. *)
Definition amountConfig : Tibber.Config :=
  {| Tibber.enabled := true; Tibber.apiKey := "tibber-token-5K4MVS";
     Tibber.homeId := ""; Tibber.country := "DE";
     Tibber.timezone := "Europe/Berlin"; Tibber.currency := "EUR";
     Tibber.targetSoC := 80%Q; Tibber.minimumSoC := 20%Q;
     Tibber.maxPriceThreshold := Some 25%Q; Tibber.usePriceLevels := false;
     Tibber.allowedPriceLevels := ["VERY_CHEAP"; "CHEAP"; "NORMAL"] |}.

(** The body of a request that subscribes the chats to the low-battery
    warning, and of one that drafts a rule on the grid voltage; neither
    says whether the rule is enabled. *)
Definition subscription : TelegramAdmin.RuleBody :=
  {| TelegramAdmin.rb_type := Some "warning"; TelegramAdmin.rb_ruleId := None;
     TelegramAdmin.rb_warningType := Some "low-soc"; TelegramAdmin.rb_enabled := None |}.

Definition draft : WarningAdmin.WarningBody :=
  {| WarningAdmin.b_name := Some "Grid sag"; WarningAdmin.b_description := None;
     WarningAdmin.b_parameter := Some "grid_voltage"; WarningAdmin.b_condition := Some "lt";
     WarningAdmin.b_threshold := Some 240%Q; WarningAdmin.b_enabled := None;
     WarningAdmin.b_priority := None; WarningAdmin.b_cooldownMinutes := Some 0%Q;
     WarningAdmin.b_timeCondition := None |}.

End Cases.

(** * Properties *)

(** ** Numbers and sorting *)

Lemma Qlt_bool_iff (x y : Q) : JS.Qlt_bool x y = true <-> (x < y)%Q.
Proof. unfold JS.Qlt_bool, Qlt. apply Z.ltb_lt. Qed.

Lemma Qleb_iff (x y : Q) : JS.Qleb x y = true <-> (x <= y)%Q.
Proof. unfold JS.Qleb. apply Qle_bool_iff. Qed.

Lemma Qlt_bool_false_iff (x y : Q) : JS.Qlt_bool x y = false <-> (y <= x)%Q.
Proof. unfold JS.Qlt_bool, Qle. rewrite Z.ltb_ge. reflexivity. Qed.

Section SortFacts.
Context {A : Type} (cmp : A -> A -> Q) (key : A -> Q).
Hypothesis cmp_key : forall a b, JS.Qlt_bool 0 (cmp a b) = true <-> (key b < key a)%Q.

Lemma insert_Permutation (x : A) (l : list A) :
  Permutation (JS.insert cmp x l) (x :: l).
Proof.
  induction l as [|y l IH]; simpl; [reflexivity|].
  destruct (JS.Qlt_bool 0 (cmp x y)); [|reflexivity].
  rewrite IH. apply perm_swap.
Qed.

Lemma sort_Permutation (l : list A) : Permutation (JS.sort cmp l) l.
Proof.
  induction l as [|x l IH]; simpl; [reflexivity|].
  rewrite insert_Permutation. now constructor.
Qed.

Lemma lexOrder_key_le (R : A -> A -> Prop) (a b : A) :
  JS.lexOrder key R a b -> (key a <= key b)%Q.
Proof. intros [H|[H _]]; [apply Qlt_le_weak, H | rewrite H; apply Qle_refl]. Qed.

Lemma insert_sorted (R : A -> A -> Prop) (x : A) (s : list A) :
  StronglySorted (JS.lexOrder key R) s ->
  List.Forall (R x) s ->
  StronglySorted (JS.lexOrder key R) (JS.insert cmp x s).
Proof.
  induction s as [|y s IH]; intros Hs Hx; simpl.
  - repeat constructor.
  - inversion Hs as [|? ? Hs' Hy]; subst.
    inversion Hx as [|? ? Hxy Hxs]; subst.
    destruct (JS.Qlt_bool 0 (cmp x y)) eqn:E.
    + apply cmp_key in E.
      constructor; [now apply IH|].
      eapply Permutation_Forall; [symmetry; apply insert_Permutation|].
      constructor; [now left | exact Hy].
    + assert (Hle : (key x <= key y)%Q).
      { apply Qnot_lt_le. intros Hlt. apply cmp_key in Hlt. congruence. }
      constructor; [exact Hs|].
      assert (Hall : List.Forall (fun z => (key x <= key z)%Q) (y :: s)).
      { constructor; [exact Hle|].
        eapply List.Forall_impl; [|exact Hy].
        intros z Hz. eapply Qle_trans; [exact Hle|].
        eapply lexOrder_key_le, Hz. }
      clear -Hall Hx.
      induction Hx as [|z l Hz Hl IHl]; [constructor|].
      inversion Hall as [|? ? Hkz Hall']; subst.
      constructor; [|now apply IHl].
      destruct (Qlt_le_dec (key x) (key z)) as [Hlt|Hge]; [now left|].
      right. split; [now apply Qle_antisym | exact Hz].
Qed.

(** A stable sort of a list already ordered by [R] is ordered by key,
    ties in the order [R]. *)
Lemma sort_sorted (R : A -> A -> Prop) (l : list A) :
  StronglySorted R l -> StronglySorted (JS.lexOrder key R) (JS.sort cmp l).
Proof.
  induction 1 as [|x l Hl IH Hx]; simpl; [constructor|].
  apply insert_sorted; [exact IH|].
  eapply Permutation_Forall; [symmetry; apply sort_Permutation | exact Hx].
Qed.

Lemma StronglySorted_True (l : list A) : StronglySorted (fun _ _ => True) l.
Proof. induction l; constructor; auto. now apply List.Forall_forall. Qed.

(** The head of the sorted list has the least key. *)
Lemma sort_head_least (l : list A) (h : A) (t : list A) :
  JS.sort cmp l = h :: t ->
  In h l /\ forall z, In z l -> (key h <= key z)%Q.
Proof.
  intros E.
  pose proof (sort_sorted _ l (StronglySorted_True l)) as Hs.
  pose proof (sort_Permutation l) as Hp.
  rewrite E in Hs, Hp. split.
  - eapply Permutation_in; [exact Hp | now left].
  - intros z Hz. apply (Permutation_in _ (Permutation_sym Hp)) in Hz.
    destruct Hz as [->|Hz]; [apply Qle_refl|].
    inversion Hs as [|? ? _ Hall]; subst.
    rewrite List.Forall_forall in Hall.
    eapply lexOrder_key_le, Hall, Hz.
Qed.

Lemma sort_nil_inv (l : list A) : JS.sort cmp l = [] -> l = [].
Proof.
  intros E. pose proof (sort_Permutation l) as Hp. rewrite E in Hp.
  now apply Permutation_nil in Hp.
Qed.

(** The sort is stable: the elements of one key are in the order they had. *)
Lemma insert_filter_key (q : Q) (x : A) (l : list A) :
  List.filter (fun a => Qeq_bool (key a) q) (JS.insert cmp x l)
  = (if Qeq_bool (key x) q then [x] else [])
    ++ List.filter (fun a => Qeq_bool (key a) q) l.
Proof.
  induction l as [|y l IH]; [simpl; now destruct (Qeq_bool (key x) q)|].
  cbn [JS.insert].
  destruct (JS.Qlt_bool 0 (cmp x y)) eqn:E;
    [|simpl; now destruct (Qeq_bool (key x) q)].
  apply cmp_key in E. cbn [List.filter]. rewrite IH.
  destruct (Qeq_bool (key y) q) eqn:Ey; [|reflexivity].
  destruct (Qeq_bool (key x) q) eqn:Ex; [|reflexivity].
  apply Qeq_bool_iff in Ey, Ex. exfalso. rewrite Ey, Ex in E.
  exact (Qlt_irrefl q E).
Qed.

Lemma sort_stable (q : Q) (l : list A) :
  List.filter (fun a => Qeq_bool (key a) q) (JS.sort cmp l)
  = List.filter (fun a => Qeq_bool (key a) q) l.
Proof.
  induction l as [|x l IH]; [reflexivity|]. cbn [JS.sort List.filter].
  rewrite insert_filter_key, IH. now destruct (Qeq_bool (key x) q).
Qed.
End SortFacts.

Lemma filter_firstn_prefix {A : Type} (p : A -> bool) (n : nat) (l : list A) :
  exists k, List.filter p (firstn n l) = firstn k (List.filter p l).
Proof.
  revert n. induction l as [|a l IH]; intros [|n]; simpl;
    try (exists 0%nat; reflexivity).
  destruct (IH n) as [k Hk]. destruct (p a).
  - exists (S k). simpl. now rewrite Hk.
  - now exists k.
Qed.

Lemma filter_map_comm {A B : Type} (f : A -> B) (p : B -> bool) (l : list A) :
  List.filter p (List.map f l) = List.map f (List.filter (fun a => p (f a)) l).
Proof.
  induction l as [|a l IH]; simpl; [reflexivity|]. rewrite IH. now destruct (p (f a)).
Qed.

(** ** Warning history *)

Lemma addWarningToHistory_history (config : Warning.Config) (e : Warning.WarningInstance) :
  Warning.warningHistory (Warning.addWarningToHistory config e)
  = firstn (Warning.maxHistoryItems config) (e :: Warning.warningHistory config).
Proof.
  unfold Warning.addWarningToHistory. cbn [Warning.warningHistory].
  destruct (Nat.ltb_spec (Warning.maxHistoryItems config)
              (length (e :: Warning.warningHistory config))) as [H|H].
  - reflexivity.
  - symmetry. apply firstn_all2. exact H.
Qed.

Lemma addWarningToHistory_max (config : Warning.Config) (e : Warning.WarningInstance) :
  Warning.maxHistoryItems (Warning.addWarningToHistory config e)
  = Warning.maxHistoryItems config.
Proof. reflexivity. Qed.

Lemma addWarningToHistory_types (config : Warning.Config) (e : Warning.WarningInstance) :
  Warning.warningTypes (Warning.addWarningToHistory config e)
  = Warning.warningTypes config.
Proof. reflexivity. Qed.

Lemma In_firstn_inv {A : Type} (n : nat) (x : A) (l : list A) :
  In x (firstn n l) -> In x l.
Proof.
  intros H. rewrite <- (firstn_skipn n l). apply in_or_app. now left.
Qed.

Lemma firstn_cons_firstn {A : Type} (n : nat) (x : A) (l : list A) :
  firstn n (x :: firstn n l) = firstn n (x :: l).
Proof.
  destruct n as [|n]; [reflexivity|]. simpl. f_equal.
  rewrite firstn_firstn. f_equal. lia.
Qed.

Lemma insertions_max (es : list Warning.WarningInstance) (config : Warning.Config) :
  Warning.maxHistoryItems (fold_left Warning.addWarningToHistory es config)
  = Warning.maxHistoryItems config.
Proof.
  revert config. induction es as [|e es IH]; intros config; simpl; [reflexivity|].
  now rewrite IH.
Qed.

Lemma insertions_history (es : list Warning.WarningInstance) (e : Warning.WarningInstance)
    (config : Warning.Config) :
  Warning.warningHistory (fold_left Warning.addWarningToHistory (es ++ [e]) config)
  = firstn (Warning.maxHistoryItems config)
           (e :: rev es ++ Warning.warningHistory config).
Proof.
  revert e. induction es as [|x es IH] using rev_ind; intros e.
  - simpl. apply addWarningToHistory_history.
  - rewrite (fold_left_app _ (es ++ [x]) [e]). cbn [fold_left].
    rewrite addWarningToHistory_history, IH, insertions_max.
    rewrite firstn_cons_firstn, rev_app_distr. reflexivity.
Qed.

(** C4. After any non-empty sequence of insertions [es ++ [newest]] into the
    warning history, whatever the document held before: the history is the
    first [maxHistoryItems] entries of all events ordered newest first (the
    inserted ones, newest first, followed by the earlier history), so it is
    never longer than [maxHistoryItems], the events dropped are the oldest
    ones, and the newest event is at the head whenever the cap is not 0. *)
Theorem history_bounded_newest_first
    (config : Warning.Config) (es : list Warning.WarningInstance)
    (newest : Warning.WarningInstance) :
  let after := fold_left Warning.addWarningToHistory (es ++ [newest]) config in
  let cap := Warning.maxHistoryItems config in
  Warning.warningHistory after
    = firstn cap (newest :: rev es ++ Warning.warningHistory config)
  /\ (length (Warning.warningHistory after) <= cap)%nat
  /\ head (Warning.warningHistory after)
     = (if (cap =? 0)%nat then None else Some newest)
  /\ Warning.maxHistoryItems after = cap.
Proof.
  intros after cap. subst after cap.
  rewrite insertions_history, insertions_max.
  split; [reflexivity|]. split; [apply firstn_le_length|].
  split; [|reflexivity].
  destruct (Warning.maxHistoryItems config); reflexivity.
Qed.

(** An idle history within the cap stays within the cap. *)
Lemma history_bounded_invariant (config : Warning.Config)
    (es : list Warning.WarningInstance) :
  (length (Warning.warningHistory config) <= Warning.maxHistoryItems config)%nat ->
  (length (Warning.warningHistory (fold_left Warning.addWarningToHistory es config))
   <= Warning.maxHistoryItems config)%nat.
Proof.
  destruct es as [|e es _] using rev_ind; [now simpl|]. intros _.
  rewrite insertions_history. apply firstn_le_length.
Qed.

(** ** Cooldown *)

Lemma elapsedMinutes_eq (d : Z) :
  (inject_Z d / inject_Z (1000 * 60) == d # 60000)%Q.
Proof. unfold Qeq, Qdiv, Qmult, Qinv, inject_Z. simpl. lia. Qed.

Lemma elapsedMinutes_mono (d1 d2 : Z) :
  d1 <= d2 ->
  (inject_Z d1 / inject_Z (1000 * 60) <= inject_Z d2 / inject_Z (1000 * 60))%Q.
Proof.
  intros H. rewrite !elapsedMinutes_eq. unfold Qle. simpl. lia.
Qed.


Lemma newestFirst_key (a b : Warning.WarningInstance) :
  JS.Qlt_bool 0 (inject_Z (Warning.wi_timestamp b - Warning.wi_timestamp a)) = true
  <-> (inject_Z (- Warning.wi_timestamp b) < inject_Z (- Warning.wi_timestamp a))%Q.
Proof.
  rewrite Qlt_bool_iff. unfold Qlt, inject_Z. simpl. lia.
Qed.

Lemma cooldown_unresolved (config : Warning.Config) (clock : Clock) (id : string) :
  Warning.getWarningTypeById config id = None ->
  Warning.isWarningOnCooldown config clock id = true.
Proof. intros H. unfold Warning.isWarningOnCooldown. now rewrite H. Qed.

Lemma cooldown_no_trigger (config : Warning.Config) (clock : Clock) (id : string)
    (wt : Warning.WarningType) :
  Warning.getWarningTypeById config id = Some wt ->
  (forall w, In w (Warning.warningHistory config) -> Warning.wi_warningTypeId w <> id) ->
  Warning.isWarningOnCooldown config clock id = false.
Proof.
  intros Hres Hnone. unfold Warning.isWarningOnCooldown. rewrite Hres.
  assert (E : List.filter (fun w => String.eqb (Warning.wi_warningTypeId w) id)
                (Warning.warningHistory config) = []).
  { induction (Warning.warningHistory config) as [|w l IH]; [reflexivity|].
    simpl. destruct (String.eqb_spec (Warning.wi_warningTypeId w) id) as [E|_].
    - exfalso. eapply Hnone; [now left | exact E].
    - apply IH. intros w' Hw'. apply Hnone. now right. }
  rewrite E. reflexivity.
Qed.

(** An occurrence younger than the cooldown keeps the rule on cooldown. *)
Lemma cooldown_active (config : Warning.Config) (clock : Clock) (id : string)
    (wt : Warning.WarningType) (w : Warning.WarningInstance) :
  Warning.getWarningTypeById config id = Some wt ->
  In w (Warning.warningHistory config) ->
  Warning.wi_warningTypeId w = id ->
  (inject_Z (now_ms clock - Warning.wi_timestamp w) / inject_Z (1000 * 60)
   < Warning.wt_cooldownMinutes wt)%Q ->
  Warning.isWarningOnCooldown config clock id = true.
Proof.
  intros Hres Hin Hid Hlt. unfold Warning.isWarningOnCooldown. rewrite Hres.
  set (occ := List.filter _ _).
  assert (Hocc : In w occ).
  { apply List.filter_In. split; [exact Hin|]. now apply String.eqb_eq. }
  destruct (JS.sort _ occ) as [|h t] eqn:E.
  - apply sort_nil_inv in E. rewrite E in Hocc. destruct Hocc.
  - apply (sort_head_least _ _ newestFirst_key) in E as [_ Hleast].
    specialize (Hleast w Hocc). cbv zeta.
    apply Qlt_bool_iff. eapply Qle_lt_trans; [|exact Hlt].
    apply elapsedMinutes_mono.
    unfold Qle, inject_Z in Hleast. simpl in Hleast. lia.
Qed.

(** When every occurrence is at least as old as the cooldown, the rule is
    off cooldown. *)
Lemma cooldown_elapsed (config : Warning.Config) (clock : Clock) (id : string)
    (wt : Warning.WarningType) :
  Warning.getWarningTypeById config id = Some wt ->
  (forall w, In w (Warning.warningHistory config) ->
             Warning.wi_warningTypeId w = id ->
             (Warning.wt_cooldownMinutes wt
              <= inject_Z (now_ms clock - Warning.wi_timestamp w) / inject_Z (1000 * 60))%Q) ->
  Warning.isWarningOnCooldown config clock id = false.
Proof.
  intros Hres Hold. unfold Warning.isWarningOnCooldown. rewrite Hres.
  set (occ := List.filter _ _).
  destruct (JS.sort _ occ) as [|h t] eqn:E; [reflexivity|].
  apply (sort_head_least _ _ newestFirst_key) in E as [Hh _].
  apply List.filter_In in Hh as [Hin Hid]. apply String.eqb_eq in Hid.
  cbv zeta. apply Qlt_bool_false_iff. now apply Hold.
Qed.

(** ** One rule of [checkWarnings] *)

Lemma checkWarning_cases (clock : Clock) (st : gmap string Q)
    (trig : list Warning.WarningInstance) (config : Warning.Config)
    (wt : Warning.WarningType) :
  Warning.checkWarning clock st (trig, config) wt = (trig, config)
  \/ exists v,
       Warning.isWarningOnCooldown config clock (Warning.wt_id wt) = false
       /\ Warning.isDaytimeCondition (Warning.wt_timeCondition wt)
          && negb (Warning.isDaytime clock) = false
       /\ st !! Warning.wt_parameter wt = Some v
       /\ Warning.checkWarning clock st (trig, config) wt
          = (trig ++ [Warning.mkInstance clock st wt v],
             Warning.addWarningToHistory config (Warning.mkInstance clock st wt v)).
Proof.
  unfold Warning.checkWarning.
  destruct (Warning.isWarningOnCooldown _ _ _); [now left|].
  destruct (_ && _); [now left|].
  destruct (st !! _) as [v|]; [|now left].
  destruct (Warning.evaluateCondition _ _ _); [|now left].
  right. exists v. auto.
Qed.

Lemma checkWarning_fires (clock : Clock) (st : gmap string Q)
    (trig : list Warning.WarningInstance) (config : Warning.Config)
    (wt : Warning.WarningType) (v : Q) :
  Warning.isWarningOnCooldown config clock (Warning.wt_id wt) = false ->
  Warning.isDaytimeCondition (Warning.wt_timeCondition wt)
    && negb (Warning.isDaytime clock) = false ->
  st !! Warning.wt_parameter wt = Some v ->
  Warning.evaluateCondition (Warning.wt_condition wt) v (Warning.wt_threshold wt) = true ->
  Warning.checkWarning clock st (trig, config) wt
  = (trig ++ [Warning.mkInstance clock st wt v],
     Warning.addWarningToHistory config (Warning.mkInstance clock st wt v)).
Proof.
  intros Hc Hd Hv He. unfold Warning.checkWarning.
  now rewrite Hc, Hd, Hv, He.
Qed.


Lemma getWarningTypeById_add (config : Warning.Config) (e : Warning.WarningInstance)
    (id : string) :
  Warning.getWarningTypeById (Warning.addWarningToHistory config e) id
  = Warning.getWarningTypeById config id.
Proof. reflexivity. Qed.

(** Where the events of the history come from after some rules have run,
    evictions included. *)
Lemma checkWarnings_fold_origin (clock : Clock) (st : gmap string Q)
    (rules : list Warning.WarningType) :
  forall (trig : list Warning.WarningInstance) (config : Warning.Config),
  let after := fold_left (Warning.checkWarning clock st) rules (trig, config) in
  Warning.warningTypes (snd after) = Warning.warningTypes config
  /\ (exists new, fst after = trig ++ new)
  /\ (forall e, In e (Warning.warningHistory (snd after)) ->
        In e (Warning.warningHistory config)
        \/ exists wt, In wt rules /\ Warning.wi_warningTypeId e = Warning.wt_id wt).
Proof.
  induction rules as [|wt rules IH]; intros trig config; cbn [fold_left]; cbv zeta.
  - simpl. split; [reflexivity|]. split; [exists []; now rewrite app_nil_r | auto].
  - destruct (checkWarning_cases clock st trig config wt) as [E|(v & _ & _ & _ & E)];
      rewrite E.
    + destruct (IH trig config) as (Ht & [new Hn] & Hh).
      split; [exact Ht|]. split; [now exists new|].
      intros e He. destruct (Hh e He) as [?|(wt' & ? & ?)]; [now left|].
      right. exists wt'. split; [now right | assumption].
    + set (inst := Warning.mkInstance clock st wt v) in *.
      destruct (IH (trig ++ [inst]) (Warning.addWarningToHistory config inst))
        as (Ht & [new Hn] & Hh).
      split; [exact Ht|].
      split; [exists (inst :: new); now rewrite Hn, <- app_assoc|].
      intros e He. destruct (Hh e He) as [Hin|(wt' & ? & ?)].
      * rewrite addWarningToHistory_history in Hin.
        apply In_firstn_inv in Hin. destruct Hin as [<-|Hin]; [|now left].
        right. exists wt. split; [now left | reflexivity].
      * right. exists wt'. split; [now right | assumption].
Qed.

Lemma firstn_app_firstn {A : Type} (a l : list A) :
  forall m n : nat, (m <= n)%nat -> firstn m (a ++ firstn n l) = firstn m (a ++ l).
Proof.
  induction a as [|x a IH]; intros m n Hmn; simpl.
  - rewrite firstn_firstn. f_equal. lia.
  - destruct m as [|m]; [reflexivity|]. simpl. f_equal. apply IH. lia.
Qed.

(** The history after some rules have run: the events of this evaluation,
    newest first, ahead of the earlier history, cut at the cap. *)
Lemma checkWarnings_fold_history (clock : Clock) (st : gmap string Q)
    (rules : list Warning.WarningType) :
  forall (trig : list Warning.WarningInstance) (config : Warning.Config),
  let after := fold_left (Warning.checkWarning clock st) rules (trig, config) in
  exists new,
    fst after = trig ++ new
    /\ (new = [] /\ Warning.warningHistory (snd after) = Warning.warningHistory config
        \/ Warning.warningHistory (snd after)
           = firstn (Warning.maxHistoryItems config)
                    (rev new ++ Warning.warningHistory config))
    /\ (length new <= length rules)%nat
    /\ Warning.warningTypes (snd after) = Warning.warningTypes config
    /\ Warning.maxHistoryItems (snd after) = Warning.maxHistoryItems config
    /\ Warning.enabled (snd after) = Warning.enabled config
    /\ List.Forall (fun e => Warning.wi_timestamp e = now_ms clock) new.
Proof.
  induction rules as [|wt rules IH]; intros trig config;
    cbn [fold_left]; cbv zeta.
  - exists []. rewrite app_nil_r. simpl. repeat split; auto.
  - destruct (checkWarning_cases clock st trig config wt) as [E|(v & _ & _ & _ & E)];
      rewrite E.
    + destruct (IH trig config) as (new & H1 & H2 & H3 & H4 & H5 & H6 & H7).
      exists new. repeat split; auto. simpl. lia.
    + set (inst := Warning.mkInstance clock st wt v) in *.
      destruct (IH (trig ++ [inst]) (Warning.addWarningToHistory config inst))
        as (new & H1 & H2 & H3 & H4 & H5 & H6 & H7).
      exists (inst :: new). rewrite H1, <- app_assoc.
      split; [reflexivity|]. split; [right|repeat split; auto; simpl; lia].
      rewrite addWarningToHistory_history, addWarningToHistory_max in H2.
      destruct H2 as [[-> ->] | ->]; [reflexivity|].
      rewrite firstn_app_firstn by lia. simpl. now rewrite <- app_assoc.
Qed.


Lemma find_split {A : Type} (p : A -> bool) (l : list A) (x : A) :
  List.find p l = Some x ->
  exists pre post, l = pre ++ x :: post /\ p x = true
                   /\ forall y, In y pre -> p y = false.
Proof.
  induction l as [|a l IH]; simpl; [discriminate|].
  destruct (p a) eqn:E.
  - intros [= ->]. exists [], l. repeat split; auto. intros y [].
  - intros H. destruct (IH H) as (pre & post & -> & Hx & Hpre).
    exists (a :: pre), post. repeat split; auto.
    intros y [<-|Hy]; auto.
Qed.

Lemma getWarningTypeById_types (c1 c2 : Warning.Config) (id : string) :
  Warning.warningTypes c1 = Warning.warningTypes c2 ->
  Warning.getWarningTypeById c1 id = Warning.getWarningTypeById c2 id.
Proof. unfold Warning.getWarningTypeById. now intros ->. Qed.

(** A rule that is enabled, resolves to itself, is off cooldown with respect
    to the history at the start of the evaluation, passes its time condition
    and meets its threshold produces its event. *)
Lemma checkWarnings_fires (config : Warning.Config) (r : Warning.WarningType)
    (clock : Clock) (st : gmap string Q) (v : Q) :
  Warning.enabled config = true ->
  Warning.getWarningTypeById config (Warning.wt_id r) = Some r ->
  Warning.wt_enabled r = true ->
  (forall w, In w (Warning.warningHistory config) ->
             Warning.wi_warningTypeId w = Warning.wt_id r ->
             (Warning.wt_cooldownMinutes r
              <= inject_Z (now_ms clock - Warning.wi_timestamp w) / inject_Z (1000 * 60))%Q) ->
  Warning.isDaytimeCondition (Warning.wt_timeCondition r)
    && negb (Warning.isDaytime clock) = false ->
  st !! Warning.wt_parameter r = Some v ->
  Warning.evaluateCondition (Warning.wt_condition r) v (Warning.wt_threshold r) = true ->
  In (Warning.mkInstance clock st r v) (fst (Warning.checkWarnings config clock st)).
Proof.
  intros Hen Hres Hr Hold Hday Hv Hcond.
  unfold Warning.checkWarnings. rewrite Hen. cbn [negb].
  pose proof Hres as Hfind. unfold Warning.getWarningTypeById in Hfind.
  apply find_split in Hfind as (pre & post & Htypes & _ & Hpre).
  rewrite Htypes, List.filter_app. cbn [List.filter]. rewrite Hr.
  rewrite fold_left_app. cbn [fold_left].
  destruct (fold_left _ (List.filter Warning.wt_enabled pre) ([], config))
    as [trig1 config1] eqn:E1.
  pose proof (checkWarnings_fold_origin clock st
                (List.filter Warning.wt_enabled pre) [] config) as Horigin.
  cbv zeta in Horigin. rewrite E1 in Horigin. cbn [fst snd] in Horigin.
  destruct Horigin as (Ht1 & _ & Hh1).
  assert (Hoff : Warning.isWarningOnCooldown config1 clock (Warning.wt_id r) = false).
  { apply (cooldown_elapsed config1 clock (Warning.wt_id r) r).
    - now rewrite (getWarningTypeById_types config1 config).
    - intros w Hw Hid. destruct (Hh1 w Hw) as [Hin|(wt & Hwt & Hid')]; [now apply Hold|].
      exfalso. apply List.filter_In in Hwt as [Hwt _]. apply Hpre in Hwt.
      apply String.eqb_neq in Hwt. congruence. }
  rewrite (checkWarning_fires clock st trig1 config1 r v Hoff Hday Hv Hcond).
  destruct (checkWarnings_fold_origin clock st (List.filter Warning.wt_enabled post)
              (trig1 ++ [Warning.mkInstance clock st r v])
              (Warning.addWarningToHistory config1 (Warning.mkInstance clock st r v)))
    as (_ & [new ->] & _).
  apply in_or_app. left. apply in_or_app. right. now left.
Qed.







(** The cap of (b) protects the next evaluation only.  With a cap of four
    and two enabled rules, the one-minute rule fills the history in three
    more evaluations: the low-battery rule is blocked at T + 1, T + 2 and
    T + 3 minutes and fires again at T + 4 minutes. *)
Example cooldown_eviction_after_several :
  let config := Scenario.monitor [Scenario.lowSoc; Cases.loadTicker] 4 in
  let fired n := existsb (fun e => String.eqb (Warning.wi_warningTypeId e) "low-soc")
                   (fst (Cases.everyMinute n config)) in
  (2 * length (List.filter Warning.wt_enabled (Warning.warningTypes config))
   <= Warning.maxHistoryItems config)%nat
  /\ List.map fired [0; 1; 2; 3; 4]%nat = [true; false; false; false; true].
Proof. cbv zeta. split; [simpl; lia | vm_compute; reflexivity]. Qed.

(** ** Daytime window *)

Lemma isDaytime_spec (clock : Clock) :
  Warning.isDaytime clock = true <-> 8 <= local_hour clock <= 18.
Proof. unfold Warning.isDaytime. rewrite andb_true_iff, !Z.leb_le. reflexivity. Qed.

(** Outside hours 8 to 18, both included, a daytime rule is skipped. *)
Lemma daytime_rule_skipped (clock : Clock) (st : gmap string Q)
    (acc : list Warning.WarningInstance * Warning.Config) (wt : Warning.WarningType) :
  Warning.wt_timeCondition wt = Some "daytime" ->
  local_hour clock < 8 \/ 18 < local_hour clock ->
  Warning.checkWarning clock st acc wt = acc.
Proof.
  intros Htc Hhour. destruct acc as [trig config]. unfold Warning.checkWarning.
  destruct (Warning.isWarningOnCooldown _ _ _); [reflexivity|].
  rewrite Htc. cbn [Warning.isDaytimeCondition].
  assert (E : Warning.isDaytime clock = false).
  { apply not_true_is_false. rewrite isDaytime_spec. lia. }
  rewrite E. reflexivity.
Qed.

(** C8 (the code at the failing input). At local hour 18 (18:00 to 18:59) a
    daytime rule whose threshold is met is not skipped: [isDaytime] holds
    and the evaluation yields its event. *)
Theorem daytime_rule_fires_at_hour_18 :
  let config := Scenario.monitor [Scenario.lowPvByDay] 100 in
  let clock := Scenario.at_ (Scenario.hours 6) 18 in
  Warning.wt_timeCondition Scenario.lowPvByDay = Some "daytime"
  /\ Warning.isDaytime clock = true
  /\ fst (Warning.checkWarnings config clock Scenario.telemetry)
     = [Warning.mkInstance clock Scenario.telemetry Scenario.lowPvByDay 0%Q].
Proof. cbv zeta. repeat split; reflexivity. Qed.

(** ** Safety override of the decision engine *)

(** C1. Whatever the price signal, the provider state and the PV surplus, a
    battery at or above the target state of charge, or a grid voltage below
    200 V or above 250 V, yields STOP_CHARGING in mode "Solar first", which
    the legacy vocabulary renders as grid charge "Disabled". *)
Theorem safety_override_wins (pvTolerance : Q) (provider : Tibber.Service)
    (clock : Clock) (snapshot : Engine.SystemStateSnapshot)
    (currentPrice : option Tibber.PricePoint) :
  (Tibber.targetSoC (Tibber.config provider) <= Engine.battery_soc snapshot
   \/ Engine.grid_voltage snapshot < 200
   \/ 250 < Engine.grid_voltage snapshot)%Q ->
  let d := Engine.decide pvTolerance provider clock snapshot currentPrice in
  Engine.decision d = Engine.STOP_CHARGING
  /\ Engine.mode d = Engine.Solar_first
  /\ Engine.modeName (Engine.mode d) = "Solar first"
  /\ Engine.legacyGridCharge (Engine.mode d) = "Disabled".
Proof.
  intros H d. subst d. unfold Engine.decide.
  assert (E : Engine.safetyOverride (Tibber.targetSoC (Tibber.config provider)) snapshot
              = true).
  { unfold Engine.safetyOverride. rewrite !orb_true_iff.
    destruct H as [H|[H|H]].
    - left. left. now apply Qleb_iff.
    - left. right. now apply Qlt_bool_iff.
    - right. now apply Qlt_bool_iff. }
  rewrite E. repeat split; reflexivity.
Qed.

(** Scenario 3: 82 % of charge against a target of 80 %, a very cheap price
    and no production. *)
Lemma safety_override_wins_witness :
  let provider := Scenario.provider Tibber.defaultConfig Scenario.hourlyForecast in
  let d := Engine.decide 0%Q provider (Scenario.at_ 0 12)
             (Scenario.snapshot 82 0 500 230)
             (Some (Scenario.point 0 5%Q "VERY_CHEAP")) in
  Tibber.isPriceGood provider (Scenario.at_ 0 12)
    (Some (Scenario.point 0 5%Q "VERY_CHEAP")) = true
  /\ Engine.decision d = Engine.STOP_CHARGING
  /\ Engine.mode d = Engine.Solar_first
  /\ Engine.modeName (Engine.mode d) = "Solar first"
  /\ Engine.legacyGridCharge (Engine.mode d) = "Disabled".
Proof.
  cbv zeta. split; [reflexivity|].
  apply (safety_override_wins 0%Q). left. vm_compute. discriminate.
Defined.

(** Scenarios 1, 2 and 4 of the testable properties. *)
Example decide_scenarios :
  let provider := Scenario.provider Tibber.defaultConfig Scenario.hourlyForecast in
  let run snap lvl :=
    let d := Engine.decide 0%Q provider (Scenario.at_ 0 12) snap
               (Some (Scenario.point 0 5%Q lvl)) in
    (Engine.decision d, Engine.modeName (Engine.mode d)) in
  run (Scenario.snapshot 40 0 500 230) "CHEAP" = (Engine.START_CHARGING, "Utility first")
  /\ run (Scenario.snapshot 65 3000 1000 230) "EXPENSIVE"
     = (Engine.START_CHARGING, "Solar only")
  /\ run (Scenario.snapshot 30 0 500 190) "VERY_CHEAP"
     = (Engine.STOP_CHARGING, "Solar first").
Proof. cbv zeta. repeat split; reflexivity. Qed.

(** ** Price acceptability *)

Lemma includes_In (s : string) (arr : list string) :
  JS.includes s arr = true <-> In s arr.
Proof.
  unfold JS.includes. rewrite existsb_exists. split.
  - intros (x & Hx & E). apply String.eqb_eq in E. now subst.
  - intros H. exists s. split; [exact H | apply String.eqb_refl].
Qed.




(** ** Refresh *)

Lemma ingestPriceInfo_outcome (clock : Clock) (raw : option Tibber.RawPriceInfo)
    (s : Tibber.Service) :
  (exists e, Tibber.ingestPriceInfo clock raw s = (JS.Throw e, s))
  \/ (exists info s', Tibber.ingestPriceInfo clock raw s = (JS.Ok info, s')).
Proof.
  unfold Tibber.ingestPriceInfo.
  destruct raw as [raw|]; [|left; eexists; reflexivity].
  destruct (Tibber.rp_current raw); [|left; eexists; reflexivity].
  destruct (Tibber.rp_today raw); [|left; eexists; reflexivity].
  right. eexists. eexists. reflexivity.
Qed.

(** A failed request leaves the service object as it was. *)
Lemma makeGraphQLRequest_outcome (api : Tibber.Response) (s : Tibber.Service) :
  match api with
  | Tibber.TransportFailure m | Tibber.GraphQLErrors m =>
      Tibber.makeGraphQLRequest api s = (JS.Throw m, s)
  | Tibber.Data data => Tibber.makeGraphQLRequest api s = (JS.Ok data, s)
  end.
Proof. destruct api; reflexivity. Qed.

Lemma getPriceInfoFromFirstHome_outcome (api : Tibber.Response) (clock : Clock)
    (s : Tibber.Service) :
  (exists e, Tibber.getPriceInfoFromFirstHome api clock s = (JS.Throw e, s))
  \/ (exists info s' data,
        Tibber.getPriceInfoFromFirstHome api clock s = (JS.Ok info, s')
        /\ api = Tibber.Data data).
Proof.
  unfold Tibber.getPriceInfoFromFirstHome, JS.try_catch, JS.bind.
  pose proof (makeGraphQLRequest_outcome api s) as Hreq.
  destruct api as [m|m|data]; rewrite Hreq; try (left; eexists; reflexivity).
  destruct data as [viewer|]; [|left; eexists; reflexivity].
  destruct (Tibber.viewer_homes viewer) as [[|firstHome rest]|];
    try (left; eexists; reflexivity).
  destruct (ingestPriceInfo_outcome clock (Tibber.home_priceInfo firstHome) s)
    as [[e ->]|(info & s' & ->)].
  - left. eexists. reflexivity.
  - right. exists info, s', (Some viewer). now split.
Qed.

Lemma getCurrentPriceInfo_outcome (api : Tibber.Response) (clock : Clock)
    (homeIdArg : option string) (s : Tibber.Service) :
  (exists e, Tibber.getCurrentPriceInfo api clock homeIdArg s = (JS.Throw e, s))
  \/ (exists info s' data,
        Tibber.getCurrentPriceInfo api clock homeIdArg s = (JS.Ok info, s')
        /\ api = Tibber.Data data).
Proof.
  assert (E : Tibber.getCurrentPriceInfo api clock homeIdArg s
              = (if String.eqb (if Tibber.truthy homeIdArg then default "" homeIdArg
                                else Tibber.homeId (Tibber.config s)) ""
                 then Tibber.getPriceInfoFromFirstHome api clock s
                 else JS.try_catch
                        (let! data := Tibber.makeGraphQLRequest api in
                         match data with
                         | None => JS.throw Tibber.TypeError
                         | Some viewer =>
                             match Tibber.viewer_home viewer with
                             | None => JS.throw Tibber.TypeError
                             | Some home =>
                                 Tibber.ingestPriceInfo clock (Tibber.home_priceInfo home)
                             end
                         end)
                        (fun error => JS.throw error) s)).
  { unfold Tibber.getCurrentPriceInfo, JS.bind at 1, JS.get.
    now destruct (String.eqb _ ""). }
  rewrite E. clear E.
  destruct (String.eqb _ ""); [apply getPriceInfoFromFirstHome_outcome|].
  unfold JS.try_catch, JS.bind.
  pose proof (makeGraphQLRequest_outcome api s) as Hreq.
  destruct api as [m|m|data]; rewrite Hreq; try (left; eexists; reflexivity).
  destruct data as [viewer|]; [|left; eexists; reflexivity].
  destruct (Tibber.viewer_home viewer) as [home|]; [|left; eexists; reflexivity].
  destruct (ingestPriceInfo_outcome clock (Tibber.home_priceInfo home) s)
    as [[e ->]|(info & s' & ->)].
  - left. eexists. reflexivity.
  - right. exists info, s', (Some viewer). now split.
Qed.

(** C5. [refreshData] never throws: it returns a boolean.  When it returns
    [false] the service object, and with it the cached current price and
    forecast, is exactly what it was.  It returns [false] when the provider
    is disabled, when the API key is empty or the mask, when the transport
    fails and when the API answers with errors (rejected credentials). *)
Theorem refresh_failure_retains_cache (api : Tibber.Response) (clock : Clock)
    (s : Tibber.Service) :
  exists (ok : bool) (s' : Tibber.Service),
    Tibber.refreshData api clock s = (JS.Ok ok, s')
    /\ (ok = false ->
        s' = s
        /\ Tibber.currentPrice (Tibber.cache s') = Tibber.currentPrice (Tibber.cache s)
        /\ Tibber.forecast (Tibber.cache s') = Tibber.forecast (Tibber.cache s))
    /\ (Tibber.enabled (Tibber.config s) = false -> ok = false)
    /\ (Tibber.apiKey (Tibber.config s) = "" \/ Tibber.apiKey (Tibber.config s) = "***" ->
        ok = false)
    /\ (forall m, api = Tibber.TransportFailure m -> ok = false)
    /\ (forall m, api = Tibber.GraphQLErrors m -> ok = false).
Proof.
  unfold Tibber.refreshData, JS.try_catch, JS.bind at 1, JS.get.
  destruct (Tibber.enabled (Tibber.config s)) eqn:Hen; cbn [negb].
  2:{ exists false, s. cbn [JS.ret]. repeat split; auto. }
  destruct (String.eqb (Tibber.apiKey (Tibber.config s)) "") eqn:Hk1;
    [exists false, s; cbn; repeat split; auto|].
  destruct (String.eqb (Tibber.apiKey (Tibber.config s)) "***") eqn:Hk2;
    [exists false, s; cbn; repeat split; auto|].
  cbn [orb]. unfold JS.bind.
  apply String.eqb_neq in Hk1, Hk2.
  destruct (getCurrentPriceInfo_outcome api clock None s)
    as [[e ->]|(info & s' & data & -> & ->)].
  - exists false, s. cbn. repeat split; auto.
  - exists true, s'. cbn. repeat split; try discriminate.
    intros [?|?]; contradiction.
Qed.

(** A refresh that succeeds fills the cache, in cents; the next one, on a
    transport failure, reports failure and keeps that cache. *)
Lemma refresh_failure_retains_cache_witness :
  let s0 := Scenario.provider Scenario.keyedConfig [] in
  let first := Tibber.refreshData Scenario.answer (Scenario.at_ 0 12) s0 in
  let second := Tibber.refreshData (Tibber.TransportFailure "ETIMEDOUT")
                  (Scenario.at_ (Scenario.minutes 5) 12) (snd first) in
  fst first = JS.Ok true
  /\ List.map Tibber.total (Tibber.forecast (Tibber.cache (snd first)))
     = [ (31 # 100) * 100; (30 # 100) * 100; (20 # 100) * 100 ]%Q
  /\ fst second = JS.Ok false
  /\ snd second = snd first.
Proof.
  intros s0 first second. split; [reflexivity|]. split; [reflexivity|].
  destruct (refresh_failure_retains_cache (Tibber.TransportFailure "ETIMEDOUT")
              (Scenario.at_ (Scenario.minutes 5) 12) (snd first))
    as (ok & s' & Hrun & Hkeep & _ & _ & Hfail & _).
  specialize (Hfail _ eq_refl). subst ok.
  destruct (Hkeep eq_refl) as (Hs & _).
  subst second. rewrite Hrun. split; [reflexivity | exact Hs].
Defined.

(** ** Broadcast *)

Section BroadcastFacts.
Context {World : Type} (post : string -> string -> string -> JS.M World unit).

Lemma sendLoop_deliveries (config : Telegram.Config) (message : string)
    (rest : list string) :
  forall (successCount : nat) (w : World),
  Telegram.sendLoop post config message rest successCount w
  = (JS.Ok (successCount
            + Telegram.successes (fst (Telegram.deliveries post config message rest w)))%nat,
     snd (Telegram.deliveries post config message rest w)).
Proof.
  induction rest as [|chatId rest IH]; intros n w; cbn [Telegram.sendLoop Telegram.deliveries].
  - unfold JS.ret, Telegram.successes. simpl. f_equal. f_equal. lia.
  - unfold JS.bind at 1, JS.try_catch, JS.bind.
    destruct (post (Telegram.sendUrl config) chatId message w) as [[[]|e] w1].
    + cbn [JS.ret]. rewrite IH.
      destruct (Telegram.deliveries post config message rest w1) as [log w2].
      unfold Telegram.successes. simpl. f_equal. f_equal. lia.
    + cbn [JS.ret]. rewrite IH.
      destruct (Telegram.deliveries post config message rest w1) as [log w2].
      reflexivity.
Qed.

Lemma deliveries_chatIds (config : Telegram.Config) (message : string)
    (rest : list string) (w : World) :
  List.map fst (fst (Telegram.deliveries post config message rest w)) = rest.
Proof.
  revert w. induction rest as [|chatId rest IH]; intros w; [reflexivity|].
  cbn [Telegram.deliveries].
  destruct (post (Telegram.sendUrl config) chatId message w) as [[[]|e] w1];
    specialize (IH w1);
    destruct (Telegram.deliveries post config message rest w1) as [log w2];
    simpl in *; now rewrite IH.
Qed.

Lemma successes_pos (log : list (string * bool)) :
  (0 < Telegram.successes log)%nat <-> exists chatId, In (chatId, true) log.
Proof.
  unfold Telegram.successes. induction log as [|[c b] log IH]; simpl.
  - split; [lia | intros [? []]].
  - destruct b; simpl.
    + split; [intros _; exists c; now left | lia].
    + rewrite IH. split; intros [c' H]; exists c'; [now right|].
      destruct H as [H|H]; [discriminate | exact H].
Qed.
End BroadcastFacts.

(** C7. [broadcastMessage] never throws.  When the notifier is configured,
    every chat id is posted to, in order, each in the world left by the
    sends before it whether they returned or threw, and the result is
    [true] exactly when at least one send returned; when it is not
    configured nothing is sent and the result is [false]. *)
Theorem broadcast_isolates_failures {World : Type}
    (post : string -> string -> string -> JS.M World unit)
    (config : Telegram.Config) (message : string) (w : World) :
  let log := fst (Telegram.deliveries post config message (Telegram.chatIds config) w) in
  exists (ok : bool) (w' : World),
    Telegram.broadcastMessage post config message w = (JS.Ok ok, w')
    /\ (Telegram.configured config = true ->
        List.map fst log = Telegram.chatIds config
        /\ w' = snd (Telegram.deliveries post config message (Telegram.chatIds config) w)
        /\ (ok = true <-> exists chatId, In (chatId, true) log))
    /\ (Telegram.configured config = false -> ok = false /\ w' = w).
Proof.
  intros log. unfold Telegram.broadcastMessage, Telegram.configured.
  destruct (negb (Telegram.enabled config) || String.eqb (Telegram.botToken config) ""
            || (length (Telegram.chatIds config) =? 0)%nat) eqn:E; cbn [negb].
  - exists false, w. split; [reflexivity|]. split; [discriminate | auto].
  - unfold JS.bind. rewrite sendLoop_deliveries. cbn [JS.ret].
    eexists. eexists. split; [reflexivity|]. split; [|discriminate].
    intros _. split; [apply deliveries_chatIds|]. split; [reflexivity|].
    rewrite Nat.ltb_lt. apply successes_pos.
Qed.

(** The second of three chats refuses the message: the third still receives
    it and the broadcast reports success. *)
Lemma broadcast_isolates_failures_witness :
  Telegram.broadcastMessage Scenario.transport Scenario.notifier "Battery low" []
  = (JS.Ok true, ["1001"; "1003"])
  /\ fst (Telegram.deliveries Scenario.transport Scenario.notifier "Battery low"
            (Telegram.chatIds Scenario.notifier) [])
     = [("1001", true); ("blocked", false); ("1003", true)].
Proof.
  destruct (broadcast_isolates_failures Scenario.transport Scenario.notifier
              "Battery low" []) as (ok & w' & Hrun & Hconf & _).
  destruct (Hconf eq_refl) as (_ & Hw & Hok).
  split; [|reflexivity].
  rewrite Hrun. f_equal; [|exact Hw]. f_equal.
  apply Hok. exists "1001". left. reflexivity.
Defined.

(** ** Cheapest hours *)

Lemma total_cmp_key (a b : Tibber.PricePoint) :
  JS.Qlt_bool 0 (Tibber.total a - Tibber.total b) = true
  <-> (Tibber.total b < Tibber.total a)%Q.
Proof. rewrite Qlt_bool_iff. split; intros H; lra. Qed.

Lemma StronglySorted_firstn {A : Type} (R : A -> A -> Prop) (n : nat) (l : list A) :
  StronglySorted R l -> StronglySorted R (firstn n l).
Proof.
  intros H. revert n. induction H as [|x l Hl IH Hx]; intros [|n]; simpl;
    try constructor; auto.
  rewrite List.Forall_forall in *. intros y Hy. apply Hx.
  eapply In_firstn_inv, Hy.
Qed.

Lemma StronglySorted_filter {A : Type} (R : A -> A -> Prop) (f : A -> bool) (l : list A) :
  StronglySorted R l -> StronglySorted R (List.filter f l).
Proof.
  induction 1 as [|x l Hl IH Hx]; simpl; [constructor|].
  destruct (f x); [|exact IH]. constructor; [exact IH|].
  rewrite List.Forall_forall in *. intros y Hy. apply Hx.
  now apply List.filter_In in Hy as [Hy _].
Qed.

Lemma StronglySorted_map {A B : Type} (R : B -> B -> Prop) (f : A -> B) (l : list A) :
  StronglySorted (fun a b => R (f a) (f b)) l -> StronglySorted R (List.map f l).
Proof.
  induction 1 as [|x l Hl IH Hx]; simpl; constructor; [exact IH|].
  rewrite List.Forall_forall in *. intros y Hy.
  apply List.in_map_iff in Hy as (z & <- & Hz). now apply Hx.
Qed.

Lemma StronglySorted_impl {A : Type} (R1 R2 : A -> A -> Prop) (l : list A) :
  (forall a b, R1 a b -> R2 a b) -> StronglySorted R1 l -> StronglySorted R2 l.
Proof.
  intros HR. induction 1 as [|x l Hl IH Hx]; constructor; [exact IH|].
  eapply List.Forall_impl; [|exact Hx]. intros y. apply HR.
Qed.

(** In a forecast without gaps, the k-th future entry (from 0) starts
    within k+1 hours. *)
Lemma future_within (clock : Clock) (l : list Tibber.PricePoint) :
  forall (prev c : Z) (k : nat) (p : Tibber.PricePoint),
  prev <= c -> now_ms clock <= c ->
  Tibber.hourlyFrom prev l ->
  List.filter (Tibber.isFuture clock) l !! k = Some p ->
  Tibber.startsAt p <= c + (Z.of_nat k + 1) * 3600000.
Proof.
  induction l as [|x l IH]; intros prev c k p Hprev Hnow Hgap Hk; [discriminate|].
  cbn [Tibber.hourlyFrom] in Hgap. destruct Hgap as [Hx Hgap].
  cbn [List.filter] in Hk. unfold Tibber.isFuture at 1 in Hk.
  destruct (Z.ltb_spec (now_ms clock) (Tibber.startsAt x)) as [Hfut|Hpast].
  - destruct k as [|k]; cbn in Hk.
    + injection Hk as <-. lia.
    + pose proof (IH (Tibber.startsAt x) (c + 3600000) k p
                    ltac:(lia) ltac:(lia) Hgap Hk). lia.
  - exact (IH (Tibber.startsAt x) c k p ltac:(lia) Hnow Hgap Hk).
Qed.

Lemma getCheapestHours_eq (s : Tibber.Service) (clock : Clock) (count hoursAhead : nat) :
  Tibber.getCheapestHours s clock count hoursAhead
  = List.map Tibber.cheapHour
      (firstn count
         (JS.sort (fun a b => (Tibber.total a - Tibber.total b)%Q)
            (firstn hoursAhead
               (List.filter (Tibber.isFuture clock) (Tibber.forecast (Tibber.cache s)))))).
Proof.
  unfold Tibber.getCheapestHours.
  destruct (Tibber.forecast (Tibber.cache s)); [|reflexivity].
  cbn [List.filter]. rewrite firstn_nil. cbn [JS.sort]. now rewrite firstn_nil.
Qed.

(** C6 (amended). [getCheapestHours(count, hoursAhead)] returns at most
    [count] entries; each starts strictly after now and is one of the first
    [hoursAhead] future entries of the forecast (the candidates); the
    entries are ascending by price; entries of equal price keep forecast
    order: for every price, the entries returned at that price are the
    first ones at that price among the candidates, in the order of the
    forecast; so, when the forecast is ascending by [startsAt], entries of
    equal price are in order of [startsAt]; and when the forecast is hourly
    without gaps from now on, every entry starts within [hoursAhead] hours
    of now. *)
Theorem cheapest_hours_spec (s : Tibber.Service) (clock : Clock)
    (count hoursAhead : nat) :
  let result := Tibber.getCheapestHours s clock count hoursAhead in
  let candidates :=
    firstn hoursAhead
      (List.filter (Tibber.isFuture clock) (Tibber.forecast (Tibber.cache s))) in
  (length result <= count)%nat
  /\ (forall e, In e result ->
        now_ms clock < Tibber.ch_time e
        /\ exists p, In p candidates /\ e = Tibber.cheapHour p)
  /\ StronglySorted (fun a b => (Tibber.ch_price a <= Tibber.ch_price b)%Q) result
  /\ (forall price, exists k,
        List.filter (fun e => Qeq_bool (Tibber.ch_price e) price) result
        = firstn k (List.filter (fun e => Qeq_bool (Tibber.ch_price e) price)
                      (List.map Tibber.cheapHour candidates)))
  /\ (Tibber.ascending (Tibber.forecast (Tibber.cache s)) ->
      StronglySorted
        (JS.lexOrder Tibber.ch_price (fun a b => Tibber.ch_time a < Tibber.ch_time b))
        result)
  /\ (Tibber.hourlyFrom (now_ms clock) (Tibber.forecast (Tibber.cache s)) ->
      forall e, In e result ->
                Tibber.ch_time e <= now_ms clock + Z.of_nat hoursAhead * 3600000).
Proof.
  intros result candidates. subst result. rewrite getCheapestHours_eq.
  fold candidates.
  set (cmp := fun a b : Tibber.PricePoint => (Tibber.total a - Tibber.total b)%Q).
  assert (Hmem : forall e,
             In e (List.map Tibber.cheapHour (firstn count (JS.sort cmp candidates))) ->
             exists p, In p candidates /\ e = Tibber.cheapHour p).
  { intros e He. apply List.in_map_iff in He as (p & <- & Hp).
    exists p. split; [|reflexivity].
    apply In_firstn_inv in Hp.
    eapply Permutation_in; [apply sort_Permutation | exact Hp]. }
  split; [|split; [|split; [|split; [|split]]]].
  - rewrite length_map. apply firstn_le_length.
  - intros e He. destruct (Hmem e He) as (p & Hp & ->). split; [|now exists p].
    apply In_firstn_inv, List.filter_In in Hp as [_ Hp].
    now apply Z.ltb_lt in Hp.
  - apply StronglySorted_map, StronglySorted_firstn.
    eapply StronglySorted_impl;
      [|apply (sort_sorted cmp Tibber.total total_cmp_key (fun _ _ => True)),
          StronglySorted_True].
    intros a b. apply lexOrder_key_le.
  - intros price. rewrite !filter_map_comm. cbn [Tibber.cheapHour Tibber.ch_price].
    destruct (filter_firstn_prefix (fun a => Qeq_bool (Tibber.total a) price) count
                (JS.sort cmp candidates)) as [k Hk].
    exists k. rewrite Hk, (sort_stable cmp Tibber.total total_cmp_key).
    symmetry. apply List.firstn_map.
  - intros Hasc. apply StronglySorted_map, StronglySorted_firstn.
    apply (sort_sorted cmp Tibber.total total_cmp_key
             (fun a b => Tibber.startsAt a < Tibber.startsAt b)).
    now apply StronglySorted_firstn, StronglySorted_filter.
  - intros Hgap e He. destruct (Hmem e He) as (p & Hp & ->).
    apply list_elem_of_In, elem_of_take in Hp as (k & Hk & Hlt).
    pose proof (future_within clock _ (now_ms clock) (now_ms clock) k p
                  ltac:(lia) ltac:(lia) Hgap Hk) as Hb.
    cbn [Tibber.cheapHour Tibber.ch_time]. nia.
Qed.

(** The hourly forecast at half past the first hour: the two cheapest of the
    next three hours are the entries of equal price, earliest first. *)
Lemma cheapest_hours_spec_witness :
  let s := Scenario.provider Tibber.defaultConfig Scenario.hourlyForecast in
  let clock := Scenario.at_ (Scenario.minutes 30) 12 in
  Tibber.getCheapestHours s clock 2 3
  = [ Tibber.cheapHour (Scenario.point (Scenario.hours 2) 20%Q "CHEAP");
      Tibber.cheapHour (Scenario.point (Scenario.hours 3) 20%Q "CHEAP") ]
  /\ forall e, In e (Tibber.getCheapestHours s clock 2 3) ->
               Tibber.ch_time e <= now_ms clock + 3 * 3600000.
Proof.
  intros s clock. split; [reflexivity|].
  destruct (cheapest_hours_spec s clock 2 3) as (_ & _ & _ & _ & _ & Hhorizon).
  apply Hhorizon. vm_compute. repeat split; discriminate.
Defined.

(** C6 as stated fails twice.  The horizon is a number of forecast entries,
    not a span of time: with a gap in the forecast, a horizon of two hours
    returns an entry that starts thirty hours from now.  And ties are not
    broken by the earliest start: on a forecast whose entries are not in
    order of [startsAt], of two entries of equal price the later one is
    returned first. *)
Lemma cheapest_hours_counterexample :
  let clock := Scenario.at_ 0 12 in
  (let s := Scenario.provider Tibber.defaultConfig Scenario.gappedForecast in
   Tibber.ascending (Tibber.forecast (Tibber.cache s))
   /\ exists e, In e (Tibber.getCheapestHours s clock 6 2)
                /\ ~ Tibber.ch_time e <= now_ms clock + 2 * 3600000)
  /\ (let s := Scenario.provider Tibber.defaultConfig Cases.unorderedForecast in
      exists first second,
        Tibber.getCheapestHours s clock 6 24 = [first; second]
        /\ (Tibber.ch_price first == Tibber.ch_price second)%Q
        /\ Tibber.ch_time second < Tibber.ch_time first
        /\ now_ms clock < Tibber.ch_time second
        /\ Tibber.ch_time first <= now_ms clock + 24 * 3600000).
Proof.
  cbv zeta. split; [split|].
  - repeat constructor.
  - eexists. split; [left; reflexivity|]. vm_compute. intros H. now apply H.
  - eexists _, _. split; [reflexivity|]. split; [reflexivity|].
    vm_compute. repeat split; discriminate.
Qed.

(** ** Corrupted documents *)

Lemma backupFile_fresh (suffix : string) :
  Tibber.configFile +:+ ".corrupted." +:+ suffix <> Tibber.configFile.
Proof. unfold Tibber.configFile. intros H. cbv in H. congruence. Qed.

(** The price provider keeps the unparsable payload under a name carrying
    the time, answers with the defaults and writes them over the document;
    no other file is touched. *)
Lemma loadConfig_backs_up (parse : string -> option Tibber.Config)
    (stringify : Tibber.Config -> string) (clock : Clock) (fs : FileSystem)
    (content : string) :
  fs !! Tibber.configFile = Some content ->
  parse content = None ->
  let backupFile := Tibber.configFile +:+ ".corrupted." +:+ pretty (now_ms clock) in
  let loaded := Tibber.loadConfig parse stringify clock fs in
  fst loaded = Tibber.defaultConfig
  /\ snd loaded !! backupFile = Some content
  /\ snd loaded !! Tibber.configFile = Some (stringify Tibber.defaultConfig)
  /\ forall f, f <> backupFile -> f <> Tibber.configFile -> snd loaded !! f = fs !! f.
Proof.
  intros Hfile Hparse backupFile loaded. subst loaded.
  unfold Tibber.loadConfig. rewrite Hfile, Hparse. fold backupFile.
  unfold Tibber.saveConfigSync. cbn [fst snd].
  split; [reflexivity|]. split; [|split].
  - rewrite lookup_insert_ne by (symmetry; apply backupFile_fresh).
    apply lookup_insert_eq.
  - apply lookup_insert_eq.
  - intros f Hb Hc. now rewrite !lookup_insert_ne by congruence.
Qed.

(** C9 (the code at the failing input). When the warning document, or the
    notifier's document, does not parse, [getConfig] answers with the
    defaults and leaves the data directory exactly as it found it: no backup
    of the payload is written, under any name. *)
Theorem corrupted_config_not_backed_up
    (parseW : string -> option Warning.Config) (stringifyW : Warning.Config -> string)
    (parseT : string -> option Telegram.Config) (stringifyT : Telegram.Config -> string)
    (fs : FileSystem) (contentW contentT : string) :
  fs !! Warning.WARNINGS_CONFIG_FILE = Some contentW ->
  parseW contentW = None ->
  fs !! Telegram.TELEGRAM_CONFIG_FILE = Some contentT ->
  parseT contentT = None ->
  Warning.getConfig parseW stringifyW fs = (Warning.defaultConfig, fs)
  /\ Telegram.getConfig parseT stringifyT fs = (Telegram.defaultConfig, fs).
Proof.
  intros HW HpW HT HpT. split.
  - unfold Warning.getConfig, Warning.ensureConfigFile. now rewrite HW, HW, HpW.
  - unfold Telegram.getConfig, Telegram.ensureConfigFile. now rewrite HT, HT, HpT.
Qed.

(** The three truncated documents: the price provider writes a backup, the
    other two services write nothing, and the next save of the warning
    document overwrites the payload. *)
Lemma corrupted_config_not_backed_up_witness :
  let fs := Scenario.corruptedData in
  let parseW := Scenario.parseEmptyObject Warning.defaultConfig in
  let parseT := Scenario.parseEmptyObject Telegram.defaultConfig in
  let parseP := Scenario.parseEmptyObject Tibber.defaultConfig in
  (Warning.getConfig parseW Scenario.stringifyAsEmptyObject fs = (Warning.defaultConfig, fs)
   /\ Telegram.getConfig parseT Scenario.stringifyAsEmptyObject fs
      = (Telegram.defaultConfig, fs))
  /\ snd (Tibber.loadConfig parseP Scenario.stringifyAsEmptyObject (Scenario.at_ 0 12) fs)
       !! "data/tibber_config.json.corrupted.1768478400000" = Some Scenario.truncated
  /\ Warning.saveConfig Scenario.stringifyAsEmptyObject Warning.defaultConfig fs
       !! Warning.WARNINGS_CONFIG_FILE = Some "{}".
Proof.
  cbv zeta. split; [|split; reflexivity].
  apply (corrupted_config_not_backed_up _ _ _ _ _ Scenario.truncated Scenario.truncated);
    reflexivity.
Defined.

(** ** Configuration update *)

Lemma getCountrySettings_total (countryCode : string) :
  exists c, Tibber.getCountrySettings countryCode = Some c.
Proof.
  unfold Tibber.getCountrySettings.
  destruct (String.eqb countryCode ""); [eexists; reflexivity|].
  destruct (Tibber.findCountry _); eexists; reflexivity.
Qed.

Lemma handleApiKey_masked (u : Tibber.ConfigUpdate) :
  Tibber.u_apiKey u = Some "***" \/ Tibber.u_apiKey u = Some "******"
  \/ Tibber.u_apiKey u = Some "" ->
  Tibber.handleApiKey u = Tibber.deleteApiKey u.
Proof.
  unfold Tibber.handleApiKey. intros [-> | [-> | ->]]; reflexivity.
Qed.

(** C10 (amended). When the posted [apiKey] is "***", "******" or empty,
    the stored key is unchanged and every other property except the
    currency is the posted one when posted, the stored one otherwise.  The
    currency is the posted one when posted non-empty, or when no non-empty
    country is posted (the stored one when not posted at all); when a
    non-empty country comes with a missing or empty currency, it is the
    currency of that country's settings. *)
Theorem updateConfig_keeps_masked_key (config : Tibber.Config) (u : Tibber.ConfigUpdate) :
  Tibber.u_apiKey u = Some "***" \/ Tibber.u_apiKey u = Some "******"
  \/ Tibber.u_apiKey u = Some "" ->
  let config' := Tibber.updateConfig config u in
  Tibber.apiKey config' = Tibber.apiKey config
  /\ Tibber.enabled config' = default (Tibber.enabled config) (Tibber.u_enabled u)
  /\ Tibber.homeId config' = default (Tibber.homeId config) (Tibber.u_homeId u)
  /\ Tibber.country config' = default (Tibber.country config) (Tibber.u_country u)
  /\ Tibber.timezone config' = default (Tibber.timezone config) (Tibber.u_timezone u)
  /\ Tibber.targetSoC config' = default (Tibber.targetSoC config) (Tibber.u_targetSoC u)
  /\ Tibber.minimumSoC config' = default (Tibber.minimumSoC config) (Tibber.u_minimumSoC u)
  /\ Tibber.maxPriceThreshold config'
     = default (Tibber.maxPriceThreshold config) (Tibber.u_maxPriceThreshold u)
  /\ Tibber.usePriceLevels config'
     = default (Tibber.usePriceLevels config) (Tibber.u_usePriceLevels u)
  /\ Tibber.allowedPriceLevels config'
     = default (Tibber.allowedPriceLevels config) (Tibber.u_allowedPriceLevels u)
  /\ (Tibber.truthy (Tibber.u_country u) && negb (Tibber.truthy (Tibber.u_currency u)) = false ->
      Tibber.currency config' = default (Tibber.currency config) (Tibber.u_currency u))
  /\ (Tibber.truthy (Tibber.u_country u) && negb (Tibber.truthy (Tibber.u_currency u)) = true ->
      exists c, Tibber.getCountrySettings (default "" (Tibber.u_country u)) = Some c
                /\ Tibber.currency config' = Tibber.c_currency c).
Proof.
  intros Hkey config'. subst config'. unfold Tibber.updateConfig.
  rewrite (handleApiKey_masked u Hkey). unfold Tibber.autoFillCurrency.
  cbn [Tibber.deleteApiKey Tibber.u_country Tibber.u_currency].
  destruct (Tibber.truthy (Tibber.u_country u)
            && negb (Tibber.truthy (Tibber.u_currency u))) eqn:E.
  - destruct (getCountrySettings_total (default "" (Tibber.u_country u))) as [c Hc].
    rewrite Hc. cbn. repeat split; try discriminate.
    intros _. exists c. now split.
  - cbn. repeat split; try discriminate.
Qed.

(** The settings form posts the mask, Norway and an empty currency: the key
    stays, the country is taken and the currency becomes the Norwegian
    one. *)
Lemma updateConfig_keeps_masked_key_witness :
  let config' := Tibber.updateConfig Scenario.keyedConfig Scenario.formUpdate in
  Tibber.apiKey config' = "tibber-token-5K4MVS"
  /\ Tibber.country config' = "NO"
  /\ Tibber.targetSoC config' = 90%Q
  /\ Tibber.currency config' = "NOK".
Proof.
  cbv zeta.
  destruct (updateConfig_keeps_masked_key Scenario.keyedConfig Scenario.formUpdate)
    as (Hkey & _ & _ & Hcountry & _ & Hsoc & _); [left; reflexivity|].
  split; [exact Hkey|]. split; [exact Hcountry|]. split; [exact Hsoc | reflexivity].
Defined.

(** C10 as stated fails for the currency: posted empty together with a
    country, it is not merged as posted but replaced by the currency of the
    country. *)
Lemma updateConfig_counterexample :
  Tibber.u_apiKey Scenario.formUpdate = Some "***"
  /\ Tibber.u_currency Scenario.formUpdate = Some ""
  /\ Tibber.currency (Tibber.updateConfig Scenario.keyedConfig Scenario.formUpdate)
     <> default (Tibber.currency Scenario.keyedConfig)
                (Tibber.u_currency Scenario.formUpdate)
  /\ Tibber.currency (Tibber.updateConfig Scenario.keyedConfig Scenario.formUpdate) = "NOK".
Proof. repeat split; try reflexivity. vm_compute. discriminate. Qed.

(** * Further properties of the services *)

(** ** Comparison operators of the warning rules *)

Lemma evaluateCondition_known (v t : Q) :
  Warning.evaluateCondition "lt" v t = JS.Qlt_bool v t
  /\ Warning.evaluateCondition "gt" v t = JS.Qlt_bool t v
  /\ Warning.evaluateCondition "eq" v t = Qeq_bool v t
  /\ Warning.evaluateCondition "lte" v t = JS.Qleb v t
  /\ Warning.evaluateCondition "gte" v t = JS.Qleb t v.
Proof. repeat split; reflexivity. Qed.

Lemma evaluateCondition_unknown (op : string) (v t : Q) :
  ~ In op ["lt"; "gt"; "eq"; "lte"; "gte"] ->
  Warning.evaluateCondition op v t = false.
Proof.
  intros Hop. unfold Warning.evaluateCondition.
  destruct (String.eqb_spec op "lt") as [->|_]; [exfalso; apply Hop; simpl; tauto|].
  destruct (String.eqb_spec op "gt") as [->|_]; [exfalso; apply Hop; simpl; tauto|].
  destruct (String.eqb_spec op "eq") as [->|_]; [exfalso; apply Hop; simpl; tauto|].
  destruct (String.eqb_spec op "lte") as [->|_]; [exfalso; apply Hop; simpl; tauto|].
  destruct (String.eqb_spec op "gte") as [->|_]; [exfalso; apply Hop; simpl; tauto|].
  reflexivity.
Qed.

(** X1. For every value and threshold exactly one of [lt], [eq], [gt]
    holds; [lte] is [lt] or [eq], [gte] is [gt] or [eq]; an operator outside
    the five never holds. *)
Theorem evaluateCondition_operators (v t : Q) :
  let holds op := Warning.evaluateCondition op v t in
  (holds "lt" = true /\ holds "eq" = false /\ holds "gt" = false
   \/ holds "lt" = false /\ holds "eq" = true /\ holds "gt" = false
   \/ holds "lt" = false /\ holds "eq" = false /\ holds "gt" = true)
  /\ holds "lte" = holds "lt" || holds "eq"
  /\ holds "gte" = holds "gt" || holds "eq"
  /\ forall op, ~ In op ["lt"; "gt"; "eq"; "lte"; "gte"] -> holds op = false.
Proof.
  cbv zeta.
  destruct (evaluateCondition_known v t) as (-> & -> & -> & -> & ->).
  split; [|split; [|split; [|intros op; apply evaluateCondition_unknown]]].
  - destruct (Q_dec v t) as [[Hlt|Hgt]|Heq].
    + left. split; [now apply Qlt_bool_iff|]. split.
      * apply not_true_iff_false. rewrite Qeq_bool_iff. lra.
      * apply Qlt_bool_false_iff. lra.
    + right. right. split; [apply Qlt_bool_false_iff; lra|]. split.
      * apply not_true_iff_false. rewrite Qeq_bool_iff. lra.
      * now apply Qlt_bool_iff.
    + right. left. split; [apply Qlt_bool_false_iff; lra|]. split.
      * now apply Qeq_bool_iff.
      * apply Qlt_bool_false_iff. lra.
  - apply eq_true_iff_eq. rewrite orb_true_iff, Qleb_iff, Qlt_bool_iff, Qeq_bool_iff.
    split; [intros H; destruct (Q_dec v t) as [[?|?]|?]; [tauto | lra | tauto] | intros [?|?]; lra].
  - apply eq_true_iff_eq. rewrite orb_true_iff, Qleb_iff, Qlt_bool_iff, Qeq_bool_iff.
    split; [intros H; destruct (Q_dec v t) as [[?|?]|?]; [lra | tauto | tauto] | intros [?|?]; lra].
Qed.

(** ** What an evaluation yields and stores *)

Lemma checkWarnings_fold_sound (clock : Clock) (st : gmap string Q)
    (rules : list Warning.WarningType) :
  forall (trig : list Warning.WarningInstance) (config : Warning.Config) e,
  In e (fst (fold_left (Warning.checkWarning clock st) rules (trig, config))) ->
  In e trig
  \/ exists wt v,
       In wt rules
       /\ e = Warning.mkInstance clock st wt v
       /\ st !! Warning.wt_parameter wt = Some v
       /\ Warning.evaluateCondition (Warning.wt_condition wt) v (Warning.wt_threshold wt) = true
       /\ Warning.isDaytimeCondition (Warning.wt_timeCondition wt)
          && negb (Warning.isDaytime clock) = false.
Proof.
  induction rules as [|wt rules IH]; intros trig config e He; cbn [fold_left] in He.
  - now left.
  - unfold Warning.checkWarning at 2 in He.
    destruct (Warning.isWarningOnCooldown config clock (Warning.wt_id wt)).
    { destruct (IH _ _ _ He) as [?|(wt' & v & ? & ?)]; [now left|].
      right. exists wt', v. split; [now right | assumption]. }
    destruct (Warning.isDaytimeCondition _ && _) eqn:Hday.
    { destruct (IH _ _ _ He) as [?|(wt' & v & ? & ?)]; [now left|].
      right. exists wt', v. split; [now right | assumption]. }
    destruct (st !! Warning.wt_parameter wt) as [v|] eqn:Hv.
    2:{ destruct (IH _ _ _ He) as [?|(wt' & v & ? & ?)]; [now left|].
        right. exists wt', v. split; [now right | assumption]. }
    destruct (Warning.evaluateCondition _ v _) eqn:Hcond.
    2:{ destruct (IH _ _ _ He) as [?|(wt' & v' & ? & ?)]; [now left|].
        right. exists wt', v'. split; [now right | assumption]. }
    destruct (IH _ _ _ He) as [Hin|(wt' & v' & ? & ?)].
    + apply in_app_or in Hin as [?|[<-|[]]]; [now left|].
      right. exists wt, v. split; [now left|]. auto.
    + right. exists wt', v'. split; [now right | assumption].
Qed.

Lemma checkWarnings_event_rule (config : Warning.Config) (clock : Clock)
    (st : gmap string Q) (e : Warning.WarningInstance) :
  In e (fst (Warning.checkWarnings config clock st)) ->
  exists wt v, In wt (Warning.warningTypes config) /\ Warning.wt_enabled wt = true
               /\ e = Warning.mkInstance clock st wt v.
Proof.
  unfold Warning.checkWarnings. destruct (Warning.enabled config); cbn [negb]; [|intros []].
  intros He.
  destruct (checkWarnings_fold_sound _ _ _ _ _ _ He) as [[]|(wt & v & Hwt & -> & _)].
  apply List.filter_In in Hwt as [Hin Hen]. now exists wt, v.
Qed.

(** X2. An evaluation yields at most one event per enabled rule, and none
    when the monitor is disabled.  Every event it yields belongs to an
    enabled rule of the document whose parameter is present in the
    telemetry with a value that meets the rule's condition, carries that
    value and the time of the evaluation, and, for a rule restricted to
    daytime, is yielded only at local hours 8 to 18. *)
Theorem checkWarnings_sound (config : Warning.Config) (clock : Clock)
    (st : gmap string Q) :
  (length (fst (Warning.checkWarnings config clock st))
   <= WarningAdmin.getEnabledWarningsCount config)%nat
  /\ (Warning.enabled config = false -> Warning.checkWarnings config clock st = ([], config))
  /\ forall e, In e (fst (Warning.checkWarnings config clock st)) ->
       exists wt v,
         In wt (Warning.warningTypes config)
         /\ Warning.wt_enabled wt = true
         /\ e = Warning.mkInstance clock st wt v
         /\ st !! Warning.wt_parameter wt = Some v
         /\ Warning.evaluateCondition (Warning.wt_condition wt) v
              (Warning.wt_threshold wt) = true
         /\ (Warning.wt_timeCondition wt = Some "daytime" -> 8 <= local_hour clock <= 18).
Proof.
  unfold Warning.checkWarnings, WarningAdmin.getEnabledWarningsCount.
  destruct (Warning.enabled config); cbn [negb].
  2:{ split; [simpl; lia|]. split; [reflexivity | intros e []]. }
  split; [|split; [discriminate|]].
  - destruct (checkWarnings_fold_history clock st
                (List.filter Warning.wt_enabled (Warning.warningTypes config)) [] config)
      as (new & -> & _ & Hlen & _). exact Hlen.
  - intros e He.
    destruct (checkWarnings_fold_sound _ _ _ _ _ _ He)
      as [[]|(wt & v & Hwt & -> & Hv & Hcond & Hday)].
    apply List.filter_In in Hwt as [Hin Hen].
    exists wt, v. split; [exact Hin|]. split; [exact Hen|]. split; [reflexivity|].
    split; [exact Hv|]. split; [exact Hcond|].
    intros Htc. rewrite Htc in Hday.
    destruct (Warning.isDaytime clock) eqn:E; [now apply isDaytime_spec in E|].
    vm_compute in Hday. discriminate.
Qed.

Lemma checkWarnings_fold_idle (clock : Clock) (st : gmap string Q)
    (rules : list Warning.WarningType) :
  forall (trig : list Warning.WarningInstance) (config : Warning.Config),
  fst (fold_left (Warning.checkWarning clock st) rules (trig, config)) = trig ->
  snd (fold_left (Warning.checkWarning clock st) rules (trig, config)) = config.
Proof.
  induction rules as [|wt rules IH]; intros trig config; cbn [fold_left]; [reflexivity|].
  destruct (checkWarning_cases clock st trig config wt) as [E|(v & _ & _ & _ & E)];
    rewrite E; [apply IH|].
  intros H. exfalso.
  destruct (checkWarnings_fold_origin clock st rules
              (trig ++ [Warning.mkInstance clock st wt v])
              (Warning.addWarningToHistory config (Warning.mkInstance clock st wt v)))
    as (_ & [new Hnew] & _).
  rewrite Hnew in H. apply (f_equal (@length _)) in H.
  rewrite !length_app in H. simpl in H. lia.
Qed.

(** X3. An evaluation changes nothing of the document but the history.
    When it yields no event the document is untouched; otherwise the new
    history is the events of the evaluation, newest first, ahead of the
    earlier history, cut at [maxHistoryItems]. *)
Theorem checkWarnings_persists (config : Warning.Config) (clock : Clock)
    (st : gmap string Q) :
  let triggered := fst (Warning.checkWarnings config clock st) in
  let after := snd (Warning.checkWarnings config clock st) in
  Warning.warningTypes after = Warning.warningTypes config
  /\ Warning.enabled after = Warning.enabled config
  /\ Warning.maxHistoryItems after = Warning.maxHistoryItems config
  /\ (triggered = [] -> after = config)
  /\ (triggered <> [] ->
      Warning.warningHistory after
      = firstn (Warning.maxHistoryItems config)
               (rev triggered ++ Warning.warningHistory config)).
Proof.
  cbv zeta. unfold Warning.checkWarnings.
  destruct (Warning.enabled config) eqn:Hen; cbn [negb].
  2:{ cbn. repeat split; auto. congruence. }
  destruct (checkWarnings_fold_history clock st
              (List.filter Warning.wt_enabled (Warning.warningTypes config)) [] config)
    as (new & H1 & H2 & _ & H4 & H5 & H6 & _).
  rewrite H1. cbn [app].
  split; [exact H4|]. split; [congruence|]. split; [exact H5|]. split.
  - intros ->. apply checkWarnings_fold_idle. exact H1.
  - intros Hne. destruct H2 as [[-> _] | H2]; [congruence | exact H2].
Qed.

(** Off cooldown means that every stored event of the rule is at least as
    old as the cooldown. *)
Lemma cooldown_off_all_old (config : Warning.Config) (clock : Clock)
    (r : Warning.WarningType) :
  Warning.getWarningTypeById config (Warning.wt_id r) = Some r ->
  Warning.isWarningOnCooldown config clock (Warning.wt_id r) = false ->
  forall w, In w (Warning.warningHistory config) ->
            Warning.wi_warningTypeId w = Warning.wt_id r ->
            (Warning.wt_cooldownMinutes r
             <= inject_Z (now_ms clock - Warning.wi_timestamp w) / inject_Z (1000 * 60))%Q.
Proof.
  intros Hres Hoff w Hw Hid. apply Qnot_lt_le. intros Hlt.
  rewrite (cooldown_active config clock _ r w Hres Hw Hid Hlt) in Hoff. discriminate.
Qed.

(** X4. A rule that is enabled, that its id resolves to, that is off
    cooldown when the evaluation starts, whose time condition passes and
    whose parameter is present with a value meeting the condition, yields
    its event in that evaluation, whatever the other rules do. *)
Theorem warning_fires_when_due (config : Warning.Config) (r : Warning.WarningType)
    (clock : Clock) (st : gmap string Q) (v : Q) :
  Warning.enabled config = true ->
  Warning.getWarningTypeById config (Warning.wt_id r) = Some r ->
  Warning.wt_enabled r = true ->
  Warning.isWarningOnCooldown config clock (Warning.wt_id r) = false ->
  Warning.isDaytimeCondition (Warning.wt_timeCondition r)
    && negb (Warning.isDaytime clock) = false ->
  st !! Warning.wt_parameter r = Some v ->
  Warning.evaluateCondition (Warning.wt_condition r) v (Warning.wt_threshold r) = true ->
  In (Warning.mkInstance clock st r v) (fst (Warning.checkWarnings config clock st)).
Proof.
  intros Hen Hres Hr Hoff Hday Hv Hcond.
  apply checkWarnings_fires; auto.
  now apply cooldown_off_all_old.
Qed.

(** ** Administration of the warning rules *)

Lemma find_snoc {A : Type} (p : A -> bool) (l : list A) (x : A) :
  List.find p (l ++ [x])
  = match List.find p l with
    | Some y => Some y
    | None => if p x then Some x else None
    end.
Proof.
  induction l as [|a l IH]; simpl; [reflexivity|].
  destruct (p a); [reflexivity | exact IH].
Qed.

(** X5. [addWarningType] stores the rule under the id it came with, or under
    an id made of the time when it came without one.  Afterwards every id
    that resolved before resolves to the same rule as before, so a rule
    added under an id already in use is never found by its id; a new id
    resolves to the stored rule.  The history is untouched. *)
Theorem addWarningType_lookup (config : Warning.Config) (clock : Clock)
    (warningType : Warning.WarningType) :
  let stored := fst (WarningAdmin.addWarningType config clock warningType) in
  let after := snd (WarningAdmin.addWarningType config clock warningType) in
  (Warning.wt_id warningType <> "" -> stored = warningType)
  /\ (Warning.wt_id warningType = "" ->
      stored = WarningAdmin.setId warningType ("warning-" +:+ pretty (now_ms clock)))
  /\ Warning.wt_id stored <> ""
  /\ Warning.warningTypes after = Warning.warningTypes config ++ [stored]
  /\ Warning.warningHistory after = Warning.warningHistory config
  /\ forall id,
       Warning.getWarningTypeById after id
       = match Warning.getWarningTypeById config id with
         | Some earlier => Some earlier
         | None => if String.eqb (Warning.wt_id stored) id then Some stored else None
         end.
Proof.
  cbv zeta. unfold WarningAdmin.addWarningType. cbn [fst snd].
  split; [|split; [|split; [|split; [reflexivity|split; [reflexivity|]]]]].
  - intros Hid. apply String.eqb_neq in Hid. now rewrite Hid.
  - now intros ->.
  - destruct (String.eqb_spec (Warning.wt_id warningType) "") as [E|E]; [|exact E].
    cbn. intros H. cbv in H. congruence.
  - intros id. unfold Warning.getWarningTypeById.
    exact (find_snoc (fun warning => String.eqb (Warning.wt_id warning) id) _ _).
Qed.

Lemma findIndex_find {A : Type} (p : A -> bool) (l : list A) :
  match JSArray.findIndex p l with
  | Some i => exists x, l !! i = Some x /\ p x = true /\ List.find p l = Some x
  | None => List.find p l = None
  end.
Proof.
  induction l as [|a l IH]; simpl; [reflexivity|].
  destruct (p a) eqn:E; [exists a; auto|].
  destruct (JSArray.findIndex p l) as [i|]; simpl; [|exact IH].
  destruct IH as (x & ? & ? & ?). exists x. auto.
Qed.

Lemma find_insert_first {A : Type} (p : A -> bool) (new : A) (l : list A) :
  forall i, JSArray.findIndex p l = Some i -> p new = true ->
            List.find p (<[i := new]> l) = Some new.
Proof.
  induction l as [|a l IH]; intros i; simpl; [discriminate|].
  destruct (p a) eqn:E.
  - intros [= <-] Hnew. simpl. now rewrite Hnew.
  - destruct (JSArray.findIndex p l) as [j|] eqn:Ej; simpl; [|discriminate].
    intros [= <-] Hnew. simpl. rewrite E. now apply IH.
Qed.

Lemma find_insert_other {A : Type} (q : A -> bool) (new : A) (l : list A) :
  forall i old, l !! i = Some old -> q old = false -> q new = false ->
                List.find q (<[i := new]> l) = List.find q l.
Proof.
  induction l as [|a l IH]; intros [|i] old; simpl; try discriminate.
  - intros [= ->] Hold Hnew. now rewrite Hold, Hnew.
  - intros Hi Hold Hnew. destruct (q a); [reflexivity|]. now apply (IH i old).
Qed.

(** X6. [updateWarningType] fails and leaves the document alone when the id
    does not resolve.  Otherwise it succeeds, the id resolves to the new
    rule (with that id, whatever id the new rule came with), every other id
    resolves as before, and the number of rules and the history (hence the
    rule's running cooldown) are unchanged. *)
Theorem updateWarningType_lookup (config : Warning.Config) (id : string)
    (updatedWarning : Warning.WarningType) :
  let result := WarningAdmin.updateWarningType config id updatedWarning in
  (Warning.getWarningTypeById config id = None -> result = (false, config))
  /\ (is_Some (Warning.getWarningTypeById config id) ->
      fst result = true
      /\ Warning.getWarningTypeById (snd result) id
         = Some (WarningAdmin.setId updatedWarning id)
      /\ (forall id', id' <> id ->
            Warning.getWarningTypeById (snd result) id'
            = Warning.getWarningTypeById config id')
      /\ length (Warning.warningTypes (snd result)) = length (Warning.warningTypes config)
      /\ Warning.warningHistory (snd result) = Warning.warningHistory config).
Proof.
  cbv zeta. unfold WarningAdmin.updateWarningType, Warning.getWarningTypeById.
  pose proof (findIndex_find (fun warning => String.eqb (Warning.wt_id warning) id)
                (Warning.warningTypes config)) as Hfi.
  destruct (JSArray.findIndex _ (Warning.warningTypes config)) as [i|] eqn:Ei.
  - destruct Hfi as (old & Hi & Hold & Hfind). rewrite Hfind.
    split; [discriminate|]. intros _. cbn [fst snd WarningAdmin.setTypes Warning.warningTypes
                                             Warning.warningHistory].
    split; [reflexivity|]. split; [|split; [|split; [apply length_insert | reflexivity]]].
    + apply find_insert_first; [exact Ei|]. cbn. apply String.eqb_refl.
    + intros id' Hne. apply (find_insert_other _ _ _ i old Hi).
      * apply String.eqb_eq in Hold. rewrite Hold. now apply String.eqb_neq.
      * cbn. now apply String.eqb_neq.
  - rewrite Hfi. split; [reflexivity|]. intros [x Hx]. discriminate.
Qed.

Lemma find_filter_keep {A : Type} (q f : A -> bool) (l : list A) :
  (forall x, q x = true -> f x = true) ->
  List.find q (List.filter f l) = List.find q l.
Proof.
  intros H. induction l as [|a l IH]; simpl; [reflexivity|].
  destruct (f a) eqn:Ef; simpl.
  - destruct (q a); [reflexivity | exact IH].
  - destruct (q a) eqn:Eq; [|exact IH]. apply H in Eq. congruence.
Qed.

Lemma find_filter_drop {A : Type} (p : A -> bool) (l : list A) :
  List.find p (List.filter (fun x => negb (p x)) l) = None.
Proof.
  induction l as [|a l IH]; simpl; [reflexivity|].
  destruct (p a) eqn:E; simpl; [exact IH|]. now rewrite E.
Qed.

(** X7. After [deleteWarningType] the id no longer resolves, every other id
    resolves as before, and no evaluation yields an event for the id,
    whatever the clock and the telemetry. *)
Theorem deleteWarningType_silences (config : Warning.Config) (id : string) :
  let after := snd (WarningAdmin.deleteWarningType config id) in
  fst (WarningAdmin.deleteWarningType config id) = true
  /\ Warning.getWarningTypeById after id = None
  /\ (forall id', id' <> id ->
        Warning.getWarningTypeById after id' = Warning.getWarningTypeById config id')
  /\ Warning.warningHistory after = Warning.warningHistory config
  /\ forall clock st e, In e (fst (Warning.checkWarnings after clock st)) ->
                        Warning.wi_warningTypeId e <> id.
Proof.
  cbv zeta. unfold WarningAdmin.deleteWarningType. cbn [fst snd].
  split; [reflexivity|]. split; [|split; [|split; [reflexivity|]]].
  - unfold Warning.getWarningTypeById. cbn.
    apply (find_filter_drop (fun warning => String.eqb (Warning.wt_id warning) id)).
  - intros id' Hne. unfold Warning.getWarningTypeById. cbn.
    apply find_filter_keep. intros x Hx. apply String.eqb_eq in Hx.
    apply negb_true_iff, String.eqb_neq. congruence.
  - intros clock st e He.
    destruct (checkWarnings_event_rule _ _ _ _ He) as (wt & v & Hwt & _ & ->).
    cbn in Hwt. apply List.filter_In in Hwt as [_ Hwt].
    apply negb_true_iff, String.eqb_neq in Hwt. exact Hwt.
Qed.

(** X8. After [clearWarningHistory] the rules are as before and a rule is
    on cooldown exactly when its id does not resolve: clearing the history
    ends every running cooldown. *)
Theorem clearWarningHistory_ends_cooldowns (config : Warning.Config) :
  let after := snd (WarningAdmin.clearWarningHistory config) in
  Warning.warningHistory after = []
  /\ Warning.warningTypes after = Warning.warningTypes config
  /\ forall clock id,
       Warning.isWarningOnCooldown after clock id = true
       <-> Warning.getWarningTypeById config id = None.
Proof.
  cbv zeta. split; [reflexivity|]. split; [reflexivity|].
  intros clock id.
  change (Warning.getWarningTypeById config id)
    with (Warning.getWarningTypeById (snd (WarningAdmin.clearWarningHistory config)) id).
  destruct (Warning.getWarningTypeById (snd (WarningAdmin.clearWarningHistory config)) id)
    as [wt|] eqn:E.
  - rewrite (cooldown_no_trigger _ clock id wt E); [split; discriminate|].
    intros w [].
  - rewrite (cooldown_unresolved _ clock id E). tauto.
Qed.

(** ** History queries *)

Lemma slice_page {A : Type} (a n : Z) (l : list A) :
  0 <= a -> 0 <= n ->
  JSArray.slice a (a + n) l = firstn (Z.to_nat n) (skipn (Z.to_nat a) l).
Proof.
  intros Ha Hn. unfold JSArray.slice, JSArray.sliceIndex.
  destruct (Z.ltb_spec a 0) as [?|_]; [lia|].
  destruct (Z.ltb_spec (a + n) 0) as [?|_]; [lia|].
  destruct (Z_le_gt_dec (Z.of_nat (length l)) a) as [Hout|Hin].
  - rewrite Z.min_r by lia. rewrite (skipn_all2 (n := Z.to_nat a)) by lia.
    rewrite skipn_all2 by lia. now rewrite !firstn_nil.
  - rewrite (Z.min_l a) by lia.
    set (rest := skipn (Z.to_nat a) l).
    assert (Hlen : length rest = (length l - Z.to_nat a)%nat) by apply length_skipn.
    destruct (Z_le_gt_dec (a + n) (Z.of_nat (length l))) as [Hfit|Hcut].
    + rewrite Z.min_l by lia. f_equal. lia.
    + rewrite Z.min_r by lia. rewrite !firstn_all2 by lia. reflexivity.
Qed.

Lemma firstn_plus {A : Type} (a b : nat) (l : list A) :
  firstn (a + b) l = firstn a l ++ firstn b (skipn a l).
Proof.
  revert l. induction a as [|a IH]; intros [|x l]; simpl;
    try reflexivity; [now rewrite firstn_nil | now rewrite IH].
Qed.

Lemma sublist_List_filter {A : Type} (f : A -> bool) (l : list A) :
  sublist (List.filter f l) l.
Proof.
  induction l as [|x l IH]; simpl; [constructor|].
  destruct (f x); now constructor.
Qed.

Lemma applyFilters_withPage (options : WarningAdmin.HistoryOptions) (limit skip : option Z)
    (history : list Warning.WarningInstance) :
  WarningAdmin.applyFilters (WarningAdmin.withPage options limit skip) history
  = WarningAdmin.applyFilters options history.
Proof. reflexivity. Qed.

Lemma applyFilters_In (options : WarningAdmin.HistoryOptions)
    (history : list Warning.WarningInstance) (w : Warning.WarningInstance) :
  In w (WarningAdmin.applyFilters options history)
  <-> In w history
      /\ (WarningAdmin.givenString (WarningAdmin.o_warningTypeId options) = true ->
          Warning.wi_warningTypeId w = default "" (WarningAdmin.o_warningTypeId options))
      /\ (WarningAdmin.givenString (WarningAdmin.o_priority options) = true ->
          Warning.wi_priority w = default "" (WarningAdmin.o_priority options))
      /\ (forall d, WarningAdmin.o_startDate options = Some d -> d <> 0 ->
                    d <= Warning.wi_timestamp w)
      /\ (forall d, WarningAdmin.o_endDate options = Some d -> d <> 0 ->
                    Warning.wi_timestamp w <= d).
Proof.
  unfold WarningAdmin.applyFilters, WarningAdmin.givenNumber.
  destruct (WarningAdmin.o_endDate options) as [e|];
    [destruct (Z.eqb_spec e 0) as [He|He]|];
    (destruct (WarningAdmin.o_startDate options) as [b|];
     [destruct (Z.eqb_spec b 0) as [Hb|Hb]|]);
    destruct (WarningAdmin.givenString (WarningAdmin.o_priority options));
    destruct (WarningAdmin.givenString (WarningAdmin.o_warningTypeId options));
    cbn [negb default from_option id];
    rewrite ?List.filter_In, ?Z.leb_le, ?String.eqb_eq;
    (split;
     [ intros H; repeat (match goal with H' : _ /\ _ |- _ => destruct H' end);
       repeat split;
       first [ assumption
             | discriminate
             | intros _; assumption
             | intros d [= <-] _; assumption
             | intros d [= <-] Hd; congruence
             | intros; discriminate ]
     | intros (H0 & H1 & H2 & H3 & H4); repeat split;
       first [ assumption
             | apply H1; reflexivity
             | apply H2; reflexivity
             | apply H3; [reflexivity | assumption]
             | apply H4; [reflexivity | assumption] ] ]).
Qed.

(** X9. [getWarningHistory] returns events of the history only, each one
    passing every filter given (type, priority, start and end instant; an
    empty string and the instant 0 are falsy and count as no filter), in
    the order of the history.  Without a [limit] (absent or 0) it returns
    every such event, whatever [skip] says; [total] is always the number of
    such events, whatever [limit] and [skip] say. *)
Theorem getWarningHistory_filters (config : Warning.Config)
    (options : WarningAdmin.HistoryOptions) :
  let page := WarningAdmin.getWarningHistory config options in
  let passes (w : Warning.WarningInstance) :=
    (WarningAdmin.givenString (WarningAdmin.o_warningTypeId options) = true ->
     Warning.wi_warningTypeId w = default "" (WarningAdmin.o_warningTypeId options))
    /\ (WarningAdmin.givenString (WarningAdmin.o_priority options) = true ->
        Warning.wi_priority w = default "" (WarningAdmin.o_priority options))
    /\ (forall d, WarningAdmin.o_startDate options = Some d -> d <> 0 ->
                  d <= Warning.wi_timestamp w)
    /\ (forall d, WarningAdmin.o_endDate options = Some d -> d <> 0 ->
                  Warning.wi_timestamp w <= d) in
  let all := WarningAdmin.warnings
               (WarningAdmin.getWarningHistory config
                  (WarningAdmin.withPage options None None)) in
  (forall w, In w all <-> In w (Warning.warningHistory config) /\ passes w)
  /\ sublist all (Warning.warningHistory config)
  /\ sublist (WarningAdmin.warnings page) all
  /\ WarningAdmin.total page = length all
  /\ (WarningAdmin.givenNumber (WarningAdmin.o_limit options) = false ->
      WarningAdmin.warnings page = all).
Proof.
  cbv zeta. unfold WarningAdmin.getWarningHistory.
  cbn [WarningAdmin.warnings WarningAdmin.total WarningAdmin.withPage
       WarningAdmin.o_limit WarningAdmin.givenNumber].
  rewrite applyFilters_withPage.
  split; [intros w; apply applyFilters_In|].
  split; [|split; [|split; [reflexivity|]]].
  - unfold WarningAdmin.applyFilters.
    destruct (WarningAdmin.givenNumber (WarningAdmin.o_endDate options)),
      (WarningAdmin.givenNumber (WarningAdmin.o_startDate options)),
      (WarningAdmin.givenString (WarningAdmin.o_priority options)),
      (WarningAdmin.givenString (WarningAdmin.o_warningTypeId options));
      repeat (etrans; [apply sublist_List_filter|]); reflexivity.
  - destruct (WarningAdmin.givenNumber (WarningAdmin.o_limit options)); [|reflexivity].
    unfold JSArray.slice. etrans; [apply sublist_take | apply sublist_drop].
  - now intros ->.
Qed.

Lemma getWarningHistory_page (config : Warning.Config)
    (options : WarningAdmin.HistoryOptions) (size : Z) (k : nat) :
  0 < size ->
  WarningAdmin.warnings
    (WarningAdmin.getWarningHistory config
       (WarningAdmin.withPage options (Some size) (Some (Z.of_nat k * size))))
  = firstn (Z.to_nat size)
      (skipn (k * Z.to_nat size)
         (WarningAdmin.applyFilters options (Warning.warningHistory config))).
Proof.
  intros Hsize. unfold WarningAdmin.getWarningHistory.
  cbn [WarningAdmin.warnings WarningAdmin.withPage WarningAdmin.o_limit
       WarningAdmin.o_skip WarningAdmin.givenNumber default].
  rewrite applyFilters_withPage.
  destruct (Z.eqb_spec size 0) as [?|_]; [lia|]. cbn [negb]. unfold id.
  assert (Hskip : (if negb (Z.of_nat k * size =? 0) then Z.of_nat k * size else 0)
                  = Z.of_nat k * size).
  { destruct (Z.eqb_spec (Z.of_nat k * size) 0) as [->|_]; reflexivity. }
  rewrite Hskip, slice_page by lia. do 2 f_equal. lia.
Qed.

(** X10. Paging through the history with a positive [limit] and [skip] = 0,
    [limit], 2 [limit], ... yields pages of at most [limit] events whose
    concatenation is the beginning of the unpaged result, page after page,
    and the whole of it once the pages cover [total]: every matching event
    is returned exactly once, in order. *)
Theorem getWarningHistory_pages (config : Warning.Config)
    (options : WarningAdmin.HistoryOptions) (size : Z) (n : nat) :
  0 < size ->
  let all := WarningAdmin.warnings
               (WarningAdmin.getWarningHistory config
                  (WarningAdmin.withPage options None None)) in
  let page k :=
    WarningAdmin.warnings
      (WarningAdmin.getWarningHistory config
         (WarningAdmin.withPage options (Some size) (Some (Z.of_nat k * size)))) in
  (forall k, (length (page k) <= Z.to_nat size)%nat)
  /\ concat (List.map page (seq 0 n)) = firstn (n * Z.to_nat size) all
  /\ ((length all <= n * Z.to_nat size)%nat -> concat (List.map page (seq 0 n)) = all).
Proof.
  intros Hsize all page.
  assert (Hall : all = WarningAdmin.applyFilters options (Warning.warningHistory config))
    by reflexivity.
  assert (Hpage : forall k, page k = firstn (Z.to_nat size) (skipn (k * Z.to_nat size) all)).
  { intros k. subst page. cbv beta. rewrite getWarningHistory_page by exact Hsize.
    now rewrite Hall. }
  assert (Hcat : concat (List.map page (seq 0 n)) = firstn (n * Z.to_nat size) all).
  { induction n as [|n IH]; [reflexivity|].
    rewrite seq_S, List.map_app, concat_app, IH. cbn [List.map concat plus].
    rewrite app_nil_r, Hpage.
    replace (S n * Z.to_nat size)%nat with (n * Z.to_nat size + Z.to_nat size)%nat by lia.
    now rewrite firstn_plus. }
  split; [|split; [exact Hcat|]].
  - intros k. rewrite Hpage. apply firstn_le_length.
  - intros Hcover. rewrite Hcat. now apply firstn_all2.
Qed.

(** ** Documents on disk *)

Section StoreFacts.
Variable parse : string -> option Warning.Config.
Variable stringify : Warning.Config -> string.

Lemma store_ensure_present (st : WarningStore.Store) (content : string) :
  WarningStore.files st !! Warning.WARNINGS_CONFIG_FILE = Some content ->
  WarningStore.ensureConfigFile stringify st = st.
Proof. intros H. unfold WarningStore.ensureConfigFile. now rewrite H. Qed.

Lemma store_getConfig_present (st : WarningStore.Store) (content : string) :
  WarningStore.files st !! Warning.WARNINGS_CONFIG_FILE = Some content ->
  WarningStore.getConfig parse stringify st
  = (match parse content with
     | Some config =>
         {| WarningStore.value := config; WarningStore.sharesTypes := false;
            WarningStore.sharesHistory := false |}
     | None => WarningStore.fallback st
     end, st).
Proof.
  intros H. unfold WarningStore.getConfig.
  rewrite (store_ensure_present st content H), H. now destruct (parse content).
Qed.

Lemma store_saveHeld_present (r : WarningStore.Defaults * WarningStore.Held)
    (st : WarningStore.Store) (content : string) :
  WarningStore.files st !! Warning.WARNINGS_CONFIG_FILE = Some content ->
  WarningStore.saveHeld stringify r st
  = (true, {| WarningStore.defaults := fst r;
              WarningStore.files :=
                <[Warning.WARNINGS_CONFIG_FILE := stringify (WarningStore.value (snd r))]>
                  (WarningStore.files st) |}).
Proof.
  intros H. unfold WarningStore.saveHeld, WarningStore.saveConfig.
  now rewrite (store_ensure_present _ content) by exact H.
Qed.

(** With the defaults of a process that has just started, [getConfig] is
    [Warning.getConfig]. *)
Lemma store_getConfig_pristine (fs : FileSystem) :
  let read := WarningStore.getConfig parse stringify
                {| WarningStore.defaults := WarningStore.pristine;
                   WarningStore.files := fs |} in
  (WarningStore.value (fst read), WarningStore.files (snd read))
  = Warning.getConfig parse stringify fs.
Proof.
  cbv zeta. unfold WarningStore.getConfig, Warning.getConfig,
    WarningStore.ensureConfigFile, Warning.ensureConfigFile.
  cbn [WarningStore.files WarningStore.defaults].
  change (WarningStore.defaultConfig WarningStore.pristine) with Warning.defaultConfig.
  destruct (fs !! Warning.WARNINGS_CONFIG_FILE) as [content|] eqn:E;
    cbn [WarningStore.files]; [rewrite E | rewrite !lookup_insert_eq].
  - now destruct (parse content).
  - now destruct (parse (stringify Warning.defaultConfig)).
Qed.

(** What a run leaves: the memory, and the document when it saves. *)
Lemma store_run_present (clock : Clock) (m : WarningStore.Mutation)
    (st : WarningStore.Store) (content : string) :
  WarningStore.files st !! Warning.WARNINGS_CONFIG_FILE = Some content ->
  let shared := match parse content with Some _ => false | None => true end in
  let config := default (WarningStore.defaultConfig (WarningStore.defaults st))
                  (parse content) in
  let after := WarningStore.onDocument clock m config in
  WarningStore.run parse stringify clock m st
  = {| WarningStore.defaults :=
         if shared
         then match m with
              | WarningStore.AddType _ | WarningStore.UpdateType _ _ =>
                  {| WarningStore.d_warningTypes := Warning.warningTypes after;
                     WarningStore.d_warningHistory :=
                       WarningStore.d_warningHistory (WarningStore.defaults st) |}
              | WarningStore.AddToHistory warningInstance =>
                  {| WarningStore.d_warningTypes :=
                       WarningStore.d_warningTypes (WarningStore.defaults st);
                     WarningStore.d_warningHistory :=
                       warningInstance
                       :: WarningStore.d_warningHistory (WarningStore.defaults st) |}
              | _ => WarningStore.defaults st
              end
         else WarningStore.defaults st;
       WarningStore.files :=
         if WarningStore.saves m config
         then <[Warning.WARNINGS_CONFIG_FILE := stringify after]> (WarningStore.files st)
         else WarningStore.files st |}.
Proof.
  intros Hfile shared config after. subst shared config after.
  destruct m as [wt|ruleId wt|ruleId|e| |flag];
    cbn [WarningStore.run WarningStore.onDocument WarningStore.saves];
    unfold WarningStore.addWarningType, WarningStore.updateWarningType,
      WarningStore.deleteWarningType, WarningStore.addWarningToHistory,
      WarningStore.clearWarningHistory, WarningStore.setWarningSystemEnabled;
    rewrite (store_getConfig_present _ content Hfile).
  - cbn [snd]. rewrite (store_saveHeld_present _ _ content Hfile).
    now destruct (parse content).
  - unfold WarningAdmin.updateWarningType.
    destruct (parse content) as [config|];
      cbn [default from_option WarningStore.fallback WarningStore.value];
      unfold Datatypes.id;
      destruct (JSArray.findIndex _ _) as [index|];
      rewrite ?(store_saveHeld_present _ _ content Hfile);
      try reflexivity; now destruct st as [[types history] fs].
  - rewrite (store_saveHeld_present _ _ content Hfile).
    now destruct (parse content).
  - cbn [snd]. rewrite (store_saveHeld_present _ _ content Hfile).
    unfold Warning.addWarningToHistory.
    destruct (parse content) as [config|];
      cbn [default from_option WarningStore.fallback WarningStore.value
           WarningStore.writeHistory WarningStore.sharesHistory fst snd
           WarningAdmin.setHistory Warning.warningHistory Warning.maxHistoryItems
           WarningStore.defaultConfig];
      unfold Datatypes.id;
      match goal with |- context [(?a <? ?b)%nat] => destruct (a <? b)%nat end;
      reflexivity.
  - rewrite (store_saveHeld_present _ _ content Hfile).
    now destruct (parse content).
  - rewrite (store_saveHeld_present _ _ content Hfile).
    now destruct (parse content).
Qed.
End StoreFacts.

(** X11. A mutator of the warning service ([addWarningType],
    [updateWarningType], [deleteWarningType], [addWarningToHistory],
    [clearWarningHistory], [setWarningSystemEnabled]) touches no file but
    the document, and what it writes, when it saves, is the mutation
    applied to what [getConfig] answered: the document when it parses, the
    defaults as they are in memory when it does not, so that the rules and
    the history the document held are gone.  On a document that parses the
    defaults in memory are left alone.  On a document that does not parse
    the object shares its arrays with the defaults: a rule added or
    replaced stays in the defaults, and so does an event put in the
    history, without the cut at [maxHistoryItems]; the mutators that
    assign a new array, or the switch, leave the defaults as they were. *)
Theorem warning_document_mutation (parse : string -> option Warning.Config)
    (stringify : Warning.Config -> string) (clock : Clock) (m : WarningStore.Mutation)
    (st : WarningStore.Store) (content : string) :
  WarningStore.files st !! Warning.WARNINGS_CONFIG_FILE = Some content ->
  let st' := WarningStore.run parse stringify clock m st in
  let read := default (WarningStore.defaultConfig (WarningStore.defaults st))
                (parse content) in
  (forall name, name <> Warning.WARNINGS_CONFIG_FILE ->
                WarningStore.files st' !! name = WarningStore.files st !! name)
  /\ WarningStore.files st' !! Warning.WARNINGS_CONFIG_FILE
     = Some (if WarningStore.saves m read
             then stringify (WarningStore.onDocument clock m read)
             else content)
  /\ (is_Some (parse content) -> WarningStore.defaults st' = WarningStore.defaults st)
  /\ (parse content = None ->
      WarningStore.defaultConfig (WarningStore.defaults st')
      = match m with
        | WarningStore.AddType _ | WarningStore.UpdateType _ _ =>
            WarningStore.onDocument clock m read
        | WarningStore.AddToHistory warningInstance =>
            WarningAdmin.setHistory read (warningInstance :: Warning.warningHistory read)
        | _ => read
        end).
Proof.
  intros Hfile st' read. subst st' read.
  rewrite (store_run_present parse stringify clock m st content Hfile).
  cbn [WarningStore.files WarningStore.defaults].
  split; [|split; [|split]].
  - intros name Hne. destruct (WarningStore.saves m _); [|reflexivity].
    now rewrite lookup_insert_ne by congruence.
  - destruct (WarningStore.saves m _); [apply lookup_insert_eq | exact Hfile].
  - intros [config ->]. reflexivity.
  - intros ->. cbn [default from_option]. unfold Datatypes.id.
    destruct m as [wt|ruleId wt|ruleId|e| |flag]; try reflexivity.
    cbn [WarningStore.onDocument]. unfold WarningAdmin.updateWarningType.
    cbn [WarningStore.defaultConfig Warning.warningTypes].
    now destruct (JSArray.findIndex _ _).
Qed.

(** X12. [loadConfig] of the price provider returns a document that parses
    as it is and leaves the files alone.  Provided the defaults parse back
    from their own rendering, loading again after any load returns the same
    configuration and changes nothing: a corrupted document is backed up
    once, not at every start. *)
Theorem loadConfig_settles (parse : string -> option Tibber.Config)
    (stringify : Tibber.Config -> string) (clock clock' : Clock) (fs : FileSystem) :
  parse (stringify Tibber.defaultConfig) = Some Tibber.defaultConfig ->
  let first := Tibber.loadConfig parse stringify clock fs in
  (forall content config,
      fs !! Tibber.configFile = Some content -> parse content = Some config ->
      first = (config, fs))
  /\ (fs !! Tibber.configFile = None ->
      fst first = Tibber.defaultConfig
      /\ snd first = <[Tibber.configFile := stringify Tibber.defaultConfig]> fs)
  /\ Tibber.loadConfig parse stringify clock' (snd first) = first.
Proof.
  intros Hdefault first. subst first. unfold Tibber.loadConfig, Tibber.saveConfigSync.
  destruct (fs !! Tibber.configFile) as [content|] eqn:Hfile.
  - destruct (parse content) as [config|] eqn:Hparse; cbn [fst snd].
    + split; [intros ? ? [= <-] H; congruence|]. split; [discriminate|].
      now rewrite Hfile, Hparse.
    + split; [intros ? ? [= <-] H; congruence|]. split; [discriminate|].
      now rewrite lookup_insert_eq, Hdefault.
  - cbn [fst snd]. split; [discriminate|]. split; [auto|].
    now rewrite lookup_insert_eq, Hdefault.
Qed.

(** Twice the truncated price document of the data directory: one backup. *)
Lemma loadConfig_settles_witness :
  let parse := Scenario.parseEmptyObject Tibber.defaultConfig in
  let first := Tibber.loadConfig parse Scenario.stringifyAsEmptyObject
                 (Scenario.at_ 0 12) Scenario.corruptedData in
  let second := Tibber.loadConfig parse Scenario.stringifyAsEmptyObject
                  (Scenario.at_ (Scenario.hours 1) 13) (snd first) in
  second = first
  /\ snd second !! "data/tibber_config.json.corrupted.1768478400000"
     = Some Scenario.truncated
  /\ snd second !! "data/tibber_config.json.corrupted.1768482000000" = None.
Proof.
  cbv zeta. split; [|split; reflexivity].
  apply (loadConfig_settles (Scenario.parseEmptyObject Tibber.defaultConfig)
           Scenario.stringifyAsEmptyObject). reflexivity.
Defined.

(** ** Countries and configuration updates *)

Lemma country_code_unique (c c' : Tibber.Country) :
  In c Tibber.getSupportedCountries -> In c' Tibber.getSupportedCountries ->
  Tibber.code c = Tibber.code c' -> c = c'.
Proof.
  assert (Hfind : forall c, In c Tibber.getSupportedCountries ->
            Tibber.findCountry (fun x => String.eqb (Tibber.code x) (Tibber.code c)) = Some c).
  { intros x Hx. cbn in Hx.
    repeat (destruct Hx as [<-|Hx]; [reflexivity|]). destruct Hx. }
  intros Hc Hc' E. apply Hfind in Hc, Hc'. rewrite E in Hc. congruence.
Qed.

Section CountryLookup.
Variable toUpperCase : string -> string.
Hypothesis upper_code : forall c, In c Tibber.getSupportedCountries ->
                                  toUpperCase (Tibber.code c) = Tibber.code c.

Lemma getCountrySettings_match (c : Tibber.Country) (countryCode : string) :
  In c Tibber.getSupportedCountries ->
  countryCode <> "" ->
  toUpperCase countryCode = Tibber.code c ->
  Countries.getCountrySettings toUpperCase countryCode = Some c.
Proof.
  intros Hin Hne Hup. unfold Countries.getCountrySettings.
  destruct (String.eqb_spec countryCode "") as [E|_]; [contradiction|].
  cbv zeta. rewrite Hup. unfold Tibber.findCountry.
  destruct (List.find _ Tibber.getSupportedCountries) as [c'|] eqn:E.
  - apply List.find_some in E as [Hin' Hc']. f_equal.
    apply country_code_unique; [exact Hin' | exact Hin |].
    apply orb_true_iff in Hc' as [Hc'|Hc']; apply String.eqb_eq in Hc'; [|exact Hc'].
    rewrite <- Hup, <- Hc'. symmetry. now apply upper_code.
  - exfalso. apply (List.find_none _ _ E) in Hin.
    now rewrite String.eqb_refl, orb_true_r in Hin.
Qed.

(** X13. Whatever [toUpperCase] does to other strings, as long as it leaves
    the codes of the supported countries as they are (they are ASCII
    capitals): [getCountrySettings] always answers with a supported
    country; a code that is not empty and whose upper-case form is the
    code of a supported country, among them the code itself, resolves to
    that country; a code that matches no supported country, as given or in
    upper case, resolves to Germany, and so does the empty code. *)
Theorem getCountrySettings_lookup :
  (forall countryCode, exists c,
      In c Tibber.getSupportedCountries
      /\ Countries.getCountrySettings toUpperCase countryCode = Some c)
  /\ (forall c countryCode,
        In c Tibber.getSupportedCountries ->
        countryCode <> "" ->
        toUpperCase countryCode = Tibber.code c ->
        Countries.getCountrySettings toUpperCase countryCode = Some c)
  /\ (forall c, In c Tibber.getSupportedCountries ->
                Countries.getCountrySettings toUpperCase (Tibber.code c) = Some c)
  /\ (forall countryCode,
        countryCode = ""
        \/ (forall c, In c Tibber.getSupportedCountries ->
                      Tibber.code c <> countryCode
                      /\ Tibber.code c <> toUpperCase countryCode) ->
        exists germany,
          Countries.getCountrySettings toUpperCase countryCode = Some germany
          /\ Tibber.code germany = "DE"
          /\ Tibber.name germany = "Germany"
          /\ Tibber.c_currency germany = "EUR").
Proof.
  assert (Hde : Tibber.findCountry (fun c => String.eqb (Tibber.code c) "DE")
                = Some {| Tibber.code := "DE"; Tibber.name := "Germany";
                          Tibber.c_timezone := "Europe/Berlin";
                          Tibber.c_currency := "EUR" |}) by reflexivity.
  assert (Hin_de : In {| Tibber.code := "DE"; Tibber.name := "Germany";
                         Tibber.c_timezone := "Europe/Berlin";
                         Tibber.c_currency := "EUR" |} Tibber.getSupportedCountries).
  { apply (List.find_some _ _ Hde). }
  split; [|split; [|split]].
  - intros countryCode. unfold Countries.getCountrySettings. rewrite Hde. clear Hde.
    destruct (String.eqb countryCode ""); [eexists; split; [exact Hin_de | reflexivity]|].
    cbv zeta. destruct (Tibber.findCountry _) as [c|] eqn:E;
      [|eexists; split; [exact Hin_de | reflexivity]].
    exists c. split; [|reflexivity].
    unfold Tibber.findCountry in E. apply List.find_some in E. tauto.
  - exact getCountrySettings_match.
  - intros c Hin. apply getCountrySettings_match; [exact Hin | | now apply upper_code].
    cbn in Hin. repeat (destruct Hin as [<-|Hin]; [discriminate|]). destruct Hin.
  - intros countryCode Hnone.
    exists {| Tibber.code := "DE"; Tibber.name := "Germany";
              Tibber.c_timezone := "Europe/Berlin"; Tibber.c_currency := "EUR" |}.
    split; [|split; [|split]]; [|reflexivity..].
    unfold Countries.getCountrySettings. rewrite Hde. clear Hde.
    destruct (String.eqb_spec countryCode "") as [E|Hne]; [reflexivity|].
    destruct Hnone as [E|Hnone]; [contradiction|].
    cbv zeta. destruct (Tibber.findCountry _) as [c|] eqn:E; [|reflexivity].
    exfalso. unfold Tibber.findCountry in E. apply List.find_some in E as [Hin Hc].
    destruct (Hnone c Hin) as [H1 H2].
    apply orb_true_iff in Hc as [Hc|Hc]; apply String.eqb_eq in Hc; congruence.
Qed.
End CountryLookup.

(** With the upper-casing of ASCII letters: the code of Norway in lower
    case, and the country the configuration update looks up. *)
Lemma getCountrySettings_lookup_witness :
  (exists c, Tibber.getCountrySettings "no" = Some c
             /\ Tibber.name c = "Norway" /\ Tibber.c_currency c = "NOK")
  /\ forall countryCode,
       Countries.getCountrySettings Tibber.toUpperCase countryCode
       = Tibber.getCountrySettings countryCode.
Proof.
  split; [|reflexivity].
  assert (Hupper : forall c, In c Tibber.getSupportedCountries ->
                             Tibber.toUpperCase (Tibber.code c) = Tibber.code c).
  { intros c Hin. cbn in Hin.
    repeat (destruct Hin as [<-|Hin]; [reflexivity|]). destruct Hin. }
  destruct (getCountrySettings_lookup Tibber.toUpperCase Hupper) as (_ & Hup & _).
  exists {| Tibber.code := "NO"; Tibber.name := "Norway";
            Tibber.c_timezone := "Europe/Oslo"; Tibber.c_currency := "NOK" |}.
  split; [|split; reflexivity].
  apply (Hup _ "no"); [now left | discriminate | reflexivity].
Defined.

Lemma default_default {A : Type} (a : A) (x : option A) :
  default (default a x) x = default a x.
Proof. now destruct x. Qed.

(** X14. [updateConfig] stores an API key that is neither a mask nor empty
    exactly as it was received, spaces included.  Applying the same update
    twice is the same as applying it once, and an update that carries no
    property leaves the configuration as it was. *)
Theorem updateConfig_laws (config : Tibber.Config) (u : Tibber.ConfigUpdate) :
  (forall key, Tibber.u_apiKey u = Some key ->
               key <> "***" -> key <> "******" -> key <> "" ->
               Tibber.apiKey (Tibber.updateConfig config u) = key)
  /\ Tibber.updateConfig (Tibber.updateConfig config u) u = Tibber.updateConfig config u
  /\ Tibber.updateConfig config TibberStatus.noUpdate = config.
Proof.
  split; [|split].
  - intros key Hkey H1 H2 H3. unfold Tibber.updateConfig.
    assert (E : Tibber.handleApiKey u = u).
    { unfold Tibber.handleApiKey. rewrite Hkey.
      apply String.eqb_neq in H1, H2, H3. now rewrite H1, H2, H3. }
    rewrite E. unfold Tibber.autoFillCurrency.
    destruct (_ && _); [|cbn; now rewrite Hkey].
    destruct (Tibber.getCountrySettings _); cbn; now rewrite Hkey.
  - unfold Tibber.updateConfig.
    set (u' := Tibber.autoFillCurrency (Tibber.handleApiKey u)).
    unfold Tibber.spread. cbn. now rewrite !default_default.
  - destruct config. reflexivity.
Qed.

(** ** The cheapest hours *)

Lemma StronglySorted_app_between {A : Type} (R : A -> A -> Prop) (l1 l2 : list A) :
  StronglySorted R (l1 ++ l2) -> forall a b, In a l1 -> In b l2 -> R a b.
Proof.
  induction l1 as [|x l1 IH]; intros Hs a b Ha Hb; [destruct Ha|].
  cbn in Hs. inversion Hs as [|? ? Hs' Hall]; subst.
  destruct Ha as [<-|Ha]; [|now apply IH].
  rewrite List.Forall_forall in Hall. apply Hall, in_or_app. now right.
Qed.

(** X16. [getCheapestHours] really returns the cheapest: the candidates (the
    first [hoursAhead] future entries) split into the entries returned and
    the rest, there are min(count, number of candidates) entries returned,
    and no entry of the rest is cheaper than an entry returned. *)
Theorem cheapest_hours_minimal (s : Tibber.Service) (clock : Clock)
    (count hoursAhead : nat) :
  let candidates :=
    firstn hoursAhead
      (List.filter (Tibber.isFuture clock) (Tibber.forecast (Tibber.cache s))) in
  exists chosen rest,
    Permutation candidates (chosen ++ rest)
    /\ Tibber.getCheapestHours s clock count hoursAhead = List.map Tibber.cheapHour chosen
    /\ length chosen = Nat.min count (length candidates)
    /\ forall a b, In a chosen -> In b rest -> (Tibber.total a <= Tibber.total b)%Q.
Proof.
  intros candidates. rewrite getCheapestHours_eq. fold candidates.
  set (cmp := fun a b : Tibber.PricePoint => (Tibber.total a - Tibber.total b)%Q).
  exists (firstn count (JS.sort cmp candidates)), (skipn count (JS.sort cmp candidates)).
  split; [|split; [reflexivity|split]].
  - rewrite firstn_skipn. symmetry. apply sort_Permutation.
  - rewrite length_firstn. f_equal. apply Permutation_length, sort_Permutation.
  - intros a b Ha Hb.
    apply (lexOrder_key_le Tibber.total (fun _ _ => True)).
    apply (StronglySorted_app_between _ (firstn count (JS.sort cmp candidates))
             (skipn count (JS.sort cmp candidates))); auto.
    rewrite firstn_skipn.
    apply (sort_sorted cmp Tibber.total total_cmp_key), StronglySorted_True.
Qed.

(** ** A refresh that succeeds *)

Lemma getCurrentPriceInfo_selected (api : Tibber.Response) (clock : Clock)
    (s : Tibber.Service) :
  match TibberStatus.selectedPriceInfo s api with
  | Some raw =>
      Tibber.getCurrentPriceInfo api clock None s
      = Tibber.ingestPriceInfo clock (Some raw) s
  | None => exists error, Tibber.getCurrentPriceInfo api clock None s = (JS.Throw error, s)
  end.
Proof.
  unfold TibberStatus.selectedPriceInfo, Tibber.getCurrentPriceInfo,
    Tibber.getPriceInfoFromFirstHome, Tibber.makeGraphQLRequest,
    JS.try_catch, JS.bind, JS.get, JS.throw, JS.ret.
  cbn [Tibber.truthy default].
  assert (Hnone : Tibber.ingestPriceInfo clock None s = (JS.Throw Tibber.TypeError, s))
    by reflexivity.
  set (ingest := Tibber.ingestPriceInfo clock) in *. clearbody ingest.
  destruct api as [m|m|[viewer|]]; cbn;
    destruct (String.eqb (Tibber.homeId (Tibber.config s)) ""); cbn; eauto.
  - destruct (Tibber.viewer_homes viewer) as [[|firstHome homes]|]; cbn; eauto.
    destruct (Tibber.home_priceInfo firstHome) as [raw|]; cbn.
    + destruct (ingest (Some raw) s) as [[info|error] s']; reflexivity.
    + rewrite Hnone. eauto.
  - destruct (Tibber.viewer_home viewer) as [home|]; cbn; eauto.
    destruct (Tibber.home_priceInfo home) as [raw|]; cbn.
    + destruct (ingest (Some raw) s) as [[info|error] s']; reflexivity.
    + rewrite Hnone. eauto.
Qed.

Lemma ingestPriceInfo_cases (clock : Clock) (raw : Tibber.RawPriceInfo)
    (s : Tibber.Service) :
  match Tibber.rp_current raw, Tibber.rp_today raw with
  | Some rawCurrent, Some rawToday =>
      let rawTomorrow := default [] (Tibber.rp_tomorrow raw) in
      let info := {| Tibber.current := Tibber.convert rawCurrent;
                     Tibber.today := List.map Tibber.convert rawToday;
                     Tibber.tomorrow := List.map Tibber.convert rawTomorrow |} in
      Tibber.ingestPriceInfo clock (Some raw) s
      = (JS.Ok info,
         {| Tibber.config := Tibber.config s;
            Tibber.cache :=
              {| Tibber.currentPrice := Some (Tibber.convert rawCurrent);
                 Tibber.priceInfo := Some info;
                 Tibber.forecast := List.map Tibber.convert (rawToday ++ rawTomorrow);
                 Tibber.timestamp := Some (now_ms clock) |};
            Tibber.lastUpdate := Some (now_ms clock) |})
  | _, _ => Tibber.ingestPriceInfo clock (Some raw) s = (JS.Throw Tibber.TypeError, s)
  end.
Proof.
  unfold Tibber.ingestPriceInfo.
  destruct (Tibber.rp_current raw) as [rawCurrent|]; [|reflexivity].
  destruct (Tibber.rp_today raw) as [rawToday|]; [|reflexivity].
  cbv zeta. rewrite List.map_app. reflexivity.
Qed.

Lemma refreshData_unfold (api : Tibber.Response) (clock : Clock) (s : Tibber.Service) :
  Tibber.refreshData api clock s
  = if negb (Tibber.enabled (Tibber.config s)) then (JS.Ok false, s)
    else if String.eqb (Tibber.apiKey (Tibber.config s)) ""
            || String.eqb (Tibber.apiKey (Tibber.config s)) "***"
    then (JS.Ok false, s)
    else match Tibber.getCurrentPriceInfo api clock None s with
         | (JS.Ok _, s') => (JS.Ok true, s')
         | (JS.Throw _, s') => (JS.Ok false, s')
         end.
Proof.
  unfold Tibber.refreshData, JS.try_catch, JS.bind, JS.get, JS.ret.
  destruct (negb (Tibber.enabled (Tibber.config s))); [reflexivity|].
  destruct (String.eqb (Tibber.apiKey (Tibber.config s)) ""
            || String.eqb (Tibber.apiKey (Tibber.config s)) "***"); [reflexivity|].
  now destruct (Tibber.getCurrentPriceInfo api clock None s) as [[info|error] s'].
Qed.

(** X17. [refreshData] answers [true] exactly when the service is enabled,
    holds a real API key, and the API answers with price info (of the
    configured home, or of the first home when none is configured) that has
    a current price and today's prices.  The cache then holds the answer,
    entry for entry: the current price, and today's prices followed by
    tomorrow's as the forecast, each with the start and the level of the
    answer and the currency "cent"; the configuration is unchanged, the
    cache and the service are stamped with the time of the refresh, and
    [getStatus] reports the new number of forecast hours. *)
Theorem refresh_outcome (api : Tibber.Response) (clock : Clock) (s : Tibber.Service) :
  let s' := snd (Tibber.refreshData api clock s) in
  let key := Tibber.apiKey (Tibber.config s) in
  (fst (Tibber.refreshData api clock s) = JS.Ok true
   <-> Tibber.enabled (Tibber.config s) = true /\ key <> "" /\ key <> "***"
       /\ exists raw rawCurrent rawToday,
            TibberStatus.selectedPriceInfo s api = Some raw
            /\ Tibber.rp_current raw = Some rawCurrent
            /\ Tibber.rp_today raw = Some rawToday)
  /\ forall raw rawCurrent rawToday,
       fst (Tibber.refreshData api clock s) = JS.Ok true ->
       TibberStatus.selectedPriceInfo s api = Some raw ->
       Tibber.rp_current raw = Some rawCurrent ->
       Tibber.rp_today raw = Some rawToday ->
       let answered := rawToday ++ default [] (Tibber.rp_tomorrow raw) in
       Tibber.config s' = Tibber.config s
       /\ (exists p, Tibber.currentPrice (Tibber.cache s') = Some p
                     /\ Tibber.startsAt p = Tibber.r_startsAt rawCurrent
                     /\ Tibber.level p = Tibber.r_level rawCurrent
                     /\ Tibber.pp_currency p = "cent")
       /\ List.map Tibber.startsAt (Tibber.forecast (Tibber.cache s'))
          = List.map Tibber.r_startsAt answered
       /\ List.map Tibber.level (Tibber.forecast (Tibber.cache s'))
          = List.map Tibber.r_level answered
       /\ List.Forall (fun p => Tibber.pp_currency p = "cent")
            (Tibber.forecast (Tibber.cache s'))
       /\ Tibber.lastUpdate s' = Some (now_ms clock)
       /\ Tibber.timestamp (Tibber.cache s') = Some (now_ms clock)
       /\ TibberStatus.st_forecastHours (TibberStatus.getStatus s' clock)
          = length answered
       /\ TibberStatus.st_configured (TibberStatus.getStatus s' clock) = true.
Proof.
  intros s' key. subst s'. rewrite refreshData_unfold. fold key.
  pose proof (getCurrentPriceInfo_selected api clock s) as Hsel.
  destruct (Tibber.enabled (Tibber.config s)) eqn:Hen; cbn [negb].
  2:{ split; [split; [discriminate | intros [? _]; discriminate] | discriminate]. }
  destruct (String.eqb_spec key "") as [Hk1|Hk1]; cbn [orb].
  { split; [split; [discriminate | intros (_ & ? & _); contradiction] | discriminate]. }
  destruct (String.eqb_spec key "***") as [Hk2|Hk2].
  { split; [split; [discriminate | intros (_ & _ & ? & _); contradiction] | discriminate]. }
  destruct (TibberStatus.selectedPriceInfo s api) as [raw|].
  2:{ destruct Hsel as [error ->]. cbn.
      split; [split; [discriminate | intros (_ & _ & _ & ? & ? & ? & ? & _); discriminate]
             | discriminate]. }
  rewrite Hsel. pose proof (ingestPriceInfo_cases clock raw s) as Hing.
  destruct (Tibber.rp_current raw) as [rawCurrent|] eqn:Hcur.
  2:{ rewrite Hing. cbn.
      split; [split; [discriminate|] | discriminate].
      intros (_ & _ & _ & raw' & ? & ? & [= <-] & ? & _). congruence. }
  destruct (Tibber.rp_today raw) as [rawToday|] eqn:Htoday.
  2:{ rewrite Hing. cbn.
      split; [split; [discriminate|] | discriminate].
      intros (_ & _ & _ & raw' & ? & ? & [= <-] & _ & ?). congruence. }
  cbv zeta in Hing. rewrite Hing. cbn [fst snd]. split.
  - split; [intros _ | reflexivity].
    repeat split; try assumption. exists raw, rawCurrent, rawToday. now rewrite Hcur, Htoday.
  - intros raw' c t _ [= <-] Hc Ht. rewrite Hcur in Hc. rewrite Htoday in Ht.
    injection Hc as <-. injection Ht as <-.
    cbn [Tibber.config Tibber.cache Tibber.currentPrice Tibber.forecast
         Tibber.lastUpdate Tibber.timestamp TibberStatus.getStatus
         TibberStatus.st_forecastHours TibberStatus.st_configured].
    split; [reflexivity|]. split; [now exists (Tibber.convert rawCurrent)|].
    split; [now rewrite List.map_map|]. split; [now rewrite List.map_map|].
    split; [|split; [reflexivity|split; [reflexivity|split]]].
    + apply List.Forall_forall. intros p Hp. apply List.in_map_iff in Hp as (r & <- & _).
      reflexivity.
    + now rewrite List.length_map.
    + fold key. destruct (String.eqb_spec key ""); [contradiction|].
      destruct (String.eqb_spec key "***"); [contradiction|]. reflexivity.
Qed.

(** ** Chats of the notifier *)

Lemma indexOf_split (s : string) (l : list string) :
  match JSArray.indexOf s l with
  | Some i => exists l1 l2, l = l1 ++ s :: l2 /\ ~ In s l1 /\ delete i l = l1 ++ l2
  | None => ~ In s l
  end.
Proof.
  unfold JSArray.indexOf. induction l as [|a l IH]; simpl; [tauto|].
  destruct (String.eqb_spec s a) as [<-|Hne].
  - exists [], l. repeat split. tauto.
  - destruct (JSArray.findIndex (String.eqb s) l) as [i|]; simpl.
    + destruct IH as (l1 & l2 & -> & Hnot & Hdel). exists (a :: l1), l2.
      repeat split; [|simpl; now rewrite Hdel].
      intros [E|H]; [now apply Hne | now apply Hnot].
    + intros [E|H]; [now apply Hne | now apply IH].
Qed.

Lemma indexOf_snoc_fresh (s : string) (l : list string) :
  ~ In s l ->
  match JSArray.indexOf s (l ++ [s]) with
  | Some i => delete i (l ++ [s]) = l
  | None => False
  end.
Proof.
  unfold JSArray.indexOf. induction l as [|a l IH]; simpl; intros Hnot.
  - now rewrite String.eqb_refl.
  - destruct (String.eqb_spec s a) as [->|Hne]; [tauto|].
    destruct (JSArray.findIndex (String.eqb s) (l ++ [s])) as [i|]; simpl.
    + f_equal. apply IH. tauto.
    + apply IH. tauto.
Qed.

Lemma addChatId_chatIds (config : Telegram.Config) (chatId : string) :
  Telegram.chatIds (snd (TelegramAdmin.addChatId config chatId))
  = if JS.includes chatId (Telegram.chatIds config)
    then Telegram.chatIds config
    else Telegram.chatIds config ++ [chatId].
Proof.
  unfold TelegramAdmin.addChatId.
  now destruct (JS.includes chatId (Telegram.chatIds config)).
Qed.

Lemma removeChatId_chatIds (config : Telegram.Config) (chatId : string) :
  Telegram.chatIds (snd (TelegramAdmin.removeChatId config chatId))
  = match JSArray.indexOf chatId (Telegram.chatIds config) with
    | Some i => delete i (Telegram.chatIds config)
    | None => Telegram.chatIds config
    end.
Proof.
  unfold TelegramAdmin.removeChatId.
  now destruct (JSArray.indexOf chatId (Telegram.chatIds config)).
Qed.

Lemma addChatId_In (config : Telegram.Config) (chatId other : string) :
  In other (Telegram.chatIds (snd (TelegramAdmin.addChatId config chatId)))
  <-> other = chatId \/ In other (Telegram.chatIds config).
Proof.
  rewrite addChatId_chatIds.
  destruct (JS.includes chatId (Telegram.chatIds config)) eqn:E.
  - apply includes_In in E. split; [tauto|]. intros [->|H]; assumption.
  - rewrite in_app_iff. simpl. split; [intros [H|[<-|[]]]; auto | intros [->|H]; auto].
Qed.

Lemma removeChatId_count (config : Telegram.Config) (chatId other : string) :
  count_occ String.string_dec
    (Telegram.chatIds (snd (TelegramAdmin.removeChatId config chatId))) other
  = if String.string_dec other chatId
    then Nat.pred (count_occ String.string_dec (Telegram.chatIds config) other)
    else count_occ String.string_dec (Telegram.chatIds config) other.
Proof.
  rewrite removeChatId_chatIds.
  pose proof (indexOf_split chatId (Telegram.chatIds config)) as Hidx.
  destruct (JSArray.indexOf chatId (Telegram.chatIds config)).
  - destruct Hidx as (l1 & l2 & -> & Hnot & ->).
    rewrite !List.count_occ_app. simpl.
    destruct (String.string_dec other chatId) as [->|Hne].
    + destruct (String.string_dec chatId chatId); [|congruence]. lia.
    + destruct (String.string_dec chatId other); [congruence|reflexivity].
  - destruct (String.string_dec other chatId) as [->|]; [|reflexivity].
    apply (List.count_occ_not_In String.string_dec) in Hidx. rewrite Hidx. reflexivity.
Qed.

Lemma removeChatId_NoDup (config : Telegram.Config) (chatId : string) :
  List.NoDup (Telegram.chatIds config) ->
  List.NoDup (Telegram.chatIds (snd (TelegramAdmin.removeChatId config chatId)))
  /\ forall other,
       In other (Telegram.chatIds (snd (TelegramAdmin.removeChatId config chatId)))
       <-> other <> chatId /\ In other (Telegram.chatIds config).
Proof.
  intros Hnd. rewrite removeChatId_chatIds.
  pose proof (indexOf_split chatId (Telegram.chatIds config)) as Hidx.
  destruct (JSArray.indexOf chatId (Telegram.chatIds config)).
  - destruct Hidx as (l1 & l2 & E & Hnot & ->). rewrite E in Hnd |- *.
    split; [now apply List.NoDup_remove_1 in Hnd|].
    apply List.NoDup_remove_2 in Hnd. intros other. rewrite !in_app_iff. simpl.
    split.
    + intros H. split; [|tauto]. intros ->. apply Hnd, in_or_app. exact H.
    + intros [Hne [H|[H|H]]]; auto. congruence.
  - split; [exact Hnd|]. intros other. split; [|tauto].
    intros H. split; [|exact H]. intros ->. contradiction.
Qed.

(** X18. Chat ids behave as a set under [addChatId] and [removeChatId]:
    adding makes the id present, keeps every other id, keeps the list free
    of duplicates, and adding it again changes nothing; removing answers
    [true] exactly when the id was present, drops only its first
    occurrence (so from a duplicate-free list the id is gone and every
    other id stays), and undoes an addition of a new id. *)
Theorem chat_ids_add_remove (config : Telegram.Config) (chatId : string) :
  let added := snd (TelegramAdmin.addChatId config chatId) in
  let removed := snd (TelegramAdmin.removeChatId config chatId) in
  (forall other, In other (Telegram.chatIds added)
                 <-> other = chatId \/ In other (Telegram.chatIds config))
  /\ (List.NoDup (Telegram.chatIds config) -> List.NoDup (Telegram.chatIds added))
  /\ TelegramAdmin.addChatId added chatId = (true, added)
  /\ (fst (TelegramAdmin.removeChatId config chatId) = true
      <-> In chatId (Telegram.chatIds config))
  /\ (forall other,
        count_occ String.string_dec (Telegram.chatIds removed) other
        = if String.string_dec other chatId
          then Nat.pred (count_occ String.string_dec (Telegram.chatIds config) other)
          else count_occ String.string_dec (Telegram.chatIds config) other)
  /\ (List.NoDup (Telegram.chatIds config) ->
      List.NoDup (Telegram.chatIds removed)
      /\ forall other, In other (Telegram.chatIds removed)
                       <-> other <> chatId /\ In other (Telegram.chatIds config))
  /\ (~ In chatId (Telegram.chatIds config) ->
      snd (TelegramAdmin.removeChatId added chatId) = config).
Proof.
  intros added removed.
  pose proof (includes_In chatId (Telegram.chatIds config)) as Hinc.
  split; [|split; [|split; [|split; [|split; [|split]]]]].
  - intros other. apply addChatId_In.
  - intros Hnd. unfold added. rewrite addChatId_chatIds.
    destruct (JS.includes chatId (Telegram.chatIds config)) eqn:E; [exact Hnd|].
    assert (Hnot : ~ In chatId (Telegram.chatIds config)).
    { intros H. apply Hinc in H. congruence. }
    apply List.NoDup_rev in Hnd. apply (List.NoDup_cons chatId) in Hnd.
    + apply List.NoDup_rev in Hnd. simpl in Hnd. now rewrite List.rev_involutive in Hnd.
    + now rewrite <- List.in_rev.
  - unfold TelegramAdmin.addChatId at 1.
    assert (Hin : JS.includes chatId (Telegram.chatIds added) = true).
    { apply includes_In, addChatId_In. now left. }
    now rewrite Hin.
  - unfold TelegramAdmin.removeChatId.
    pose proof (indexOf_split chatId (Telegram.chatIds config)) as Hidx.
    destruct (JSArray.indexOf chatId (Telegram.chatIds config)); simpl.
    + destruct Hidx as (l1 & l2 & -> & _). split; [intros _|reflexivity].
      apply in_or_app. right. now left.
    + split; [discriminate | contradiction].
  - intros other. apply removeChatId_count.
  - apply removeChatId_NoDup.
  - intros Hnot. unfold added, TelegramAdmin.addChatId.
    destruct (JS.includes chatId (Telegram.chatIds config)) eqn:E.
    { apply includes_In in E. contradiction. }
    cbn [negb snd]. unfold TelegramAdmin.removeChatId.
    cbn [TelegramAdmin.setChatIds Telegram.chatIds].
    pose proof (indexOf_snoc_fresh chatId (Telegram.chatIds config) Hnot) as Hidx'.
    destruct (JSArray.indexOf chatId (Telegram.chatIds config ++ [chatId])) as [i|];
      [|contradiction].
    cbn [snd]. unfold TelegramAdmin.setChatIds. cbn [Telegram.enabled Telegram.botToken
      Telegram.chatIds Telegram.notificationRules]. rewrite Hidx'.
    destruct config. reflexivity.
Qed.

(** X19. The chat routes keep the chat list numeric: [POST
    /telegram/chat-ids] answers 200 exactly for an id made of an optional
    minus sign and decimal digits, and leaves the configuration alone
    otherwise; a list of numeric ids stays numeric under both routes.  A
    chat removed by [DELETE /telegram/chat-ids/:chatId] from a
    duplicate-free list is not posted to by a later broadcast, whatever the
    transport does. *)
Theorem chat_routes_sound (config : Telegram.Config) (chatId : string) :
  let posted := TelegramAdmin.postChatId config chatId in
  let deleted := snd (TelegramAdmin.deleteChatId config chatId) in
  (WarningAdmin.status (fst posted) = 200%nat <-> TelegramAdmin.isChatId chatId = true)
  /\ (TelegramAdmin.isChatId chatId = false ->
      posted = ({| WarningAdmin.status := 400; WarningAdmin.success := false |}, config))
  /\ (List.Forall (fun s => TelegramAdmin.isChatId s = true) (Telegram.chatIds config) ->
      List.Forall (fun s => TelegramAdmin.isChatId s = true) (Telegram.chatIds (snd posted))
      /\ List.Forall (fun s => TelegramAdmin.isChatId s = true) (Telegram.chatIds deleted))
  /\ (List.NoDup (Telegram.chatIds config) ->
      forall (World : Type) (post : string -> string -> string -> JS.M World unit)
             (message : string) (w : World) (sent : bool),
        ~ In (chatId, sent)
             (fst (Telegram.deliveries post deleted message (Telegram.chatIds deleted) w))).
Proof.
  intros posted deleted.
  assert (Hposted : posted
                    = if TelegramAdmin.isChatId chatId
                      then ({| WarningAdmin.status := 200; WarningAdmin.success := true |},
                            snd (TelegramAdmin.addChatId config chatId))
                      else ({| WarningAdmin.status := 400; WarningAdmin.success := false |},
                            config)).
  { unfold posted, TelegramAdmin.postChatId.
    destruct (String.eqb_spec chatId "") as [->|_]; [reflexivity|].
    destruct (TelegramAdmin.isChatId chatId); [|reflexivity].
    unfold TelegramAdmin.addChatId.
    now destruct (JS.includes chatId (Telegram.chatIds config)). }
  assert (Hdeleted : deleted = snd (TelegramAdmin.removeChatId config chatId)).
  { unfold deleted, TelegramAdmin.deleteChatId.
    now destruct (TelegramAdmin.removeChatId config chatId). }
  pose proof (addChatId_In config chatId) as Hadd.
  pose proof (removeChatId_count config chatId) as Hcount.
  pose proof (removeChatId_NoDup config chatId) as Hrem.
  split; [|split; [|split]].
  - rewrite Hposted. destruct (TelegramAdmin.isChatId chatId); simpl; split; congruence.
  - intros E. rewrite Hposted, E. reflexivity.
  - intros Hall. rewrite List.Forall_forall in Hall. split; apply List.Forall_forall.
    + rewrite Hposted. destruct (TelegramAdmin.isChatId chatId) eqn:E; cbn [snd]; [|exact Hall].
      intros s Hs. apply Hadd in Hs as [->|Hs]; [exact E | now apply Hall].
    + rewrite Hdeleted. intros s Hs. apply Hall.
      apply (List.count_occ_In String.string_dec).
      apply (List.count_occ_In String.string_dec) in Hs. rewrite Hcount in Hs.
      destruct (String.string_dec s chatId); lia.
  - intros Hnd World post message w sent Hin.
    apply (List.in_map fst) in Hin. rewrite deliveries_chatIds in Hin. cbn [fst] in Hin.
    rewrite Hdeleted in Hin. apply Hrem in Hin; [|exact Hnd]. now destruct Hin.
Qed.

(** X20. [POST /telegram/config] changes the stored bot token only to a
    posted token that is not empty, differs from the masked token the
    settings page shows, and was accepted by the messaging API.  Posting
    the masked token back keeps the stored token without asking the API;
    a rejected token answers 400 and changes nothing; and with any other
    answer the [enabled] flag is the posted one, or the stored one when
    none is posted.  Chat ids and notification rules are never touched. *)
Theorem postTelegramConfig_token (tokenAccepted : string -> bool)
    (config : Telegram.Config) (enabled : option bool) (botToken : option string) :
  let reply := fst (TelegramAdmin.postTelegramConfig tokenAccepted config enabled botToken) in
  let config' := snd (TelegramAdmin.postTelegramConfig tokenAccepted config enabled botToken) in
  Telegram.chatIds config' = Telegram.chatIds config
  /\ Telegram.notificationRules config' = Telegram.notificationRules config
  /\ (Telegram.botToken config' <> Telegram.botToken config ->
      botToken = Some (Telegram.botToken config')
      /\ tokenAccepted (Telegram.botToken config') = true
      /\ Telegram.botToken config' <> ""
      /\ Telegram.botToken config' <> TelegramAdmin.maskedToken config)
  /\ (botToken = Some (TelegramAdmin.maskedToken config) ->
      forall verdict,
        TelegramAdmin.postTelegramConfig verdict config enabled botToken
        = ({| WarningAdmin.status := 200; WarningAdmin.success := true |},
           snd (TelegramAdmin.updateConfig config
                  {| TelegramAdmin.cu_enabled := Some (default (Telegram.enabled config) enabled);
                     TelegramAdmin.cu_botToken := None;
                     TelegramAdmin.cu_chatIds := None;
                     TelegramAdmin.cu_notificationRules := None |})))
  /\ (WarningAdmin.status reply <> 200%nat ->
      config' = config
      /\ exists token, botToken = Some token /\ tokenAccepted token = false)
  /\ (WarningAdmin.status reply = 200%nat ->
      Telegram.enabled config' = default (Telegram.enabled config) enabled).
Proof.
  intros reply config'. subst reply config'. unfold TelegramAdmin.postTelegramConfig.
  destruct botToken as [token|].
  2:{ cbn. repeat split; congruence. }
  change (default "" (Some token)) with token.
  unfold WarningAdmin.givenString.
  destruct (String.eqb_spec token "") as [->|Hne]; cbn [negb andb].
  { cbn. repeat split; congruence. }
  destruct (String.eqb_spec token (TelegramAdmin.maskedToken config)) as [->|Hmask];
    cbn [negb].
  { cbn [fst snd TelegramAdmin.updateConfig].
    split; [|split; [|split; [|split; [|split]]]]; cbn; congruence. }
  destruct (tokenAccepted token) eqn:Hacc; cbn.
  - repeat split; congruence.
  - repeat split; try congruence. exists token. now split.
Qed.

(** ** Notification rules *)

Lemma filter_snoc_fresh {A : Type} (f : A -> bool) (l : list A) (x : A) :
  (forall y, In y l -> f y = true) -> f x = false -> List.filter f (l ++ [x]) = l.
Proof.
  intros Hl Hx. rewrite List.filter_app. simpl. rewrite Hx, List.app_nil_r.
  induction l as [|a l IH]; simpl; [reflexivity|].
  rewrite (Hl a) by now left. f_equal. apply IH. intros y Hy. apply Hl. now right.
Qed.

(** X21. [POST /rules] rejects a body without a type, or without the id its
    type links to, and then changes nothing.  Otherwise it appends one rule
    named after the time of the request, enabled unless the body says
    otherwise, and the only notifications it adds are those for the
    warning type (or the automation rule) the body links to: a new warning
    subscription never makes [shouldNotifyForRule] answer differently.
    Deleting the new rule again restores the configuration when its id was
    not in use. *)
Theorem postRule_subscribes (config : Telegram.Config) (clock : Clock)
    (body : TelegramAdmin.RuleBody) :
  let reply := fst (TelegramAdmin.postRule config clock body) in
  let config' := snd (TelegramAdmin.postRule config clock body) in
  let id := "notification-" +:+ pretty (now_ms clock) in
  let type := default "" (TelegramAdmin.rb_type body) in
  (TelegramAdmin.ruleBodyInvalid body = true ->
   reply = {| WarningAdmin.status := 400; WarningAdmin.success := false |}
   /\ config' = config)
  /\ (TelegramAdmin.ruleBodyInvalid body = false ->
      reply = {| WarningAdmin.status := 200; WarningAdmin.success := true |}
      /\ Telegram.notificationRules config'
         = Telegram.notificationRules config ++ [TelegramAdmin.ruleOfBody id body]
      /\ (forall warningTypeId,
            TelegramAdmin.shouldNotifyForWarning config' warningTypeId
            = TelegramAdmin.shouldNotifyForWarning config warningTypeId
              || (Telegram.enabled config && default true (TelegramAdmin.rb_enabled body)
                  && String.eqb type "warning"
                  && TelegramAdmin.linkedTo (TelegramAdmin.rb_warningType body) warningTypeId))
      /\ (forall ruleId,
            TelegramAdmin.shouldNotifyForRule config' ruleId
            = TelegramAdmin.shouldNotifyForRule config ruleId
              || (Telegram.enabled config && default true (TelegramAdmin.rb_enabled body)
                  && String.eqb type "rule"
                  && TelegramAdmin.linkedTo (TelegramAdmin.rb_ruleId body) ruleId))
      /\ ((forall rule, In rule (Telegram.notificationRules config) ->
                        Telegram.nr_id rule <> id) ->
          snd (TelegramAdmin.deleteNotificationRule config' id) = config)).
Proof.
  intros reply config' id type. subst reply config'. unfold TelegramAdmin.postRule.
  fold id. destruct (TelegramAdmin.ruleBodyInvalid body).
  { split; [now split | discriminate]. }
  split; [discriminate|]. intros _.
  cbn [fst snd TelegramAdmin.addNotificationRule].
  split; [reflexivity|split; [reflexivity|split; [|split]]].
  - intros w. unfold TelegramAdmin.shouldNotifyForWarning.
    cbn [TelegramAdmin.setRules Telegram.enabled Telegram.notificationRules].
    destruct (Telegram.enabled config); cbn [negb andb]; [|reflexivity].
    rewrite existsb_app. f_equal. cbn [existsb TelegramAdmin.ruleOfBody
      Telegram.nr_enabled Telegram.nr_type Telegram.nr_warningType]. fold type.
    rewrite orb_false_r.
    destruct (default true (TelegramAdmin.rb_enabled body)); cbn [andb]; [|reflexivity].
    now destruct (String.eqb type "warning").
  - intros r. unfold TelegramAdmin.shouldNotifyForRule.
    cbn [TelegramAdmin.setRules Telegram.enabled Telegram.notificationRules].
    destruct (Telegram.enabled config); cbn [negb andb]; [|reflexivity].
    rewrite existsb_app. f_equal. cbn [existsb TelegramAdmin.ruleOfBody
      Telegram.nr_enabled Telegram.nr_type Telegram.nr_ruleId]. fold type.
    rewrite orb_false_r.
    destruct (default true (TelegramAdmin.rb_enabled body)); cbn [andb]; [|reflexivity].
    now destruct (String.eqb type "rule").
  - intros Hfresh. unfold TelegramAdmin.deleteNotificationRule. cbn [snd].
    cbn [TelegramAdmin.setRules Telegram.enabled Telegram.notificationRules
         Telegram.botToken Telegram.chatIds].
    rewrite filter_snoc_fresh.
    + now destruct config.
    + intros rule Hin. apply negb_true_iff, String.eqb_neq. now apply Hfresh.
    + cbn [TelegramAdmin.ruleOfBody Telegram.nr_id]. now rewrite String.eqb_refl.
Qed.

(** X22. [deleteNotificationRule] only ever silences: afterwards a warning
    type is notified exactly when the notifier is enabled and a rule with
    another id, enabled and of type "warning", links to it; so whatever is
    notified afterwards was notified before, and a warning type whose
    subscriptions all carry the deleted id is no longer notified.  The
    rules that stay keep their order, and everything else in the
    configuration is left as it was. *)
Theorem deleteNotificationRule_silences (config : Telegram.Config) (ruleId : string) :
  let config' := snd (TelegramAdmin.deleteNotificationRule config ruleId) in
  (forall warningTypeId,
     TelegramAdmin.shouldNotifyForWarning config' warningTypeId = true
     <-> Telegram.enabled config = true
         /\ exists rule, In rule (Telegram.notificationRules config)
                         /\ Telegram.nr_id rule <> ruleId
                         /\ Telegram.nr_enabled rule = true
                         /\ Telegram.nr_type rule = "warning"
                         /\ Telegram.nr_warningType rule = Some warningTypeId)
  /\ (forall warningTypeId,
        TelegramAdmin.shouldNotifyForWarning config' warningTypeId = true ->
        TelegramAdmin.shouldNotifyForWarning config warningTypeId = true)
  /\ sublist (Telegram.notificationRules config') (Telegram.notificationRules config)
  /\ (forall rule, In rule (Telegram.notificationRules config') ->
                   Telegram.nr_id rule <> ruleId)
  /\ Telegram.enabled config' = Telegram.enabled config
  /\ Telegram.botToken config' = Telegram.botToken config
  /\ Telegram.chatIds config' = Telegram.chatIds config.
Proof.
  intros config'. subst config'. cbn [snd TelegramAdmin.deleteNotificationRule].
  assert (Hchar : forall w,
    TelegramAdmin.shouldNotifyForWarning
      (TelegramAdmin.setRules config
         (List.filter (fun rule => negb (String.eqb (Telegram.nr_id rule) ruleId))
                      (Telegram.notificationRules config))) w = true
    <-> Telegram.enabled config = true
        /\ exists rule, In rule (Telegram.notificationRules config)
                        /\ Telegram.nr_id rule <> ruleId
                        /\ Telegram.nr_enabled rule = true
                        /\ Telegram.nr_type rule = "warning"
                        /\ Telegram.nr_warningType rule = Some w).
  { intros w. unfold TelegramAdmin.shouldNotifyForWarning.
    cbn [TelegramAdmin.setRules Telegram.enabled Telegram.notificationRules].
    destruct (Telegram.enabled config); cbn [negb].
    2:{ split; [discriminate | intros [? _]; discriminate]. }
    rewrite existsb_exists. split.
    - intros (rule & Hin & Hr). apply List.filter_In in Hin as [Hin Hid].
      apply negb_true_iff, String.eqb_neq in Hid.
      apply andb_true_iff in Hr as [Hr Hlink]. apply andb_true_iff in Hr as [Hen Hty].
      apply String.eqb_eq in Hty. unfold TelegramAdmin.linkedTo in Hlink.
      destruct (Telegram.nr_warningType rule) as [s|] eqn:El; [|discriminate].
      apply String.eqb_eq in Hlink. subst s.
      split; [reflexivity|]. exists rule. tauto.
    - intros (_ & rule & Hin & Hid & Hen & Hty & Hlink). exists rule. split.
      + apply List.filter_In. split; [exact Hin|]. now apply negb_true_iff, String.eqb_neq.
      + rewrite Hen, Hty, Hlink. cbn. now rewrite String.eqb_refl. }
  split; [exact Hchar|]. split; [|split; [|split; [|now repeat split]]].
  - intros w Hw. apply Hchar in Hw as (Hen & rule & Hin & _ & Hre & Hty & Hlink).
    unfold TelegramAdmin.shouldNotifyForWarning. rewrite Hen. cbn [negb].
    apply existsb_exists. exists rule. split; [exact Hin|].
    rewrite Hre, Hty, Hlink. cbn. now rewrite String.eqb_refl.
  - apply sublist_List_filter.
  - cbn [TelegramAdmin.setRules Telegram.notificationRules].
    intros rule Hin. apply List.filter_In in Hin as [_ Hid].
    now apply negb_true_iff, String.eqb_neq in Hid.
Qed.

Lemma map_insert_same {A B : Type} (f : A -> B) (l : list A) :
  forall i x y, l !! i = Some x -> f y = f x -> List.map f (<[i := y]> l) = List.map f l.
Proof.
  induction l as [|a l IH]; intros [|i] x y; simpl; try discriminate.
  - intros [= ->] E. now rewrite E.
  - intros Hi E. f_equal. now apply (IH i x y).
Qed.

Lemma updateNotificationRule_cases (config : Telegram.Config) (ruleId : string)
    (updates : TelegramAdmin.RuleUpdate) :
  let ok := fst (TelegramAdmin.updateNotificationRule config ruleId updates) in
  let config' := snd (TelegramAdmin.updateNotificationRule config ruleId updates) in
  (ok = true <-> exists rule, In rule (Telegram.notificationRules config)
                              /\ Telegram.nr_id rule = ruleId)
  /\ (ok = false -> config' = config)
  /\ length (Telegram.notificationRules config') = length (Telegram.notificationRules config)
  /\ (default ruleId (TelegramAdmin.ru_id updates) = ruleId ->
      List.map Telegram.nr_id (Telegram.notificationRules config')
      = List.map Telegram.nr_id (Telegram.notificationRules config))
  /\ Telegram.enabled config' = Telegram.enabled config
  /\ Telegram.botToken config' = Telegram.botToken config
  /\ Telegram.chatIds config' = Telegram.chatIds config.
Proof.
  intros ok config'. subst ok config'. unfold TelegramAdmin.updateNotificationRule.
  set (p := fun rule => String.eqb (Telegram.nr_id rule) ruleId).
  pose proof (findIndex_find p (Telegram.notificationRules config)) as Hfind.
  destruct (JSArray.findIndex p (Telegram.notificationRules config)) as [i|].
  - destruct Hfind as (rule & Hi & Hp & _). rewrite Hi. cbn [fst snd].
    unfold p in Hp. apply String.eqb_eq in Hp.
    split; [|split; [discriminate|split; [|split; [|now repeat split]]]].
    + split; [intros _|reflexivity]. exists rule. split; [|exact Hp].
      apply list_elem_of_In. eapply list_elem_of_lookup_2. exact Hi.
    + cbn [TelegramAdmin.setRules Telegram.notificationRules]. apply length_insert.
    + intros Hid. cbn [TelegramAdmin.setRules Telegram.notificationRules].
      apply (map_insert_same Telegram.nr_id _ i rule); [exact Hi|].
      cbn [TelegramAdmin.mergeRule Telegram.nr_id]. rewrite Hp.
      destruct (TelegramAdmin.ru_id updates); exact Hid.
  - cbn [fst snd]. split; [|now repeat split].
    split; [discriminate|]. intros (rule & Hin & Hid).
    apply (List.find_none _ _ Hfind) in Hin. unfold p in Hin.
    apply String.eqb_neq in Hin. contradiction.
Qed.

Lemma batchLoop_invariant (rules : list TelegramAdmin.RuleUpdate) :
  forall (config : Telegram.Config) (successCount : nat) (results : list (string * bool)),
  exists new,
    snd (fst (TelegramAdmin.batchLoop config rules successCount results)) = results ++ new
    /\ fst (fst (TelegramAdmin.batchLoop config rules successCount results))
       = (successCount + Telegram.successes new)%nat
    /\ length new = length rules
    /\ (forall id, In (id, true) new ->
                   In id (List.map Telegram.nr_id (Telegram.notificationRules config)))
    /\ let config' := snd (TelegramAdmin.batchLoop config rules successCount results) in
       List.map Telegram.nr_id (Telegram.notificationRules config')
       = List.map Telegram.nr_id (Telegram.notificationRules config)
       /\ Telegram.enabled config' = Telegram.enabled config
       /\ Telegram.botToken config' = Telegram.botToken config
       /\ Telegram.chatIds config' = Telegram.chatIds config.
Proof.
  induction rules as [|rule rest IH]; intros config n results; cbn [TelegramAdmin.batchLoop].
  - exists []. cbn. rewrite List.app_nil_r. repeat split; [lia | intros ? []].
  - destruct (negb (WarningAdmin.givenString (TelegramAdmin.ru_id rule))
              || negb (WarningAdmin.givenString (TelegramAdmin.ru_type rule))) eqn:Egiven.
    + destruct (IH config n
                  (results ++ [(WarningAdmin.orString (TelegramAdmin.ru_id rule) "unknown",
                                false)]))
        as (new & Hres & Hcount & Hlen & Hin & Hcfg).
      exists ((WarningAdmin.orString (TelegramAdmin.ru_id rule) "unknown", false) :: new).
      rewrite Hres, Hcount, <- List.app_assoc. cbn [length].
      split; [reflexivity|split; [reflexivity|split; [now rewrite Hlen|split; [|exact Hcfg]]]].
      intros id [H|H]; [discriminate | now apply Hin].
    + apply orb_false_iff in Egiven as [Eid _]. apply negb_false_iff in Eid.
      destruct (TelegramAdmin.ru_id rule) as [id|] eqn:Erid; [|discriminate].
      change (default "" (Some id)) with id.
      pose proof (updateNotificationRule_cases config id rule)
        as (Hok & _ & _ & Hids & Hen & Htok & Hchats).
      rewrite Erid in Hids. specialize (Hids eq_refl).
      destruct (TelegramAdmin.updateNotificationRule config id rule) as [ok config1].
      cbn [fst snd] in *.
      destruct (IH config1 (if ok then S n else n) (results ++ [(id, ok)]))
        as (new & Hres & Hcount & Hlen & Hin & Hcfg).
      exists ((id, ok) :: new).
      rewrite Hres, Hcount, <- List.app_assoc. cbn [length].
      split; [reflexivity|split; [|split; [now rewrite Hlen|split]]].
      * unfold Telegram.successes. cbn [List.filter snd]. destruct ok; cbn [length]; lia.
      * intros id' [[= <- ->]|H].
        -- destruct Hok as [Hok _]. destruct (Hok eq_refl) as (r & Hr & <-).
           now apply List.in_map.
        -- rewrite <- Hids. now apply Hin.
      * cbv zeta in Hcfg |- *. destruct Hcfg as (H1 & H2 & H3 & H4).
        repeat split; congruence.
Qed.

(** X23. [POST /rules/batch] answers one verdict for every rule posted, in
    order.  It neither adds nor removes a notification rule nor changes an
    id, and leaves the [enabled] flag, the bot token and the chat ids
    alone; a verdict is positive only for the id of a rule that exists,
    and the reply reports success exactly when some verdict is positive. *)
Theorem postRulesBatch_sound (config : Telegram.Config)
    (rules : list TelegramAdmin.RuleUpdate) :
  let reply := fst (fst (TelegramAdmin.postRulesBatch config rules)) in
  let results := snd (fst (TelegramAdmin.postRulesBatch config rules)) in
  let config' := snd (TelegramAdmin.postRulesBatch config rules) in
  length results = length rules
  /\ List.map Telegram.nr_id (Telegram.notificationRules config')
     = List.map Telegram.nr_id (Telegram.notificationRules config)
  /\ Telegram.enabled config' = Telegram.enabled config
  /\ Telegram.botToken config' = Telegram.botToken config
  /\ Telegram.chatIds config' = Telegram.chatIds config
  /\ (forall id, In (id, true) results ->
                 exists rule, In rule (Telegram.notificationRules config)
                              /\ Telegram.nr_id rule = id)
  /\ (WarningAdmin.success reply = true <-> exists id, In (id, true) results)
  /\ WarningAdmin.status reply = 200%nat.
Proof.
  intros reply results config'. subst reply results config'.
  unfold TelegramAdmin.postRulesBatch.
  destruct (batchLoop_invariant rules config 0%nat [])
    as (new & Hres & Hcount & Hlen & Hin & Hcfg).
  destruct (TelegramAdmin.batchLoop config rules 0%nat []) as [[successCount results] config'].
  cbn [fst snd] in *. cbv zeta in Hcfg. destruct Hcfg as (H1 & H2 & H3 & H4). subst results.
  cbn [app]. repeat split; try assumption.
  - intros id Hid. apply Hin in Hid. apply List.in_map_iff in Hid as (rule & E & Hr).
    now exists rule.
  - intros H. apply Nat.ltb_lt in H. apply successes_pos. lia.
  - intros H. apply Nat.ltb_lt. apply successes_pos in H. lia.
Qed.

(** ** The routes that create and edit warning types *)

(** X24. [POST /warnings/types] and [PUT /warnings/types/:id] answer 400 to
    a body without name, parameter, condition or threshold, and [PUT]
    answers 404 to an id that does not resolve; the document is then
    unchanged.  Otherwise [POST] appends a rule named after the time of the
    request and [PUT] makes the id resolve to the rule of the body.  In
    both, the rule is disabled unless the body enables it (so an edit that
    omits [enabled] switches the rule off), its cooldown is never zero (a
    missing or zero cooldown becomes 30 minutes) and its priority is
    "medium" when none is given.  After a [POST] that does not enable the
    rule, every event of an evaluation still belongs to an enabled rule
    that was there before. *)
Theorem warning_type_routes (config : Warning.Config) (clock : Clock) (id : string)
    (body : WarningAdmin.WarningBody) :
  let posted := WarningAdmin.postWarningType config clock body in
  let put := WarningAdmin.putWarningType config id body in
  let newId := "warning-" +:+ pretty (now_ms clock) in
  (WarningAdmin.missingFields body = true ->
   posted = ({| WarningAdmin.status := 400; WarningAdmin.success := false |}, config)
   /\ put = ({| WarningAdmin.status := 400; WarningAdmin.success := false |}, config))
  /\ (WarningAdmin.missingFields body = false ->
      Warning.getWarningTypeById config id = None ->
      put = ({| WarningAdmin.status := 404; WarningAdmin.success := false |}, config))
  /\ (WarningAdmin.missingFields body = false ->
      fst posted = {| WarningAdmin.status := 200; WarningAdmin.success := true |}
      /\ Warning.warningTypes (snd posted)
         = Warning.warningTypes config ++ [WarningAdmin.ruleOfBody newId body]
      /\ (is_Some (Warning.getWarningTypeById config id) ->
          fst put = {| WarningAdmin.status := 200; WarningAdmin.success := true |}
          /\ Warning.getWarningTypeById (snd put) id = Some (WarningAdmin.ruleOfBody id body)))
  /\ (forall anyId,
        let rule := WarningAdmin.ruleOfBody anyId body in
        Warning.wt_enabled rule = default false (WarningAdmin.b_enabled body)
        /\ ~ (Warning.wt_cooldownMinutes rule == 0)%Q
        /\ (WarningAdmin.b_cooldownMinutes body = None -> Warning.wt_cooldownMinutes rule = 30%Q)
        /\ Warning.wt_priority rule <> ""
        /\ (WarningAdmin.b_priority body = None -> Warning.wt_priority rule = "medium"))
  /\ (default false (WarningAdmin.b_enabled body) = false ->
      forall clock' st e,
        In e (fst (Warning.checkWarnings (snd posted) clock' st)) ->
        exists wt v, In wt (Warning.warningTypes config) /\ Warning.wt_enabled wt = true
                     /\ e = Warning.mkInstance clock' st wt v).
Proof.
  intros posted put newId. subst posted put.
  unfold WarningAdmin.postWarningType, WarningAdmin.putWarningType. fold newId.
  assert (Hadd : WarningAdmin.addWarningType config clock (WarningAdmin.ruleOfBody newId body)
                 = (WarningAdmin.ruleOfBody newId body,
                    WarningAdmin.setTypes config
                      (Warning.warningTypes config ++ [WarningAdmin.ruleOfBody newId body]))).
  { unfold WarningAdmin.addWarningType. cbn [WarningAdmin.ruleOfBody Warning.wt_id].
    destruct (String.eqb_spec newId "") as [E|_]; [|reflexivity].
    cbv in E. discriminate. }
  rewrite Hadd. clear Hadd.
  destruct (WarningAdmin.missingFields body).
  { split; [now split|]. split; [discriminate|]. split; [discriminate|].
    split; [|intros _ clock' st e He; now apply checkWarnings_event_rule in He].
    intros anyId. cbn [WarningAdmin.ruleOfBody Warning.wt_enabled Warning.wt_cooldownMinutes
                       Warning.wt_priority]. split; [reflexivity|].
    split; [|split; [now intros ->|split; [|now intros ->]]].
    - unfold WarningAdmin.orCooldown.
      destruct (WarningAdmin.b_cooldownMinutes body) as [c|]; [|discriminate].
      destruct (Qeq_bool c 0) eqn:E; [discriminate|]. now apply Qeq_bool_neq.
    - unfold WarningAdmin.orString, WarningAdmin.givenString.
      destruct (WarningAdmin.b_priority body) as [s|]; [|discriminate].
      destruct (String.eqb_spec s "") as [->|Hne]; [discriminate | exact Hne]. }
  split; [discriminate|]. split; [|split; [|split]].
  - intros _ Hnone. now rewrite Hnone.
  - intros _. cbn [fst snd]. split; [reflexivity|]. split; [reflexivity|].
    intros [old Hold]. rewrite Hold.
    unfold WarningAdmin.updateWarningType.
    pose proof (findIndex_find (fun warning => String.eqb (Warning.wt_id warning) id)
                  (Warning.warningTypes config)) as Hfi.
    destruct (JSArray.findIndex _ (Warning.warningTypes config)) as [i|] eqn:Ei.
    + cbn [fst snd]. split; [reflexivity|]. unfold Warning.getWarningTypeById.
      cbn [WarningAdmin.setTypes Warning.warningTypes].
      rewrite (find_insert_first (fun warning => String.eqb (Warning.wt_id warning) id)
                 (WarningAdmin.setId (WarningAdmin.ruleOfBody "" body) id) _ i Ei).
      * reflexivity.
      * cbn. apply String.eqb_refl.
    + unfold Warning.getWarningTypeById in Hold. congruence.
  - intros anyId. cbn [WarningAdmin.ruleOfBody Warning.wt_enabled Warning.wt_cooldownMinutes
                       Warning.wt_priority]. split; [reflexivity|].
    split; [|split; [now intros ->|split; [|now intros ->]]].
    + unfold WarningAdmin.orCooldown.
      destruct (WarningAdmin.b_cooldownMinutes body) as [c|]; [|discriminate].
      destruct (Qeq_bool c 0) eqn:E; [discriminate|]. now apply Qeq_bool_neq.
    + unfold WarningAdmin.orString, WarningAdmin.givenString.
      destruct (WarningAdmin.b_priority body) as [s|]; [|discriminate].
      destruct (String.eqb_spec s "") as [->|Hne]; [discriminate | exact Hne].
  - intros Hoff clock' st e He. cbn [snd] in He.
    apply checkWarnings_event_rule in He as (wt & v & Hwt & Hen & ->).
    cbn [WarningAdmin.setTypes Warning.warningTypes] in Hwt.
    apply in_app_or in Hwt as [Hwt|[<-|[]]]; [now exists wt, v|].
    cbn [WarningAdmin.ruleOfBody Warning.wt_enabled] in Hen. congruence.
Qed.

(** ** Good prices and cheapest hours together *)

(** X25. When prices are judged by amount (price levels are not used),
    [isPriceGood] prefers cheaper prices: a price no higher than a good
    one is good.  Hence, if any of the next 24 forecast hours is good, the
    first hour returned by [getCheapestHours] for that window is good. *)
Theorem cheapest_hour_is_good (s : Tibber.Service) (clock : Clock) (p : Tibber.PricePoint) :
  Tibber.usePriceLevels (Tibber.config s) = false ->
  Tibber.isPriceGood s clock (Some p) = true ->
  (forall q, (Tibber.total q <= Tibber.total p)%Q ->
             Tibber.isPriceGood s clock (Some q) = true)
  /\ (In p (firstn 24 (List.filter (Tibber.isFuture clock)
                         (Tibber.forecast (Tibber.cache s)))) ->
      forall count, exists best rest,
        Tibber.getCheapestHours s clock (S count) 24 = Tibber.cheapHour best :: rest
        /\ In best (Tibber.forecast (Tibber.cache s))
        /\ now_ms clock < Tibber.startsAt best
        /\ Tibber.isPriceGood s clock (Some best) = true).
Proof.
  intros Hmode Hgood.
  assert (Hmono : forall q, (Tibber.total q <= Tibber.total p)%Q ->
                            Tibber.isPriceGood s clock (Some q) = true).
  { intros q Hle. unfold Tibber.isPriceGood in *. rewrite Hmode in *.
    destruct (Tibber.calculateAveragePrice s clock 24) as [avg|].
    - apply Qlt_bool_iff. apply Qlt_bool_iff in Hgood. lra.
    - destruct (Tibber.maxPriceThreshold (Tibber.config s)) as [threshold|]; [|discriminate].
      apply Qleb_iff. apply Qleb_iff in Hgood. lra. }
  split; [exact Hmono|]. intros Hin count. rewrite getCheapestHours_eq.
  set (candidates := firstn 24 (List.filter (Tibber.isFuture clock)
                                  (Tibber.forecast (Tibber.cache s)))) in *.
  set (cmp := fun a b : Tibber.PricePoint => (Tibber.total a - Tibber.total b)%Q).
  destruct (JS.sort cmp candidates) as [|best sorted] eqn:Esort.
  { apply sort_nil_inv in Esort. rewrite Esort in Hin. destruct Hin. }
  destruct (sort_head_least cmp Tibber.total total_cmp_key candidates best sorted Esort)
    as [Hbest Hleast].
  exists best, (List.map Tibber.cheapHour (firstn count sorted)).
  split; [reflexivity|].
  assert (Hfut : In best (List.filter (Tibber.isFuture clock)
                            (Tibber.forecast (Tibber.cache s)))).
  { eapply In_firstn_inv. exact Hbest. }
  apply List.filter_In in Hfut as [Hfc Hfut]. split; [exact Hfc|].
  split; [now apply Z.ltb_lt|]. apply Hmono, Hleast, Hin.
Qed.

(** ** The properties with a precondition, on the scenarios *)

(** The low-battery rule fires in an evaluation that starts with another
    rule. *)
Lemma warning_fires_when_due_witness :
  In (Cases.event 0 Scenario.lowSoc)
     (fst (Warning.checkWarnings (Scenario.monitor [Scenario.highLoad; Scenario.lowSoc] 100)
             (Scenario.at_ 0 12) Scenario.telemetry)).
Proof.
  apply (warning_fires_when_due (Scenario.monitor [Scenario.highLoad; Scenario.lowSoc] 100)
           Scenario.lowSoc (Scenario.at_ 0 12) Scenario.telemetry 10%Q); reflexivity.
Defined.

(** Three events on record, read in pages of two. *)
Lemma getWarningHistory_pages_witness :
  let page k :=
    WarningAdmin.warnings
      (WarningAdmin.getWarningHistory Cases.recorded
         (WarningAdmin.withPage Cases.everything (Some 2) (Some (Z.of_nat k * 2)))) in
  page 0%nat ++ page 1%nat = Warning.warningHistory Cases.recorded
  /\ length (page 0%nat) = 2%nat /\ length (page 1%nat) = 1%nat.
Proof.
  intros page.
  destruct (getWarningHistory_pages Cases.recorded Cases.everything 2 2) as (_ & _ & Hall);
    [lia|].
  split; [|split; reflexivity].
  cbn [seq List.map concat] in Hall. rewrite app_nil_r in Hall. apply Hall.
  cbn. lia.
Defined.

(** The document is cut off twice in one process.  The first rule is added
    on the defaults and stays in them: the second addition writes both
    rules, although the document it found held none. *)
Lemma warning_document_mutation_witness :
  let parse := Scenario.parseEmptyObject Warning.defaultConfig in
  let start := {| WarningStore.defaults := WarningStore.pristine;
                  WarningStore.files := Scenario.corruptedData |} in
  let first := WarningStore.run parse Cases.ruleIds (Scenario.at_ 0 12)
                 (WarningStore.AddType Scenario.lowSoc) start in
  let again := {| WarningStore.defaults := WarningStore.defaults first;
                  WarningStore.files := Scenario.corruptedData |} in
  let second := WarningStore.run parse Cases.ruleIds (Scenario.at_ (Scenario.hours 1) 13)
                  (WarningStore.AddType Scenario.highLoad) again in
  WarningStore.files first !! Warning.WARNINGS_CONFIG_FILE = Some "low-soc"
  /\ WarningStore.files second !! Warning.WARNINGS_CONFIG_FILE = Some "low-soc,high-load"
  /\ WarningStore.files second !! Tibber.configFile = Some Scenario.truncated.
Proof.
  intros parse start first again second.
  destruct (warning_document_mutation parse Cases.ruleIds (Scenario.at_ (Scenario.hours 1) 13)
              (WarningStore.AddType Scenario.highLoad) again Scenario.truncated)
    as (Hother & Hdoc & _); [reflexivity|].
  split; [reflexivity|]. split.
  - unfold second. rewrite Hdoc. reflexivity.
  - unfold second. rewrite Hother by discriminate. reflexivity.
Defined.

(** The hourly forecast at [T0]: the cheapest hour is good. *)
Lemma cheapest_hour_is_good_witness :
  let s := Scenario.provider Cases.amountConfig Scenario.hourlyForecast in
  exists best rest,
    Tibber.getCheapestHours s (Scenario.at_ 0 12) 1 24 = Tibber.cheapHour best :: rest
    /\ Tibber.isPriceGood s (Scenario.at_ 0 12) (Some best) = true.
Proof.
  intros s.
  destruct (cheapest_hour_is_good s (Scenario.at_ 0 12)
              (Scenario.point (Scenario.hours 2) 20%Q "CHEAP")) as [_ H];
    [reflexivity | reflexivity |].
  destruct (H ltac:(right; left; reflexivity) 0%nat) as (best & rest & E & _ & _ & Hg).
  now exists best, rest.
Defined.

(** A refresh against the answer of the price API: three forecast hours, in
    cents. *)
Lemma refresh_outcome_witness :
  let s := Scenario.provider Scenario.keyedConfig [] in
  let result := Tibber.refreshData Scenario.answer (Scenario.at_ 0 12) s in
  fst result = JS.Ok true
  /\ length (Tibber.forecast (Tibber.cache (snd result))) = 3%nat
  /\ List.Forall (fun p => Tibber.pp_currency p = "cent")
       (Tibber.forecast (Tibber.cache (snd result))).
Proof.
  intros s result.
  destruct (refresh_outcome Scenario.answer (Scenario.at_ 0 12) s) as [Hiff Hdetail].
  assert (Hok : fst result = JS.Ok true) by reflexivity.
  destruct (Hdetail _ _ _ Hok eq_refl eq_refl eq_refl) as (_ & _ & Hfc & _ & Hcent & _).
  split; [exact Hok|]. split; [|exact Hcent].
  rewrite <- (List.length_map Tibber.startsAt). unfold result. rewrite Hfc. reflexivity.
Defined.

(** The blocked chat is removed from the notifier: the next broadcast does
    not post to it. *)
Lemma chat_routes_sound_witness :
  let deleted := snd (TelegramAdmin.deleteChatId Scenario.notifier "blocked") in
  Telegram.chatIds deleted = ["1001"; "1003"]
  /\ forall sent,
       ~ In ("blocked", sent)
            (fst (Telegram.deliveries Scenario.transport deleted "Low battery"
                    (Telegram.chatIds deleted) [])).
Proof.
  intros deleted. split; [reflexivity|]. intros sent.
  destruct (chat_routes_sound Scenario.notifier "blocked") as (_ & _ & _ & Hdel).
  apply Hdel. repeat constructor; simpl; intuition discriminate.
Defined.

(** The chats subscribe to the low-battery warning: it is notified from then
    on, and no automation rule is. *)
Lemma postRule_subscribes_witness :
  let config' := snd (TelegramAdmin.postRule Scenario.notifier (Scenario.at_ 0 12)
                        Cases.subscription) in
  TelegramAdmin.shouldNotifyForWarning Scenario.notifier "low-soc" = false
  /\ TelegramAdmin.shouldNotifyForWarning config' "low-soc" = true
  /\ forall ruleId, TelegramAdmin.shouldNotifyForRule config' ruleId = false.
Proof.
  intros config'.
  destruct (postRule_subscribes Scenario.notifier (Scenario.at_ 0 12) Cases.subscription)
    as [_ H].
  destruct (H eq_refl) as (_ & _ & Hw & Hr & _).
  split; [reflexivity|]. split; [unfold config'; rewrite Hw; reflexivity|].
  intros ruleId. unfold config'. rewrite Hr. reflexivity.
Defined.

(** A drafted rule on the grid voltage, which the telemetry meets: the
    evaluation after the request still yields the low-battery event only,
    and the draft's cooldown of zero has become 30 minutes. *)
Lemma warning_type_routes_witness :
  let posted := WarningAdmin.postWarningType (Scenario.monitor [Scenario.lowSoc] 100)
                  (Scenario.at_ 0 12) Cases.draft in
  WarningAdmin.status (fst posted) = 200%nat
  /\ List.map Warning.wt_cooldownMinutes (Warning.warningTypes (snd posted)) = [60%Q; 30%Q]
  /\ forall e, In e (fst (Warning.checkWarnings (snd posted) (Scenario.at_ 0 12)
                            Scenario.telemetry)) ->
               Warning.wi_warningTypeId e = "low-soc".
Proof.
  intros posted. split; [reflexivity|]. split; [reflexivity|]. intros e He.
  destruct (warning_type_routes (Scenario.monitor [Scenario.lowSoc] 100) (Scenario.at_ 0 12)
              "low-soc" Cases.draft) as (_ & _ & _ & _ & Hquiet).
  destruct (Hquiet eq_refl _ _ _ He) as (wt & v & [<-|[]] & _ & ->). reflexivity.
Defined.
